(** * ARGUS: the Algorand smart-contract scanner, embedded and verified

    A shallow embedding of the analysis pipeline of [algorand_scanner]
    (file discovery, format parsers, the built-in rule analyzer, the scan
    orchestrator and the report model) together with the properties that
    the specification states about it.

    Conventions of the embedding:
    - a Python [str] is a [string] whose characters are the code points
      below 256; [lower] and [strip] follow Python on that range;
    - a Python [int] is a [Z]; list positions that cannot be negative are [nat];
    - code that may raise returns a [result]; code that also logs, appends to
      the shared error list or awaits an analyzer is a [task], which pairs
      the result with the trace of those effects; a call that may wait
      forever is an [option] of a task, [None] when it never returns;
    - the file system, [ast.parse], [fnmatch.fnmatch] and the external
      command-line tools are parameters of the model. *)

From Stdlib Require Import List String Ascii Bool Arith ZArith Lia.
From Stdlib Require Import Permutation Sorting.Sorted Sorting.Mergesort Orders.
From Stdlib Require QArith ListSet.
Import ListNotations.

Local Open Scope string_scope.
Local Open Scope list_scope.
Local Open Scope Z_scope.

(* ================================================================== *)
(** * The fragments of the Python runtime that the scanner relies on   *)
(* ================================================================== *)

(** String concatenation, as Python's [+] on [str] and its f-strings. *)
Infix "+++" := String.append (at level 60, right associativity).

Module Py.

Definition str := string.

(** ** Characters and strings *)

Definition code (c : ascii) : nat := nat_of_ascii c.

(** [str.lower] on one code point below 256: A-Z and the Latin-1 capitals
    (all of 192..222 but the multiplication sign 215) move up by 32. *)
Definition lower_char (c : ascii) : ascii :=
  let n := code c in
  if (((65 <=? n) && (n <=? 90)) ||
      ((192 <=? n) && (n <=? 222) && negb (n =? 215)))%nat
  then ascii_of_nat (n + 32) else c.

Fixpoint lower (s : str) : str :=
  match s with
  | EmptyString => EmptyString
  | String c s' => String (lower_char c) (lower s')
  end.

(** [str.isspace] on one code point below 256. *)
Definition is_space (c : ascii) : bool :=
  let n := code c in
  (((9 <=? n) && (n <=? 13)) || ((28 <=? n) && (n <=? 32)) ||
   (n =? 133) || (n =? 160))%nat.

Fixpoint lstrip (s : str) : str :=
  match s with
  | EmptyString => EmptyString
  | String c s' => if is_space c then lstrip s' else s
  end.

Fixpoint rstrip (s : str) : str :=
  match s with
  | EmptyString => EmptyString
  | String c s' =>
      match rstrip s' with
      | EmptyString => if is_space c then EmptyString else String c EmptyString
      | r => String c r
      end
  end.

Definition strip (s : str) : str := rstrip (lstrip s).

(** [sub in s] for two strings. *)
Fixpoint contains (sub s : str) : bool :=
  String.prefix sub s ||
  match s with
  | EmptyString => false
  | String _ s' => contains sub s'
  end.

Definition startswith (s p : str) : bool := String.prefix p s.

(** [sep.join(ls)] *)
Definition join (sep : str) (ls : list str) : str := String.concat sep ls.

Definition LF : str := String "010"%char EmptyString.

Definition endswith_char (s : str) (c : ascii) : bool :=
  match String.get (String.length s - 1) s with
  | Some c' => negb (String.length s =? 0)%nat && Ascii.eqb c' c
  | None => false
  end.

(** [s[:-1]] *)
Definition drop_last (s : str) : str :=
  String.substring 0 (String.length s - 1) s.

(** The line boundaries of [str.splitlines] among the code points below
    256: LF, VT, FF, CR, FS, GS, RS and NEL; CR LF counts once. *)
Definition is_linebreak (c : ascii) : bool :=
  let n := code c in
  (((10 <=? n) && (n <=? 13)) || ((28 <=? n) && (n <=? 30)) || (n =? 133))%nat.

Fixpoint splitlines (s : str) : list str :=
  match s with
  | EmptyString => []
  | String c s' =>
      if is_linebreak c then
        match s' with
        | String c2 s'' =>
            if Ascii.eqb c "013"%char && Ascii.eqb c2 "010"%char
            then EmptyString :: splitlines s''
            else EmptyString :: splitlines s'
        | EmptyString => [EmptyString]
        end
      else
        match splitlines s' with
        | x :: r => String c x :: r
        | [] => [String c EmptyString]
        end
  end.

(** [s.split()]: the maximal runs of characters that are not white space. *)
Fixpoint split (s : str) : list str :=
  match s with
  | EmptyString => []
  | String c s' =>
      if is_space c then split s'
      else
        match s' with
        | EmptyString => [String c EmptyString]
        | String c2 _ =>
            if is_space c2 then String c EmptyString :: split s'
            else match split s' with
                 | x :: r => String c x :: r
                 | [] => [String c EmptyString]
                 end
        end
  end.

(** ** Lists *)

Definition len {A} (l : list A) : Z := Z.of_nat (List.length l).

(** [enumerate(l, start)] *)
Fixpoint enumerate {A} (l : list A) (start : Z) : list (Z * A) :=
  match l with
  | [] => []
  | x :: l' => (start, x) :: enumerate l' (start + 1)
  end.

(** [l[start:stop]] with Python's treatment of negative and
    out-of-range bounds. *)
Definition clamp_index (n i : Z) : Z :=
  if i <? 0 then Z.max 0 (i + n) else Z.min i n.

Definition slice {A} (l : list A) (start stop : Z) : list A :=
  let a := clamp_index (len l) start in
  let b := clamp_index (len l) stop in
  firstn (Z.to_nat (b - a)) (skipn (Z.to_nat a) l).

(** [x in l] for a list of strings. *)
Definition mem (x : str) (l : list str) : bool :=
  existsb (String.eqb x) l.

(** ** Exceptions

    Only subclasses of [Exception] are modelled: they are what
    [except Exception] catches.  An exception carries the name of its class
    and the text [str(e)]. *)

Record exn := Exception { exn_class : str; exn_str : str }.

Inductive result (A : Type) : Type :=
| Ret (a : A)
| Raise (e : exn).
Arguments Ret {A} a.
Arguments Raise {A} e.

Definition rbind {A B} (m : result A) (f : A -> result B) : result B :=
  match m with
  | Ret a => f a
  | Raise e => Raise e
  end.

Definition ValueError (msg : str) : exn := Exception "ValueError" msg.

(** [l.index(x)]: the first position of [x], or [ValueError]. *)
Fixpoint index (x : str) (l : list str) : result nat :=
  match l with
  | [] => Raise (ValueError (x +++ " is not in list"))
  | y :: l' =>
      if String.eqb y x then Ret 0%nat
      else rbind (index x l') (fun i => Ret (S i))
  end.

(** A list comprehension [[v for v in l if p(v)]] whose test may raise. *)
Fixpoint filterM {A} (p : A -> result bool) (l : list A) : result (list A) :=
  match l with
  | [] => Ret []
  | v :: l' =>
      rbind (p v) (fun b =>
      rbind (filterM p l') (fun r => Ret (if b then v :: r else r)))
  end.

(** ** Effects

    A task pairs its result with the trace of the effects it had before it
    returned or raised.  The effect of a parser or an analyzer is to log. *)

Inductive level := DEBUG | INFO | WARNING | ERROR.

Inductive event :=
| Log (lv : level) (msg : str).   (* logger.<lv>(msg) *)

Definition taskE (E A : Type) : Type := (list E * result A)%type.

Definition task : Type -> Type := taskE event.

Definition ret {E A} (a : A) : taskE E A := ([], Ret a).
Definition raise {E A} (e : exn) : taskE E A := ([], Raise e).
Definition emit {E} (ev : E) : taskE E unit := ([ev], Ret tt).
Definition log (lv : level) (msg : str) : task unit := emit (Log lv msg).
Definition lift {E A} (r : result A) : taskE E A := ([], r).

Definition bind {E A B} (m : taskE E A) (f : A -> taskE E B) : taskE E B :=
  match m with
  | (t, Ret a) => let (t', r) := f a in (t ++ t', r)
  | (t, Raise e) => (t, Raise e)
  end.

(** [try: m except Exception as e: h e] *)
Definition try_except {E A} (m : taskE E A) (h : exn -> taskE E A)
  : taskE E A :=
  match m with
  | (t, Raise e) => let (t', r) := h e in (t ++ t', r)
  | (t, Ret a) => (t, Ret a)
  end.

Definition outcome {E A} (m : taskE E A) : result A := snd m.
Definition trace {E A} (m : taskE E A) : list E := fst m.

(** The messages logged at one level along a trace. *)
Definition logged (lv : level) (t : list event) : list str :=
  flat_map (fun ev =>
    match ev with
    | Log lv' m =>
        match lv, lv' with
        | DEBUG, DEBUG | INFO, INFO | WARNING, WARNING | ERROR, ERROR => [m]
        | _, _ => []
        end
    end) t.

(** ** pathlib (POSIX flavour): a path is the tuple of its parts *)

Definition Path := list str.

Definition is_root (p : str) : bool := String.eqb p "/" || String.eqb p "//".

(** [str(path)] *)
Definition path_str (p : Path) : str :=
  match p with
  | [] => "."
  | r :: rest => if is_root r then r +++ join "/" rest else join "/" p
  end.

(** [path.name]: the last part, unless it is the root. *)
Definition name (p : Path) : str :=
  match rev p with
  | [] => EmptyString
  | x :: rest => match rest with
                 | [] => if is_root x then EmptyString else x
                 | _ => x
                 end
  end.

(** The position of the last dot of a name, if any. *)
Fixpoint rfind_dot (s : str) (pos : nat) (found : option nat) : option nat :=
  match s with
  | EmptyString => found
  | String c s' =>
      rfind_dot s' (S pos) (if Ascii.eqb c "."%char then Some pos else found)
  end.

(** [path.suffix]: from the last dot of the name, when that dot is neither
    the first nor the last character of the name. *)
Definition suffix (p : Path) : str :=
  let n := name p in
  match rfind_dot n 0%nat None with
  | Some i =>
      if ((0 <? i) && (i <? String.length n - 1))%nat
      then String.substring i (String.length n - i) n
      else EmptyString
  | None => EmptyString
  end.

(** Paths compare as the sequences of their parts, strings by code point. *)
Fixpoint path_compare (p q : Path) : comparison :=
  match p, q with
  | [], [] => Eq
  | [], _ :: _ => Lt
  | _ :: _, [] => Gt
  | x :: p', y :: q' =>
      match String.compare x y with
      | Eq => path_compare p' q'
      | c => c
      end
  end.

Definition path_leb (p q : Path) : bool :=
  match path_compare p q with Gt => false | _ => true end.

Definition path_eqb (p q : Path) : bool :=
  match path_compare p q with Eq => true | _ => false end.

Definition Path_eq_dec : forall p q : Path, {p = q} + {p <> q} :=
  list_eq_dec string_dec.

(** [Path(s)]: the parts of [s] between slashes, without the empty ones
    and the single dots; a leading slash (or exactly two) is the root. *)
Fixpoint split_slash (s : str) : list str :=
  match s with
  | EmptyString => [EmptyString]
  | String c s' =>
      if Ascii.eqb c "/"%char then EmptyString :: split_slash s'
      else match split_slash s' with
           | x :: r => String c x :: r
           | [] => [String c EmptyString]
           end
  end.

Definition root_of (s : str) : list str :=
  match s with
  | String "/" (String "/" (String "/" _)) => ["/"]
  | String "/" (String "/" _) => ["//"]
  | String "/" _ => ["/"]
  | _ => []
  end.

Definition Path_of_str (s : str) : Path :=
  root_of s ++
  filter (fun part => negb (String.eqb part EmptyString || String.eqb part "."))
         (split_slash s).

Lemma path_compare_antisym (p q : Path) :
  path_compare p q = CompOpp (path_compare q p).
Proof.
  revert q; induction p as [|x p IH]; intros [|y q]; simpl; auto.
  rewrite (String.compare_antisym y x).
  destruct (String.compare x y); simpl; auto.
Qed.

(** [sorted(paths)]: a stable merge sort by [path_leb]. *)
Module PathOrder <: TotalLeBool.
Definition t := Path.
Definition leb := path_leb.
Theorem leb_total : forall p q, leb p q = true \/ leb q p = true.
Proof.
  intros p q; unfold leb, path_leb.
  rewrite (path_compare_antisym q p).
  destruct (path_compare p q); simpl; auto.
Qed.
End PathOrder.

Module PathSort := Sort PathOrder.

Definition sorted (l : list Path) : list Path := PathSort.sort l.

End Py.

Notation "x <- m ;; k" := (Py.bind m (fun x => k))
  (at level 61, m at next level, right associativity).
Notation "m ;;; k" := (Py.bind m (fun _ => k))
  (at level 61, right associativity).

(* ================================================================== *)
(** * Regular expressions: the fragment of [re] used by the rules       *)
(* ================================================================== *)

Module Re.
Import Py.

Inductive regex :=
| Empty                    (* no string at all; arises from derivatives *)
| Eps                      (* the empty string *)
| Chr (c : ascii)          (* a literal character *)
| Dot                      (* [.]: any character but a line feed *)
| Cat (r1 r2 : regex)
| Alt (r1 r2 : regex)      (* [r1|r2] *)
| Star (r : regex).        (* [r*] *)

(** A literal string as a pattern. *)
Fixpoint lit (s : str) : regex :=
  match s with
  | EmptyString => Eps
  | String c s' => Cat (Chr c) (lit s')
  end.

(** One pattern character against one subject character; under
    [re.IGNORECASE] both are compared in lower case. *)
Definition chr_match (ignorecase : bool) (p c : ascii) : bool :=
  if ignorecase then Ascii.eqb (lower_char p) (lower_char c)
  else Ascii.eqb p c.

Definition is_lf (c : ascii) : bool := Ascii.eqb c "010"%char.

Fixpoint nullable (r : regex) : bool :=
  match r with
  | Empty => false
  | Eps => true
  | Chr _ => false
  | Dot => false
  | Cat r1 r2 => nullable r1 && nullable r2
  | Alt r1 r2 => nullable r1 || nullable r2
  | Star _ => true
  end.

(** Brzozowski derivative of [r] by the character [c]. *)
Fixpoint deriv (ic : bool) (c : ascii) (r : regex) : regex :=
  match r with
  | Empty => Empty
  | Eps => Empty
  | Chr p => if chr_match ic p c then Eps else Empty
  | Dot => if is_lf c then Empty else Eps
  | Cat r1 r2 =>
      if nullable r1
      then Alt (Cat (deriv ic c r1) r2) (deriv ic c r2)
      else Cat (deriv ic c r1) r2
  | Alt r1 r2 => Alt (deriv ic c r1) (deriv ic c r2)
  | Star r1 => Cat (deriv ic c r1) (Star r1)
  end.

(** [re.match(r, s) is not None]: some prefix of [s] matches [r]. *)
Fixpoint match_here (ic : bool) (r : regex) (s : str) : bool :=
  nullable r ||
  match s with
  | EmptyString => false
  | String c s' => match_here ic (deriv ic c r) s'
  end.

(** [re.search(r, s) is not None]: some substring of [s] matches [r]. *)
Fixpoint search (ic : bool) (r : regex) (s : str) : bool :=
  match_here ic r s ||
  match s with
  | EmptyString => false
  | String _ s' => search ic r s'
  end.

(** The strings a pattern denotes. *)
Inductive matches (ic : bool) : regex -> str -> Prop :=
| MEps : matches ic Eps EmptyString
| MChr p c : chr_match ic p c = true -> matches ic (Chr p) (String c EmptyString)
| MDot c : is_lf c = false -> matches ic Dot (String c EmptyString)
| MCat r1 r2 s1 s2 :
    matches ic r1 s1 -> matches ic r2 s2 -> matches ic (Cat r1 r2) (s1 +++ s2)
| MAltL r1 r2 s : matches ic r1 s -> matches ic (Alt r1 r2) s
| MAltR r1 r2 s : matches ic r2 s -> matches ic (Alt r1 r2) s
| MStar0 r : matches ic (Star r) EmptyString
| MStarS r s1 s2 :
    matches ic r s1 -> matches ic (Star r) s2 -> matches ic (Star r) (s1 +++ s2).

(** The pattern contains no literal line feed, so no string it denotes
    does. *)
Fixpoint lf_free (r : regex) : bool :=
  match r with
  | Chr c => negb (is_lf (lower_char c)) && negb (is_lf c)
  | Cat r1 r2 | Alt r1 r2 => lf_free r1 && lf_free r2
  | Star r1 => lf_free r1
  | _ => true
  end.

(** A string without line feed. *)
Fixpoint no_lf (s : str) : bool :=
  match s with
  | EmptyString => true
  | String c s' => negb (is_lf c) && no_lf s'
  end.

End Re.

(* ================================================================== *)
(** * models.py                                                         *)
(* ================================================================== *)

Module Models.
Import Py.

Inductive SeverityLevel := CRITICAL | HIGH | MEDIUM | LOW | INFO.

(** [severity.value] *)
Definition value (s : SeverityLevel) : str :=
  match s with
  | CRITICAL => "CRITICAL"
  | HIGH => "HIGH"
  | MEDIUM => "MEDIUM"
  | LOW => "LOW"
  | INFO => "INFO"
  end.

Definition SeverityLevel_members : list SeverityLevel :=
  [CRITICAL; HIGH; MEDIUM; LOW; INFO].

(** [SeverityLevel(v)]: the member whose value is [v], or [ValueError]. *)
Definition SeverityLevel_of_value (v : str) : result SeverityLevel :=
  match find (fun m => String.eqb (value m) v) SeverityLevel_members with
  | Some m => Ret m
  | None => Raise (ValueError ("'" +++ v +++ "' is not a valid SeverityLevel"))
  end.

Definition severity_eqb (a b : SeverityLevel) : bool :=
  match a, b with
  | CRITICAL, CRITICAL | HIGH, HIGH | MEDIUM, MEDIUM | LOW, LOW | INFO, INFO => true
  | _, _ => false
  end.

Inductive FileType := PYTHON | TEAL | TYPESCRIPT | JAVASCRIPT.

Definition FileType_eqb (a b : FileType) : bool :=
  match a, b with
  | PYTHON, PYTHON | TEAL, TEAL | TYPESCRIPT, TYPESCRIPT
  | JAVASCRIPT, JAVASCRIPT => true
  | _, _ => false
  end.

Record Vulnerability := {
  file : str;
  line : Z;
  column : option Z;
  severity : SeverityLevel;
  tool : str;
  rule_id : str;
  message : str;
  description : option str;
  cwe_id : option str;
  confidence : option str;
  code_snippet : option str;
  fix_suggestion : option str
}.

Record ScanResult := {
  files_scanned : Z;
  vulnerabilities : list Vulnerability;
  errors : list str;
  scan_duration : QArith_base.Q;
  tools_used : list str
}.

(** [sum(1 for v in vs if p(v))] *)
Definition sum_ones {A} (p : A -> bool) (vs : list A) : Z :=
  fold_left (fun acc v => if p v then acc + 1 else acc) vs 0.

Definition total_vulnerabilities (r : ScanResult) : Z :=
  len (vulnerabilities r).

Definition count_of (s : SeverityLevel) (r : ScanResult) : Z :=
  sum_ones (fun v => severity_eqb (severity v) s) (vulnerabilities r).

Definition critical_count := count_of CRITICAL.
Definition high_count := count_of HIGH.
Definition medium_count := count_of MEDIUM.
Definition low_count := count_of LOW.

Record ScanConfig := {
  target_paths : list str;
  include_patterns : list str;
  exclude_patterns : list str;
  analyzers : list str;
  severity_threshold : SeverityLevel;
  output_format : str;
  output_file : option str;
  max_workers : Z;
  timeout : Z
}.

(** The dictionary handed to [ScanConfig.from_dict]: one optional entry per
    key of the flat key set, [None] when the key is absent.  The entries
    have the shapes that the fields of [ScanConfig] are annotated with;
    the severity threshold is the raw string. *)
Record ConfigData := {
  d_target_paths : option (list str);
  d_include_patterns : option (list str);
  d_exclude_patterns : option (list str);
  d_analyzers : option (list str);
  d_severity_threshold : option str;
  d_output_format : option str;
  d_output_file : option str;
  d_max_workers : option Z;
  d_timeout : option Z
}.

(** [data.get(key, default)] *)
Definition get {A} (entry : option A) (default : A) : A :=
  match entry with
  | Some v => v
  | None => default
  end.

Definition from_dict (data : ConfigData) : result ScanConfig :=
  rbind (SeverityLevel_of_value (get (d_severity_threshold data) "LOW"))
    (fun threshold =>
  Ret {| target_paths := get (d_target_paths data) ["."];
         include_patterns :=
           get (d_include_patterns data)
               ["**/*.py"; "**/*.teal"; "**/*.ts"; "**/*.tsx"];
         exclude_patterns :=
           get (d_exclude_patterns data)
               ["**/node_modules/**"; "**/.git/**"; "**/venv/**"];
         analyzers := get (d_analyzers data) ["builtin"; "panda"; "tealer"];
         severity_threshold := threshold;
         output_format := get (d_output_format data) "json";
         output_file := d_output_file data;
         max_workers := get (d_max_workers data) 4;
         timeout := get (d_timeout data) 300 |}).

End Models.

(* ================================================================== *)
(** * parsers/file_discovery.py                                         *)
(* ================================================================== *)

Module FileDiscovery.
Import Py Models.

(** What the scanner observes of the file system.  [is_file] and [is_dir]
    answer or raise ([OSError], for a name that is too long or a directory
    that may not be searched); [rglob] is a generator: it yields some paths
    and may then raise; [read_text] decodes a file as UTF-8 or raises
    ([OSError], [UnicodeDecodeError]). *)
Record FileSystem := {
  is_file : Path -> result bool;
  is_dir : Path -> result bool;
  rglob : Path -> str -> list Path * option exn;
  read_text : Path -> result str
}.

Section Discovery.

(** [fnmatch.fnmatch name pattern] *)
Variable fnmatch : str -> str -> bool.
Variable fs : FileSystem.
Variable config : ScanConfig.

(** A Python [set] of paths: a list without duplicates; the order of the
    list stands for the iteration order of the set. *)
Definition add (p : Path) (files : list Path) : list Path :=
  ListSet.set_add Path_eq_dec p files.

Definition update (files more : list Path) : list Path :=
  fold_left (fun acc p => add p acc) more files.

Definition matches_any (file_path : Path) (patterns : list str) : bool :=
  existsb (fun pattern =>
             fnmatch (path_str file_path) pattern ||
             fnmatch (name file_path) pattern) patterns.

Definition _should_include_file (file_path : Path) : bool :=
  if matches_any file_path (exclude_patterns config) then false
  else if matches_any file_path (include_patterns config) then true
  else false.

(** The inner loop of [_scan_directory] over the paths that one traversal
    yields; it stops at the first path on which [is_file] raises and keeps
    what it has. *)
Fixpoint add_files (yielded : list Path) (files : list Path)
  : list Path * option exn :=
  match yielded with
  | [] => (files, None)
  | file_path :: rest =>
      match is_file fs file_path with
      | Raise e => (files, Some e)
      | Ret true => add_files rest (add file_path files)
      | Ret false => add_files rest files
      end
  end.

(** The loop of [_scan_directory] over the include patterns; it stops at
    the first pattern whose traversal raises and keeps what it has. *)
Fixpoint rglob_patterns (directory : Path) (patterns : list str)
  (files : list Path) : list Path * option exn :=
  match patterns with
  | [] => (files, None)
  | pattern :: rest =>
      let (yielded, failure) := rglob fs directory pattern in
      match add_files yielded files with
      | (files', Some e) => (files', Some e)
      | (files', None) =>
          match failure with
          | Some e => (files', Some e)
          | None => rglob_patterns directory rest files'
          end
      end
  end.

Definition _scan_directory (directory : Path) : task (list Path) :=
  let (files, failure) :=
    rglob_patterns directory (include_patterns config) [] in
  match failure with
  | Some e =>
      log ERROR ("Error scanning directory " +++ path_str directory +++
                 ": " +++ exn_str e) ;;;
      ret files
  | None => ret files
  end.

(** The loop of [discover_files] over the target paths; [is_file] and
    [is_dir] are called outside any guarded block, so what they raise
    leaves [discover_files]. *)
Fixpoint collect_targets (targets : list str) (all_files : list Path)
  : task (list Path) :=
  match targets with
  | [] => ret all_files
  | target_path :: rest =>
      let path := Path_of_str target_path in
      file <- lift (is_file fs path) ;;
      if file then collect_targets rest (add path all_files)
      else
        directory <- lift (is_dir fs path) ;;
        if directory then
          files <- _scan_directory path ;;
          collect_targets rest (update all_files files)
        else
          log WARNING ("Target path not found: " +++ target_path) ;;;
          collect_targets rest all_files
  end.

Definition discover_files : task (list Path) :=
  all_files <- collect_targets (target_paths config) [] ;;
  let filtered_files := filter _should_include_file all_files in
  ret (sorted filtered_files).

End Discovery.

End FileDiscovery.

(* ================================================================== *)
(** * The normalized documents that the parsers produce                  *)
(* ================================================================== *)

Module Documents.
Import Py.

(** ** The part of a Python syntax tree that the parser inspects *)

Inductive expr :=
| Name (id : str)
| Attribute (value : expr) (attr : str)
| Call (func : expr)
| OtherExpr.

Record alias := { alias_name : str; asname : option str }.

(** Statement nodes; the expressions below a statement hold no statement
    and are kept only where the parser reads them. *)
#[warnings="-register-all"] Inductive stmt :=
| FunctionDef (name : str) (lineno : Z) (decorator_list : list expr)
              (args : list str) (body : list stmt)
| ClassDef (name : str) (lineno : Z) (bases : list expr) (body : list stmt)
| Import (names : list alias) (lineno : Z)
| ImportFrom (module : option str) (names : list alias) (lineno : Z)
| OtherNode (children : list stmt).

(** ** Application-language documents *)

Record Method := {
  m_name : str;
  m_line : Z;
  m_decorators : list str;
  m_args : list str;
  is_abi_method : bool
}.

Record Contract := {
  c_name : str;
  c_line : Z;
  c_bases : list str;
  c_methods : list Method
}.

Record ImportInfo := {
  i_type : str;
  i_module : option str;
  i_name : option str;
  i_alias : option str;
  i_line : Z
}.

Record FunctionInfo := {
  f_name : str;
  f_line : Z;
  f_decorators : list str;
  f_args : list str
}.

Record PythonDocument := {
  py_file_path : str;
  py_content : str;
  py_ast : list stmt;
  py_contracts : list Contract;
  py_imports : list ImportInfo;
  py_functions : list FunctionInfo;
  py_lines : list str
}.

(** ** Assembly-format documents *)

Record Label := { l_name : str; l_line : Z }.

Record Opcode := {
  opcode : str;
  o_line : Z;
  full_instruction : str;
  o_args : list str
}.

Record Subroutine := { s_type : str; s_name : option str; s_line : Z }.

Record StateOperation := { operation : str; so_line : Z; instruction : str }.

Record TxField := {
  t_type : str;
  t_field : str;
  t_line : Z;
  t_instruction : str
}.

Record TealDocument := {
  teal_file_path : str;
  teal_content : str;
  teal_lines : list str;
  version : option Z;
  labels : list Label;
  opcodes : list Opcode;
  subroutines : list Subroutine;
  state_operations : list StateOperation;
  transaction_fields : list TxField;
  line_count : Z
}.

(** ** Scripting-format documents.  The import, function, contract,
    transaction and ABI-call entries are dictionaries of mixed shape; they
    are kept as key-value lists. *)

Inductive pyvalue :=
| VStr (s : str)
| VInt (z : Z)
| VNone
| VList (l : list str).

Definition TsFact := list (str * pyvalue).

Record SecurityIssue := {
  si_type : str;
  si_line : Z;
  si_match : str;
  si_severity : str
}.

Record TsDocument := {
  ts_file_path : str;
  ts_content : str;
  ts_lines : list str;
  ts_imports : list TsFact;
  ts_functions : list TsFact;
  ts_contracts : list TsFact;
  ts_transactions : list TsFact;
  ts_abi_calls : list TsFact;
  security_issues : list SecurityIssue
}.

Inductive Document :=
| PythonDoc (d : PythonDocument)
| TealDoc (d : TealDocument)
| TsDoc (d : TsDocument).

(** [parsed_content.get('lines', [])] and its siblings. *)
Definition doc_lines (doc : Document) : list str :=
  match doc with
  | PythonDoc d => py_lines d
  | TealDoc d => teal_lines d
  | TsDoc d => ts_lines d
  end.

(** The contract entries of a scripting document carry no ['methods'], so
    they count for nothing where methods are read. *)
Definition doc_contracts (doc : Document) : list Contract :=
  match doc with
  | PythonDoc d => py_contracts d
  | _ => []
  end.

Definition doc_opcodes (doc : Document) : list Opcode :=
  match doc with
  | TealDoc d => opcodes d
  | _ => []
  end.

Definition doc_state_operations (doc : Document) : list StateOperation :=
  match doc with
  | TealDoc d => state_operations d
  | _ => []
  end.

Definition doc_security_issues (doc : Document) : list SecurityIssue :=
  match doc with
  | TsDoc d => security_issues d
  | _ => []
  end.

End Documents.

(* ================================================================== *)
(** * parsers/python_parser.py                                          *)
(* ================================================================== *)

Module PythonParser.
Import Py Documents.

Definition ALGORAND_IMPORTS : list str :=
  ["pyteal"; "algopy"; "beaker"; "py_algorand_sdk"; "algosdk"].

Definition ALGORAND_CLASSES : list str :=
  ["ARC4Contract"; "Application"; "ApplicationStateValue"; "Contract"].

(** [ast.iter_child_nodes], restricted to statement nodes. *)
Definition children (n : stmt) : list stmt :=
  match n with
  | FunctionDef _ _ _ _ body => body
  | ClassDef _ _ _ body => body
  | OtherNode ch => ch
  | _ => []
  end.

Fixpoint size (n : stmt) : nat :=
  let sizes :=
    fix sizes (l : list stmt) : nat :=
      match l with
      | [] => 0%nat
      | x :: l' => (size x + sizes l')%nat
      end in
  match n with
  | FunctionDef _ _ _ _ body => S (sizes body)
  | ClassDef _ _ _ body => S (sizes body)
  | OtherNode ch => S (sizes ch)
  | _ => 1%nat
  end.

Definition sizes (l : list stmt) : nat :=
  fold_right (fun n acc => (size n + acc)%nat) 0%nat l.

(** [ast.walk]: breadth first from a queue; the fuel is the number of nodes
    still to visit. *)
Fixpoint walk_queue (fuel : nat) (todo : list stmt) : list stmt :=
  match fuel with
  | O => []
  | S fuel' =>
      match todo with
      | [] => []
      | node :: rest => node :: walk_queue fuel' (rest ++ children node)
      end
  end.

Definition walk (tree : list stmt) : list stmt :=
  walk_queue (sizes tree) tree.

Definition module_names (node : stmt) : list str :=
  match node with
  | Import names _ => map alias_name names
  | ImportFrom (Some module) _ _ => [module]
  | _ => []
  end.

Definition algorand_keywords : list str :=
  ["global."; "txn."; "gtxn."; "app_global_"; "app_local_";
   "algorand"; "teal"; "pyteal"; "algopy"; "arc4contract"].

Definition _contains_algorand_code (tree : list stmt) (content : str) : bool :=
  if existsb (fun node =>
       existsb (fun module_name =>
         existsb (fun algo_import => contains algo_import (lower module_name))
                 ALGORAND_IMPORTS)
         (module_names node)) (walk tree)
  then true
  else
    let content_lower := lower content in
    existsb (fun keyword => contains keyword content_lower) algorand_keywords.

(** The decorator names that both extraction loops collect: plain names
    and calls of plain names. *)
Definition decorator_names (decorator_list : list expr) : list str :=
  flat_map (fun decorator =>
    match decorator with
    | Name id => [id]
    | Call (Name id) => [id]
    | _ => []
    end) decorator_list.

Definition _extract_class_methods (class_body : list stmt) : list Method :=
  flat_map (fun node =>
    match node with
    | FunctionDef name lineno decorator_list args _ =>
        let decorators := decorator_names decorator_list in
        [ {| m_name := name;
             m_line := lineno;
             m_decorators := decorators;
             m_args := args;
             is_abi_method := mem "abimethod" decorators |} ]
    | _ => []
    end) class_body.

Definition base_names (bases : list expr) : list str :=
  flat_map (fun base =>
    match base with
    | Name id => [id]
    | Attribute _ attr => [attr]
    | _ => []
    end) bases.

Definition _extract_contracts (tree : list stmt) : list Contract :=
  flat_map (fun node =>
    match node with
    | ClassDef name lineno bases body =>
        let names := base_names bases in
        if existsb (fun base => mem base ALGORAND_CLASSES) names
        then [ {| c_name := name;
                  c_line := lineno;
                  c_bases := names;
                  c_methods := _extract_class_methods body |} ]
        else []
    | _ => []
    end) (walk tree).

Definition _extract_imports (tree : list stmt) : list ImportInfo :=
  flat_map (fun node =>
    match node with
    | Import names lineno =>
        map (fun a => {| i_type := "import";
                         i_module := Some (alias_name a);
                         i_name := None;
                         i_alias := asname a;
                         i_line := lineno |}) names
    | ImportFrom module names lineno =>
        map (fun a => {| i_type := "from_import";
                         i_module := module;
                         i_name := Some (alias_name a);
                         i_alias := asname a;
                         i_line := lineno |}) names
    | _ => []
    end) (walk tree).

(** No node carries a [parent] attribute, so no function is skipped. *)
Definition _extract_functions (tree : list stmt) : list FunctionInfo :=
  flat_map (fun node =>
    match node with
    | FunctionDef name lineno decorator_list args _ =>
        [ {| f_name := name;
             f_line := lineno;
             f_decorators := decorator_names decorator_list;
             f_args := args |} ]
    | _ => []
    end) (walk tree).

Definition is_SyntaxError (e : exn) : bool :=
  mem (exn_class e) ["SyntaxError"; "IndentationError"; "TabError"].

Section Parse.

Variable fs : FileDiscovery.FileSystem.
(** [ast.parse content filename] *)
Variable ast_parse : str -> str -> result (list stmt).

Definition _read_file (file_path : Path) : task str :=
  lift (FileDiscovery.read_text fs file_path).

Definition parse (file_path : Path) : task (option Document) :=
  try_except
    (content <- _read_file file_path ;;
     tree <- lift (ast_parse content (path_str file_path)) ;;
     if negb (_contains_algorand_code tree content) then ret None
     else
       let contracts := _extract_contracts tree in
       let imports := _extract_imports tree in
       let functions := _extract_functions tree in
       ret (Some (PythonDoc
                    {| py_file_path := path_str file_path;
                       py_content := content;
                       py_ast := tree;
                       py_contracts := contracts;
                       py_imports := imports;
                       py_functions := functions;
                       py_lines := splitlines content |})))
    (fun e =>
       if is_SyntaxError e then
         log ERROR ("Syntax error in " +++ path_str file_path +++ ": " +++
                    exn_str e) ;;;
         ret None
       else
         log ERROR ("Error parsing " +++ path_str file_path +++ ": " +++
                    exn_str e) ;;;
         ret None).

End Parse.

End PythonParser.

(* ================================================================== *)
(** * parsers/teal_parser.py                                            *)
(* ================================================================== *)

Module TealParser.
Import Py Documents.

Definition TEAL_OPCODES : list str :=
  ["int"; "byte"; "addr"; "arg"; "txn"; "global"; "load"; "store";
   "add"; "sub"; "mul"; "div"; "mod"; "addw"; "mulw";
   "and"; "or"; "xor"; "not"; "shl"; "shr";
   "eq"; "neq"; "lt"; "le"; "gt"; "ge";
   "bnz"; "bz"; "b"; "return"; "assert"; "err"; "callsub"; "retsub";
   "app_global_get"; "app_global_put"; "app_local_get"; "app_local_put";
   "app_global_get_ex"; "app_local_get_ex"; "app_global_del"; "app_local_del";
   "itxn_begin"; "itxn_field"; "itxn_submit"; "itxn_next";
   "sha256"; "keccak256"; "sha512_256"; "ed25519verify"; "ecdsa_verify"].

Definition teal_indicators : list str :=
  ["txn "; "global "; "app_global_"; "int "; "byte "; "return"; "assert"].

Definition _is_teal_file (content : str) : bool :=
  match splitlines (strip content) with
  | [] => false
  | first :: _ =>
      if startswith (strip first) "#pragma version" then true
      else
        let content_lower := lower content in
        existsb (fun indicator => contains indicator content_lower)
                teal_indicators
  end.

Definition isempty (s : str) : bool :=
  match s with
  | EmptyString => true
  | _ => false
  end.

Definition _extract_labels (lines : list str) : list Label :=
  flat_map (fun '(i, raw) =>
    let line := strip raw in
    if endswith_char line ":"%char && negb (startswith line "//") then
      let label_name := strip (drop_last line) in
      if negb (isempty label_name) &&
         negb (existsb (fun char => contains char label_name)
                       [" "; String "009"%char EmptyString])
      then [ {| l_name := label_name; l_line := i |} ]
      else []
    else []) (enumerate lines 1).

Definition _extract_opcodes (lines : list str) : list Opcode :=
  flat_map (fun '(i, raw) =>
    let line := strip raw in
    if isempty line || startswith line "//" || startswith line "#" then []
    else if endswith_char line ":"%char then []
    else
      match split line with
      | [] => []
      | first :: rest =>
          let opcode := lower first in
          if mem opcode TEAL_OPCODES
          then [ {| opcode := opcode;
                    o_line := i;
                    full_instruction := line;
                    o_args := rest |} ]
          else []
      end) (enumerate lines 1).

Definition _extract_subroutines (lines : list str) : list Subroutine :=
  flat_map (fun '(i, raw) =>
    let line := lower (strip raw) in
    if contains "callsub" line then
      match split line with
      | _ :: second :: _ =>
          [ {| s_type := "call"; s_name := Some second; s_line := i |} ]
      | _ => []
      end
    else if contains "retsub" line then
      [ {| s_type := "return"; s_name := None; s_line := i |} ]
    else []) (enumerate lines 1).

Definition state_opcodes : list str :=
  ["app_global_get"; "app_global_put"; "app_global_del"; "app_global_get_ex";
   "app_local_get"; "app_local_put"; "app_local_del"; "app_local_get_ex"].

Definition _extract_state_operations (lines : list str)
  : list StateOperation :=
  flat_map (fun '(i, raw) =>
    let line_lower := lower (strip raw) in
    match find (fun opcode => contains opcode line_lower) state_opcodes with
    | Some opcode =>
        [ {| operation := opcode; so_line := i; instruction := strip raw |} ]
    | None => []
    end) (enumerate lines 1).

Section Parse.

Variable fs : FileDiscovery.FileSystem.
(** [int(s)] on a string; [None] stands for [ValueError]. *)
Variable int_of_str : str -> option Z.
(** The transaction-field extraction, whose pattern uses word boundaries
    and character classes. *)
Variable _extract_transaction_fields : list str -> result (list TxField).

Fixpoint _extract_version (lines : list str) : option Z :=
  match lines with
  | [] => None
  | raw :: rest =>
      let line := strip raw in
      if startswith line "#pragma version" then
        match int_of_str (last (split line) EmptyString) with
        | Some v => Some v
        | None => _extract_version rest
        end
      else _extract_version rest
  end.

Definition _read_file (file_path : Path) : task str :=
  lift (FileDiscovery.read_text fs file_path).

Definition parse (file_path : Path) : task (option Document) :=
  try_except
    (content <- _read_file file_path ;;
     if negb (_is_teal_file content) then ret None
     else
       let lines := splitlines content in
       let version := _extract_version lines in
       let labels := _extract_labels lines in
       let opcodes := _extract_opcodes lines in
       let subroutines := _extract_subroutines lines in
       let state_operations := _extract_state_operations lines in
       transaction_fields <- lift (_extract_transaction_fields lines) ;;
       ret (Some (TealDoc
                    {| teal_file_path := path_str file_path;
                       teal_content := content;
                       teal_lines := lines;
                       version := version;
                       labels := labels;
                       opcodes := opcodes;
                       subroutines := subroutines;
                       state_operations := state_operations;
                       transaction_fields := transaction_fields;
                       line_count := len lines |})))
    (fun e =>
       log ERROR ("Error parsing TEAL file " +++ path_str file_path +++
                  ": " +++ exn_str e) ;;;
       ret None).

End Parse.

End TealParser.

(* ================================================================== *)
(** * parsers/typescript_parser.py                                      *)
(* ================================================================== *)

Module TypeScriptParser.
Import Py Documents.

(** The content sniff and the extraction passes are regular-expression
    scans of the whole content; each is a parameter that may raise. *)
Record Passes := {
  _contains_algorand_code : str -> result bool;
  _extract_imports : str -> result (list TsFact);
  _extract_functions : str -> result (list TsFact);
  _extract_contract_interactions : str -> result (list TsFact);
  _extract_transaction_calls : str -> result (list TsFact);
  _extract_abi_calls : str -> result (list TsFact);
  _extract_security_patterns : str -> result (list SecurityIssue)
}.

Section Parse.

Variable fs : FileDiscovery.FileSystem.
Variable passes : Passes.

Definition _read_file (file_path : Path) : task str :=
  lift (FileDiscovery.read_text fs file_path).

Definition parse (file_path : Path) : task (option Document) :=
  try_except
    (content <- _read_file file_path ;;
     relevant <- lift (_contains_algorand_code passes content) ;;
     if negb relevant then ret None
     else
       let lines := splitlines content in
       imports <- lift (_extract_imports passes content) ;;
       functions <- lift (_extract_functions passes content) ;;
       contracts <- lift (_extract_contract_interactions passes content) ;;
       transactions <- lift (_extract_transaction_calls passes content) ;;
       abi_calls <- lift (_extract_abi_calls passes content) ;;
       security_issues <- lift (_extract_security_patterns passes content) ;;
       ret (Some (TsDoc
                    {| ts_file_path := path_str file_path;
                       ts_content := content;
                       ts_lines := lines;
                       ts_imports := imports;
                       ts_functions := functions;
                       ts_contracts := contracts;
                       ts_transactions := transactions;
                       ts_abi_calls := abi_calls;
                       security_issues := security_issues |})))
    (fun e =>
       log ERROR ("Error parsing TypeScript file " +++ path_str file_path +++
                  ": " +++ exn_str e) ;;;
       ret None).

End Parse.

End TypeScriptParser.

(* ================================================================== *)
(** * analyzers/base_analyzer.py and analyzers/builtin_analyzer.py     *)
(* ================================================================== *)

Module Analyzers.
Import Py Models Documents.

(** The capability interface of [BaseAnalyzer]. *)
Record Analyzer := {
  analyzer_name : str;
  supports_file_type : FileType -> bool;
  analyze : Path -> Document -> task (list Vulnerability)
}.

(** [BaseAnalyzer._create_vulnerability]; the caller passes the default
    ["MEDIUM"] of [confidence] where the source leaves it out. *)
Definition _create_vulnerability (self_name : str) (file_path : Path)
  (line : Z) (severity : SeverityLevel) (rule_id message : str)
  (description cwe_id confidence code_snippet fix_suggestion : option str)
  (column : option Z) : Vulnerability :=
  {| file := path_str file_path;
     line := line;
     column := column;
     severity := severity;
     tool := self_name;
     rule_id := rule_id;
     message := message;
     description := description;
     cwe_id := cwe_id;
     confidence := confidence;
     code_snippet := code_snippet;
     fix_suggestion := fix_suggestion |}.

Definition MEDIUM_confidence : option str := Some "MEDIUM".

(** ** The assembly-format rules *)

(** [r'app_global_put|app_local_put'] *)
Definition pat_state_write : Re.regex :=
  Re.Alt (Re.lit "app_global_put") (Re.lit "app_local_put").

(** [r'(txn sender|global creatoraddress)'] *)
Definition pat_sender_check : Re.regex :=
  Re.Alt (Re.lit "txn sender") (Re.lit "global creatoraddress").

Definition teal_missing_access_control (file_path : Path) (i : Z) (line : str)
  : Vulnerability :=
  _create_vulnerability "builtin" file_path i HIGH
    "teal_missing_access_control"
    "State modification without sender verification"
    (Some "State modifications should verify the transaction sender")
    (Some "CWE-862") MEDIUM_confidence (Some (strip line))
    (Some "Add sender verification before state modifications") None.

Definition _check_missing_access_control_teal (file_path : Path)
  (lines : list str) : list Vulnerability :=
  flat_map (fun '(i, line) =>
    if Re.search false pat_state_write (lower line) then
      let context_start := Z.max 0 (i - 5) in
      let context_end := Z.min (len lines) (i + 2) in
      let context_lines := slice lines context_start context_end in
      let context := lower (join LF context_lines) in
      if negb (Re.search false pat_sender_check context)
      then [teal_missing_access_control file_path i line]
      else []
    else []) (enumerate lines 1).

Definition _check_unsafe_state_operations_teal (file_path : Path)
  (state_operations : list StateOperation) : list Vulnerability :=
  flat_map (fun op =>
    if mem (operation op) ["app_global_get"; "app_local_get"] then
      [_create_vulnerability "builtin" file_path (so_line op) MEDIUM
         "teal_unsafe_state_get"
         "Unsafe state access without existence check"
         (Some "State access should use _ex variants to check existence")
         (Some "CWE-476") MEDIUM_confidence (Some (instruction op))
         (Some ("Use " +++ operation op +++ "_ex instead")) None]
    else []) state_operations.

Definition _check_arithmetic_vulnerabilities_teal (file_path : Path)
  (opcodes : list Opcode) : list Vulnerability :=
  flat_map (fun op =>
    if mem (opcode op) ["add"; "sub"; "mul"; "div"; "mod"] then
      [_create_vulnerability "builtin" file_path (o_line op) MEDIUM
         "teal_unchecked_arithmetic"
         ("Unchecked arithmetic operation: " +++ opcode op)
         (Some "Arithmetic operations should include overflow/underflow checks")
         (Some "CWE-190") MEDIUM_confidence (Some (full_instruction op))
         (Some "Add bounds checking before arithmetic operations") None]
    else []) opcodes.

Definition _check_control_flow_teal (file_path : Path)
  (opcodes : list Opcode) : list Vulnerability :=
  flat_map (fun op =>
    if String.eqb (opcode op) "err" then
      [_create_vulnerability "builtin" file_path (o_line op) LOW
         "teal_explicit_error"
         "Explicit error instruction"
         (Some "Consider using assert instead of explicit err for better error handling")
         None MEDIUM_confidence (Some (full_instruction op))
         (Some "Use assert with condition instead of explicit err") None]
    else []) opcodes.

Definition _analyze_teal (file_path : Path) (parsed_content : Document)
  : list Vulnerability :=
  let lines := doc_lines parsed_content in
  let opcodes := doc_opcodes parsed_content in
  let state_operations := doc_state_operations parsed_content in
  _check_missing_access_control_teal file_path lines ++
  _check_unsafe_state_operations_teal file_path state_operations ++
  _check_arithmetic_vulnerabilities_teal file_path opcodes ++
  _check_control_flow_teal file_path opcodes.

(** ** The application-language rule for missing access control *)

(** [r'(assert.*sender|Txn\.sender.*==|Global\.creator)'] *)
Definition pat_access_control : Re.regex :=
  Re.Alt (Re.Cat (Re.lit "assert") (Re.Cat (Re.Star Re.Dot) (Re.lit "sender")))
 (Re.Alt (Re.Cat (Re.lit "Txn.sender") (Re.Cat (Re.Star Re.Dot) (Re.lit "==")))
         (Re.lit "Global.creator")).

Definition critical_functions : list str :=
  ["withdraw"; "transfer"; "mint"; "burn"; "delete"; "destroy"; "update"].

Definition py_missing_access_control (file_path : Path) (method : Method)
  : Vulnerability :=
  _create_vulnerability "builtin" file_path (m_line method) CRITICAL
    "py_missing_access_control"
    ("Critical function '" +++ m_name method +++ "' lacks access control")
    (Some "Critical functions should verify the caller's authorization")
    (Some "CWE-862") MEDIUM_confidence None
    (Some "Add sender verification: assert Txn.sender == Global.creator_address")
    None.

(** The lines in which the rule looks for an authorization check. *)
Definition method_lines (lines : list str) (method_line : Z) : list str :=
  if method_line <=? len lines
  then slice lines (method_line - 1) (method_line + 10)
  else [].

Definition has_access_control (lines : list str) (method_line : Z) : bool :=
  existsb (fun line => Re.search true pat_access_control line)
          (method_lines lines method_line).

Definition is_critical (method : Method) : bool :=
  existsb (fun func => contains func (lower (m_name method)))
          critical_functions.

Definition _check_missing_access_control_python (file_path : Path)
  (lines : list str) (parsed_content : Document) : list Vulnerability :=
  let contracts := doc_contracts parsed_content in
  flat_map (fun contract =>
    flat_map (fun method =>
      if is_abi_method method then
        if is_critical method &&
           negb (has_access_control lines (m_line method))
        then [py_missing_access_control file_path method]
        else []
      else []) (c_methods contract)) contracts.

(** ** The built-in analyzer

    The four other application-language rules and the scripting-format
    analysis are pattern scans that the specification leaves open; they are
    parameters.  The scripting-format analysis converts severity strings and
    may raise. *)
Record OpenRules := {
  _check_arithmetic_vulnerabilities_python : Path -> list str -> list Vulnerability;
  _check_timestamp_dependencies_python : Path -> list str -> list Vulnerability;
  _check_weak_randomness_python : Path -> list str -> list Vulnerability;
  _check_state_management_python : Path -> list str -> list Vulnerability;
  _analyze_typescript : Path -> Document -> result (list Vulnerability)
}.

Section Builtin.

Variable rules : OpenRules.

Definition _analyze_python (file_path : Path) (parsed_content : Document)
  : list Vulnerability :=
  let lines := doc_lines parsed_content in
  _check_missing_access_control_python file_path lines parsed_content ++
  _check_arithmetic_vulnerabilities_python rules file_path lines ++
  _check_timestamp_dependencies_python rules file_path lines ++
  _check_weak_randomness_python rules file_path lines ++
  _check_state_management_python rules file_path lines.

Definition builtin_analyze (file_path : Path) (parsed_content : Document)
  : task (list Vulnerability) :=
  let sfx := suffix file_path in
  if String.eqb sfx ".py" then ret (_analyze_python file_path parsed_content)
  else if String.eqb sfx ".teal" then ret (_analyze_teal file_path parsed_content)
  else if mem sfx [".ts"; ".tsx"; ".js"; ".jsx"]
       then lift (_analyze_typescript rules file_path parsed_content)
  else ret [].

Definition BuiltinAnalyzer : Analyzer :=
  {| analyzer_name := "builtin";
     supports_file_type := fun _ => true;
     analyze := builtin_analyze |}.

End Builtin.

(** ** The analyzers backed by an external tool

    A tool is its availability, probed once when the analyzer is built, and
    the run of the tool with the conversion of its output, which may
    raise. *)
Record Tool := {
  available : bool;
  run : Path -> Document -> task (list Vulnerability)
}.

Definition PandaAnalyzer (panda : Tool) : Analyzer :=
  {| analyzer_name := "panda";
     supports_file_type := fun ft => FileType_eqb ft PYTHON && available panda;
     analyze := fun file_path parsed_content =>
       if negb (available panda) then
         log WARNING "Panda analyzer not available, skipping analysis" ;;;
         ret []
       else
         try_except (run panda file_path parsed_content)
           (fun e =>
              log ERROR ("Error running Panda analysis on " +++
                         path_str file_path +++ ": " +++ exn_str e) ;;;
              ret []) |}.

Definition TealerAnalyzer (tealer : Tool) : Analyzer :=
  {| analyzer_name := "tealer";
     supports_file_type := fun ft => FileType_eqb ft TEAL && available tealer;
     analyze := fun file_path parsed_content =>
       if negb (available tealer) then ret []
       else try_except (run tealer file_path parsed_content)
                       (fun _ => ret []) |}.

Definition QualityAssuranceAnalyzer (qa : Tool) : Analyzer :=
  {| analyzer_name := "quality-assurance";
     supports_file_type := fun ft =>
       (FileType_eqb ft PYTHON || FileType_eqb ft TEAL) && available qa;
     analyze := fun file_path parsed_content =>
       if negb (available qa) then ret []
       else
         try_except (run qa file_path parsed_content)
           (fun e =>
              log ERROR ("Quality Assurance analysis failed for " +++
                         path_str file_path +++ ": " +++ exn_str e) ;;;
              ret []) |}.

End Analyzers.

(* ================================================================== *)
(** * core.py                                                           *)
(* ================================================================== *)

Module Core.
Import Py Models Documents Analyzers.

Definition Parser := Path -> task (option Document).

(** The external collaborators of a scanner. *)
Record Environment := {
  fnmatch : str -> str -> bool;
  fs : FileDiscovery.FileSystem;
  ast_parse : str -> str -> result (list stmt);
  int_of_str : str -> option Z;
  _extract_transaction_fields : list str -> result (list TxField);
  ts_passes : TypeScriptParser.Passes;
  open_rules : OpenRules;
  panda : Tool;
  tealer : Tool;
  qa : Tool
}.

(** The attributes of an [AlgorandScanner]; [parsers] and [analyzers] are
    dictionaries kept in insertion order. *)
Record AlgorandScanner := {
  env : Environment;
  config : ScanConfig;
  parsers : list (FileType * Parser);
  analyzers : list (str * Analyzer)
}.

(** [AlgorandScanner.__init__] *)
Definition init (e : Environment) (config : ScanConfig) : AlgorandScanner :=
  let ts := TypeScriptParser.parse (fs e) (ts_passes e) in
  {| env := e;
     config := config;
     parsers :=
       [ (PYTHON, PythonParser.parse (fs e) (ast_parse e));
         (TEAL, TealParser.parse (fs e) (int_of_str e)
                                 (_extract_transaction_fields e));
         (TYPESCRIPT, ts);
         (JAVASCRIPT, ts) ];
     analyzers :=
       (if mem "builtin" (Models.analyzers config)
        then [("builtin", BuiltinAnalyzer (open_rules e))] else []) ++
       (if mem "panda" (Models.analyzers config)
        then [("panda", PandaAnalyzer (panda e))] else []) ++
       (if mem "tealer" (Models.analyzers config)
        then [("tealer", TealerAnalyzer (tealer e))] else []) ++
       (if mem "quality-assurance" (Models.analyzers config)
        then [("quality-assurance", QualityAssuranceAnalyzer (qa e))]
        else []) |}.

Definition _get_file_type (file_path : Path) : option FileType :=
  let sfx := lower (suffix file_path) in
  if String.eqb sfx ".py" then Some PYTHON
  else if String.eqb sfx ".teal" then Some TEAL
  else if mem sfx [".ts"; ".tsx"] then Some TYPESCRIPT
  else if mem sfx [".js"; ".jsx"] then Some JAVASCRIPT
  else None.

Definition severity_order : list str :=
  ["INFO"; "LOW"; "MEDIUM"; "HIGH"; "CRITICAL"].

Definition _meets_severity_threshold (threshold severity : SeverityLevel)
  : result bool :=
  rbind (index (value threshold) severity_order) (fun threshold_index =>
  rbind (index (value severity) severity_order) (fun severity_index =>
  Ret (threshold_index <=? severity_index)%nat)).

(** The comprehension that filters by the severity threshold. *)
Definition filter_by_threshold (threshold : SeverityLevel)
  (vulnerabilities : list Vulnerability) : result (list Vulnerability) :=
  filterM (fun v => _meets_severity_threshold threshold (severity v))
          vulnerabilities.

(** [self.parsers[file_type]], when [file_type in self.parsers]. *)
Definition lookup_parser (file_type : FileType)
  (parsers : list (FileType * Parser)) : option Parser :=
  option_map snd
    (find (fun entry => FileType_eqb (fst entry) file_type) parsers).

(** What happens during a scan: the effects of the parsers, the analyzers
    and the orchestrator itself, the awaits of analyzers, and the appends to
    the error list that [scan] shares with its file tasks. *)
Inductive scan_event :=
| Effect (ev : event)
| AnalyzeCall (analyzer : str) (file : str)  (* await analyzer.analyze(file, ...) *)
| ErrorsAppend (msg : str).                  (* errors.append(msg) *)

Definition within {A} (m : task A) : taskE scan_event A :=
  (map Effect (trace m), outcome m).

Definition logging (lv : level) (msg : str) : taskE scan_event unit :=
  emit (Effect (Log lv msg)).

Definition appended (t : list scan_event) : list str :=
  flat_map (fun ev => match ev with ErrorsAppend m => [m] | _ => [] end) t.

Definition awaited (t : list scan_event) : list str :=
  flat_map (fun ev => match ev with AnalyzeCall a _ => [a] | _ => [] end) t.

Definition effects_of (t : list scan_event) : list event :=
  flat_map (fun ev => match ev with Effect e => [e] | _ => [] end) t.

Section Scan.

Variable self : AlgorandScanner.

Definition analyzer_error_msg (analyzer_name : str) (file_path : Path)
  (e : exn) : str :=
  "Error in " +++ analyzer_name +++ " analyzer for " +++
  path_str file_path +++ ": " +++ exn_str e.

(** The loop over [self.analyzers.items()]. *)
Fixpoint run_analyzers (items : list (str * Analyzer)) (file_type : FileType)
  (file_path : Path) (parsed_content : Document)
  (vulnerabilities : list Vulnerability)
  : taskE scan_event (list Vulnerability) :=
  match items with
  | [] => ret vulnerabilities
  | (analyzer_name, analyzer) :: rest =>
      if supports_file_type analyzer file_type then
        vulnerabilities' <-
          try_except
            (emit (AnalyzeCall analyzer_name (path_str file_path)) ;;;
             analyzer_results <-
               within (analyze analyzer file_path parsed_content) ;;
             ret (vulnerabilities ++ analyzer_results))
            (fun e =>
               logging ERROR (analyzer_error_msg analyzer_name file_path e) ;;;
               ret vulnerabilities) ;;
        run_analyzers rest file_type file_path parsed_content vulnerabilities'
      else
        run_analyzers rest file_type file_path parsed_content vulnerabilities
  end.

Definition unsupported (file_path : Path)
  : taskE scan_event (list Vulnerability) :=
  logging WARNING ("Unsupported file type for " +++ path_str file_path) ;;;
  ret [].

Definition _scan_single_file (file_path : Path)
  : taskE scan_event (list Vulnerability) :=
  logging DEBUG ("Scanning file: " +++ path_str file_path) ;;;
  match _get_file_type file_path with
  | None => unsupported file_path
  | Some file_type =>
      match lookup_parser file_type (parsers self) with
      | None => unsupported file_path
      | Some parser =>
          parsed_content <- within (parser file_path) ;;
          match parsed_content with
          | None =>
              logging DEBUG ("No Algorand content found in " +++
                             path_str file_path) ;;;
              ret []
          | Some doc =>
              run_analyzers (analyzers self) file_type file_path doc []
          end
      end
  end.

Definition error_msg (file_path : Path) (e : exn) : str :=
  "Error scanning " +++ path_str file_path +++ ": " +++ exn_str e.

(** The file-level unit of work inside [scan], as a task runs it once it
    holds the semaphore; only here is the shared error list in reach. *)
Definition scan_file (file_path : Path) : taskE scan_event (list Vulnerability) :=
  try_except (_scan_single_file file_path)
    (fun e =>
       logging ERROR (error_msg file_path e) ;;;
       emit (ErrorsAppend (error_msg file_path e)) ;;;
       ret []).

(** [asyncio.Semaphore(value)] *)
Definition Semaphore (value : Z) : result Z :=
  if value <? 0
  then Raise (ValueError "Semaphore initial value must be >= 0")
  else Ret value.

(** [async with semaphore: body].  A task that enters releases the
    semaphore when its body is done, and every body is done after finitely
    many steps; so with a positive initial value every task enters sooner
    or later, and with the initial value 0 no task ever does. *)
Definition async_with {A} (semaphore : Z) (body : taskE scan_event A)
  : option (taskE scan_event A) :=
  if 0 <? semaphore then Some body else None.

(** The tasks of a list, when none of them waits forever. *)
Fixpoint all_done {A} (tasks : list (option A)) : option (list A) :=
  match tasks with
  | [] => Some []
  | None :: _ => None
  | Some task :: rest =>
      match all_done rest with
      | Some done => Some (task :: done)
      | None => None
      end
  end.

(** [asyncio.gather] with [return_exceptions=True]: it returns when every
    task is done, and never when one of them waits forever; the results
    come back in the order of the tasks; the effects of the tasks happen in
    the order in which the [schedule] completes them.  The second component
    is the shared error list as it stands when all tasks are done. *)
Definition gather {A} (schedule : list nat)
  (tasks : list (option (taskE scan_event A)))
  : option (taskE scan_event (list (result A) * list str)) :=
  match all_done tasks with
  | Some tasks =>
      let effects := flat_map (fun i => nth i (map trace tasks) []) schedule in
      Some (effects, Ret (map outcome tasks, appended effects))
  | None => None
  end.

(** Sequencing for calls that may wait forever. *)
Definition await {A B} (m : option (taskE scan_event A))
  (k : A -> option (taskE scan_event B)) : option (taskE scan_event B) :=
  match m with
  | None => None
  | Some (t, Raise e) => Some (t, Raise e)
  | Some (t, Ret a) =>
      match k a with
      | Some (t', r) => Some (t ++ t', r)
      | None => None
      end
  end.

(** The loop that collects the results. *)
Fixpoint collect (results : list (result (list Vulnerability)))
  (vulnerabilities : list Vulnerability) (errors : list str)
  : list Vulnerability * list str :=
  match results with
  | [] => (vulnerabilities, errors)
  | Ret result :: rest => collect rest (vulnerabilities ++ result) errors
  | Raise e :: rest => collect rest vulnerabilities (errors ++ [exn_str e])
  end.

(** [scan].  It returns a report, raises, or never returns ([None]): what
    discovery raises and the [ValueError] of the semaphore leave it, and it
    waits forever when a file task does.  The two clock readings are
    inputs; the four INFO lines, which format counts and the duration, are
    not part of the trace. *)
Definition scan (schedule : list nat) (start_time end_time : QArith_base.Q)
  : option (taskE scan_event ScanResult) :=
  await (Some (within (FileDiscovery.discover_files (fnmatch (env self))
                         (fs (env self)) (config self)))) (fun files =>
  await (Some (lift (Semaphore (max_workers (config self)))))
        (fun semaphore =>
  let tasks :=
    map (fun file_path => async_with semaphore (scan_file file_path)) files in
  await (gather schedule tasks) (fun gathered =>
  let (vulnerabilities, errors) := collect (fst gathered) [] (snd gathered) in
  Some (filtered_vulnerabilities <-
          lift (filter_by_threshold (severity_threshold (config self))
                                    vulnerabilities) ;;
        let scan_duration := QArith_base.Qminus end_time start_time in
        let tools_used := map fst (analyzers self) in
        ret {| files_scanned := len files;
               vulnerabilities := filtered_vulnerabilities;
               errors := errors;
               scan_duration := scan_duration;
               tools_used := tools_used |})))).

End Scan.

End Core.

(* ================================================================== *)
(** * Properties                                                        *)
(* ================================================================== *)

Import Py Models Documents Analyzers Core.

(** ** Tasks *)

Section TaskFacts.

Context {E A B : Type}.

Lemma outcome_bind_ret (m : taskE E A) (f : A -> taskE E B) (a : A) :
  outcome m = Ret a -> outcome (bind m f) = outcome (f a).
Proof.
  destruct m as [t r]; simpl; intros ->; simpl.
  destruct (f a); reflexivity.
Qed.

Lemma trace_bind_ret (m : taskE E A) (f : A -> taskE E B) (a : A) :
  outcome m = Ret a -> trace (bind m f) = trace m ++ trace (f a).
Proof.
  destruct m as [t r]; simpl; intros ->; simpl.
  destruct (f a); reflexivity.
Qed.

Lemma bind_raise (m : taskE E A) (f : A -> taskE E B) (e : exn) :
  outcome m = Raise e -> bind m f = (trace m, Raise e).
Proof.
  destruct m as [t r]; simpl; intros ->; reflexivity.
Qed.

Lemma try_except_ret (m : taskE E A) (h : exn -> taskE E A) (a : A) :
  outcome m = Ret a -> try_except m h = m.
Proof.
  destruct m as [t r]; simpl; intros ->; reflexivity.
Qed.

Lemma outcome_try_except_raise (m : taskE E A) (h : exn -> taskE E A) (e : exn) :
  outcome m = Raise e -> outcome (try_except m h) = outcome (h e).
Proof.
  destruct m as [t r]; simpl; intros ->; simpl.
  destruct (h e); reflexivity.
Qed.

Lemma trace_try_except_raise (m : taskE E A) (h : exn -> taskE E A) (e : exn) :
  outcome m = Raise e -> trace (try_except m h) = trace m ++ trace (h e).
Proof.
  destruct m as [t r]; simpl; intros ->; simpl.
  destruct (h e); reflexivity.
Qed.

(** A handler that always returns makes the guarded block total. *)
Lemma try_except_total (m : taskE E A) (h : exn -> taskE E A) :
  (forall e, exists a, outcome (h e) = Ret a) ->
  exists a, outcome (try_except m h) = Ret a.
Proof.
  intros Hh. destruct (outcome m) as [a|e] eqn:Hm.
  - exists a. rewrite (try_except_ret _ _ _ Hm). exact Hm.
  - destruct (Hh e) as [a Ha]. exists a.
    rewrite (outcome_try_except_raise _ _ _ Hm). exact Ha.
Qed.

End TaskFacts.

Lemma filterM_pure {A} (p : A -> result bool) (q : A -> bool) (l : list A) :
  (forall v, p v = Ret (q v)) -> filterM p l = Ret (filter q l).
Proof.
  intros Hp. induction l as [|v l IH]; simpl; auto.
  rewrite Hp, IH; simpl. destruct (q v); reflexivity.
Qed.

(** ** The severity filter *)

(** The order of the specification: INFO < LOW < MEDIUM < HIGH < CRITICAL. *)
Definition order (s : SeverityLevel) : nat :=
  match s with
  | INFO => 0
  | LOW => 1
  | MEDIUM => 2
  | HIGH => 3
  | CRITICAL => 4
  end.

Definition at_least (T : SeverityLevel) (v : Vulnerability) : bool :=
  (order T <=? order (severity v))%nat.

Lemma meets_severity_threshold_order (T s : SeverityLevel) :
  _meets_severity_threshold T s = Ret (order T <=? order s)%nat.
Proof. destruct T, s; reflexivity. Qed.

Lemma filter_by_threshold_filter (T : SeverityLevel) (vs : list Vulnerability) :
  filter_by_threshold T vs = Ret (filter (at_least T) vs).
Proof.
  apply filterM_pure. intros v. apply meets_severity_threshold_order.
Qed.

(** C1.  The severity filter of the scan never fails and keeps exactly the
    findings whose severity is at least the threshold in the order
    INFO < LOW < MEDIUM < HIGH < CRITICAL, in their original order; and a
    higher threshold keeps a sublist of what a lower one keeps. *)
Theorem severity_filter_exact_and_monotone :
  forall (findings : list Vulnerability) (T : SeverityLevel),
  exists kept,
    filter_by_threshold T findings = Ret kept /\
    kept = filter (at_least T) findings /\
    (forall f, In f kept <->
               In f findings /\ (order T <= order (severity f))%nat) /\
    (forall T2, (order T <= order T2)%nat ->
       exists kept2,
         filter_by_threshold T2 findings = Ret kept2 /\ incl kept2 kept).
Proof.
  intros findings T. exists (filter (at_least T) findings).
  split; [apply filter_by_threshold_filter|]. split; [reflexivity|]. split.
  - intros f. rewrite filter_In. unfold at_least.
    rewrite Nat.leb_le. tauto.
  - intros T2 HT. exists (filter (at_least T2) findings).
    split; [apply filter_by_threshold_filter|].
    intros f. rewrite !filter_In. unfold at_least.
    rewrite !Nat.leb_le. intros [Hin Hle]. split; [exact Hin|lia].
Qed.

(** ** Parser totality *)

Lemma log_then_none_returns (msg : str) :
  exists a : option Document, outcome (log ERROR msg ;;; ret None) = Ret a.
Proof. exists None. reflexivity. Qed.

(** C2.  Whatever the file system returns for the file (a decoding error
    included) and whatever the syntax-tree builder or an extraction pass
    does (raising included), each of the three parsers returns: a document
    or [None], never an exception. *)
Theorem parse_never_raises :
  forall (fs : FileDiscovery.FileSystem)
         (ast_parse : str -> str -> result (list stmt))
         (int_of_str : str -> option Z)
         (tx_fields : list str -> result (list TxField))
         (passes : TypeScriptParser.Passes)
         (file_path : Path),
    (exists r, outcome (PythonParser.parse fs ast_parse file_path) = Ret r) /\
    (exists r, outcome (TealParser.parse fs int_of_str tx_fields file_path)
               = Ret r) /\
    (exists r, outcome (TypeScriptParser.parse fs passes file_path) = Ret r).
Proof.
  intros. repeat split.
  - apply try_except_total. intros e.
    destruct (PythonParser.is_SyntaxError e); apply log_then_none_returns.
  - apply try_except_total. intros e. apply log_then_none_returns.
  - apply try_except_total. intros e. apply log_then_none_returns.
Qed.

(** ** Configuration *)

Definition known_analyzers : list str :=
  ["builtin"; "panda"; "tealer"; "quality-assurance"].

Lemma SeverityLevel_of_value_known (m : SeverityLevel) :
  SeverityLevel_of_value (value m) = Ret m.
Proof. destruct m; reflexivity. Qed.

Lemma SeverityLevel_of_value_unknown (v : str) :
  (forall m, v <> value m) ->
  SeverityLevel_of_value v =
  Raise (ValueError ("'" +++ v +++ "' is not a valid SeverityLevel")).
Proof.
  intros H. unfold SeverityLevel_of_value.
  destruct (find _ SeverityLevel_members) as [m|] eqn:Hf; [|reflexivity].
  apply find_some in Hf. destruct Hf as [_ Heq].
  apply String.eqb_eq in Heq. exfalso. apply (H m). now symmetry.
Qed.

Lemma init_analyzers (e : Environment) (cfg : ScanConfig) :
  map fst (Core.analyzers (init e cfg)) =
  filter (fun k => mem k (Models.analyzers cfg)) known_analyzers.
Proof.
  unfold init, known_analyzers; simpl.
  destruct (mem "builtin" _), (mem "panda" _), (mem "tealer" _),
           (mem "quality-assurance" _); reflexivity.
Qed.

(** C8, as stated, fails on analyzer identifiers: a configuration that
    names an unknown analyzer is constructed without error, and the scanner
    built from it silently leaves the unknown name out. *)
Lemma unknown_analyzer_is_accepted :
  exists cfg,
    from_dict {| d_target_paths := None; d_include_patterns := None;
                 d_exclude_patterns := None;
                 d_analyzers := Some ["builtin"; "nonexistent"];
                 d_severity_threshold := None; d_output_format := None;
                 d_output_file := None; d_max_workers := None;
                 d_timeout := None |} = Ret cfg /\
    In "nonexistent" (Models.analyzers cfg) /\
    mem "nonexistent" known_analyzers = false /\
    forall e, map fst (Core.analyzers (init e cfg)) = ["builtin"].
Proof.
  eexists. split; [reflexivity|]. split; [simpl; auto|].
  split; [reflexivity|]. intros e. reflexivity.
Qed.

(** C8, amended.  An unknown severity-threshold value makes
    [ScanConfig.from_dict] raise [ValueError], so that no configuration
    exists to scan with.  With a known value the configuration is built,
    carrying the analyzer identifiers unchanged and unchecked; the scanner
    then instantiates exactly the known identifiers among them. *)
Theorem config_validates_severity_only :
  forall data : ConfigData,
    ((forall m, get (d_severity_threshold data) "LOW" <> value m) ->
     exists e, from_dict data = Raise e /\ exn_class e = "ValueError") /\
    (forall m, get (d_severity_threshold data) "LOW" = value m ->
     exists cfg,
       from_dict data = Ret cfg /\
       severity_threshold cfg = m /\
       Models.analyzers cfg =
         get (d_analyzers data) ["builtin"; "panda"; "tealer"] /\
       forall e,
         map fst (Core.analyzers (init e cfg)) =
         filter (fun k => mem k (Models.analyzers cfg)) known_analyzers).
Proof.
  intros data. split.
  - intros H. unfold from_dict.
    rewrite (SeverityLevel_of_value_unknown _ H). simpl.
    eexists. split; reflexivity.
  - intros m Hm. unfold from_dict. rewrite Hm.
    rewrite SeverityLevel_of_value_known. simpl.
    eexists. split; [reflexivity|]. split; [reflexivity|].
    split; [reflexivity|]. intros e. apply init_analyzers.
Qed.

(** ** The order on paths *)

Lemma ascii_compare_lt_trans (a b c : ascii) :
  Ascii.compare a b = Lt -> Ascii.compare b c = Lt -> Ascii.compare a c = Lt.
Proof.
  unfold Ascii.compare. rewrite !N.compare_lt_iff. apply N.lt_trans.
Qed.

Lemma ascii_compare_refl (a : ascii) : Ascii.compare a a = Eq.
Proof. unfold Ascii.compare. apply N.compare_refl. Qed.

Lemma string_compare_refl (s : string) : String.compare s s = Eq.
Proof.
  induction s as [|a s IH]; simpl; auto. now rewrite ascii_compare_refl.
Qed.

Lemma string_compare_lt_trans (s1 s2 s3 : string) :
  String.compare s1 s2 = Lt -> String.compare s2 s3 = Lt ->
  String.compare s1 s3 = Lt.
Proof.
  revert s2 s3. induction s1 as [|a s1 IH]; intros [|b s2] [|c s3]; simpl;
    try congruence.
  destruct (Ascii.compare a b) eqn:Hab; try discriminate;
    destruct (Ascii.compare b c) eqn:Hbc; try discriminate; intros H1 H2.
  - apply Ascii.compare_eq_iff in Hab, Hbc. subst.
    rewrite ascii_compare_refl. eauto.
  - apply Ascii.compare_eq_iff in Hab. subst. now rewrite Hbc.
  - apply Ascii.compare_eq_iff in Hbc. subst. now rewrite Hab.
  - now rewrite (ascii_compare_lt_trans _ _ _ Hab Hbc).
Qed.

Lemma path_compare_eq (p q : Path) : path_compare p q = Eq -> p = q.
Proof.
  revert q. induction p as [|x p IH]; intros [|y q]; simpl; try congruence.
  destruct (String.compare x y) eqn:Hxy; try discriminate.
  intros H. apply String.compare_eq_iff in Hxy. f_equal; auto.
Qed.

Lemma path_compare_refl (p : Path) : path_compare p p = Eq.
Proof.
  induction p as [|x p IH]; simpl; auto. now rewrite string_compare_refl.
Qed.

Lemma path_compare_lt_trans (p q r : Path) :
  path_compare p q = Lt -> path_compare q r = Lt -> path_compare p r = Lt.
Proof.
  revert q r. induction p as [|x p IH]; intros [|y q] [|z r]; simpl;
    try congruence.
  destruct (String.compare x y) eqn:Hxy; try discriminate;
    destruct (String.compare y z) eqn:Hyz; try discriminate; intros H1 H2.
  - apply String.compare_eq_iff in Hxy, Hyz. subst.
    rewrite string_compare_refl. eauto.
  - apply String.compare_eq_iff in Hxy. subst. now rewrite Hyz.
  - apply String.compare_eq_iff in Hyz. subst. now rewrite Hxy.
  - now rewrite (string_compare_lt_trans _ _ _ Hxy Hyz).
Qed.

Lemma path_leb_trans (p q r : Path) :
  path_leb p q = true -> path_leb q r = true -> path_leb p r = true.
Proof.
  unfold path_leb.
  destruct (path_compare p q) eqn:Hpq; try discriminate;
    destruct (path_compare q r) eqn:Hqr; try discriminate; intros _ _.
  - apply path_compare_eq in Hpq, Hqr. subst. now rewrite path_compare_refl.
  - apply path_compare_eq in Hpq. subst. now rewrite Hqr.
  - apply path_compare_eq in Hqr. subst. now rewrite Hpq.
  - now rewrite (path_compare_lt_trans _ _ _ Hpq Hqr).
Qed.

(** ** File discovery *)

Section DiscoveryFacts.

Variable fnmatch : str -> str -> bool.
Variable fs : FileDiscovery.FileSystem.
Variable config : ScanConfig.

Lemma add_NoDup (p : Path) (files : list Path) :
  NoDup files -> NoDup (FileDiscovery.add p files).
Proof. apply ListSet.set_add_nodup. Qed.

Lemma update_NoDup (more files : list Path) :
  NoDup files -> NoDup (FileDiscovery.update files more).
Proof.
  unfold FileDiscovery.update. revert files.
  induction more as [|p more IH]; simpl; auto using add_NoDup.
Qed.

Lemma add_files_NoDup (yielded files : list Path) :
  NoDup files -> NoDup (fst (FileDiscovery.add_files fs yielded files)).
Proof.
  revert files. induction yielded as [|p ys IH]; intros files Hnd;
    cbn [FileDiscovery.add_files]; auto.
  destruct (FileDiscovery.is_file fs p) as [[|]|e]; cbn [fst];
    auto using add_NoDup.
Qed.

Lemma rglob_patterns_NoDup (directory : Path) (patterns : list str)
  (files : list Path) :
  NoDup files ->
  NoDup (fst (FileDiscovery.rglob_patterns fs directory patterns files)).
Proof.
  revert files. induction patterns as [|pattern rest IH]; intros files Hnd;
    cbn [FileDiscovery.rglob_patterns]; auto.
  destruct (FileDiscovery.rglob fs directory pattern) as [yielded failure].
  pose proof (add_files_NoDup yielded files Hnd) as Hnd'.
  destruct (FileDiscovery.add_files fs yielded files) as [files' [e|]];
    cbn [fst] in *; auto.
  destruct failure; cbn [fst]; auto.
Qed.

Lemma scan_directory_returns (directory : Path) :
  exists files,
    outcome (FileDiscovery._scan_directory fs config directory) = Ret files /\
    NoDup files.
Proof.
  unfold FileDiscovery._scan_directory.
  pose proof (rglob_patterns_NoDup directory (include_patterns config) []
                (NoDup_nil _)) as Hnd.
  destruct (FileDiscovery.rglob_patterns fs directory _ []) as [files failure].
  exists files. simpl in Hnd. destruct failure; split; auto.
Qed.

(** One round of the loop over the target paths. *)
Lemma collect_targets_cons (target : str) (rest : list str)
  (all_files : list Path) :
  outcome (FileDiscovery.collect_targets fs config (target :: rest) all_files)
  =
  match FileDiscovery.is_file fs (Path_of_str target) with
  | Raise e => Raise e
  | Ret true =>
      outcome (FileDiscovery.collect_targets fs config rest
                 (FileDiscovery.add (Path_of_str target) all_files))
  | Ret false =>
      match FileDiscovery.is_dir fs (Path_of_str target) with
      | Raise e => Raise e
      | Ret true =>
          match outcome (FileDiscovery._scan_directory fs config
                           (Path_of_str target)) with
          | Ret files =>
              outcome (FileDiscovery.collect_targets fs config rest
                         (FileDiscovery.update all_files files))
          | Raise e => Raise e
          end
      | Ret false =>
          outcome (FileDiscovery.collect_targets fs config rest all_files)
      end
  end.
Proof.
  cbn [FileDiscovery.collect_targets].
  destruct (FileDiscovery.is_file fs (Path_of_str target)) as [[|]|e].
  - now rewrite (outcome_bind_ret _ _ true) by reflexivity.
  - rewrite (outcome_bind_ret _ _ false) by reflexivity.
    destruct (FileDiscovery.is_dir fs (Path_of_str target)) as [[|]|e].
    + rewrite (outcome_bind_ret _ _ true) by reflexivity.
      destruct (scan_directory_returns (Path_of_str target))
        as [files [Hret _]].
      now rewrite (outcome_bind_ret _ _ _ Hret), Hret.
    + rewrite (outcome_bind_ret _ _ false) by reflexivity.
      now rewrite (outcome_bind_ret _ _ tt) by reflexivity.
    + now rewrite (bind_raise _ _ e) by reflexivity.
  - now rewrite (bind_raise _ _ e) by reflexivity.
Qed.

(** A target path on which [is_file] answers, and [is_dir] too where it
    is asked. *)
Definition target_answers (target : str) : Prop :=
  FileDiscovery.is_file fs (Path_of_str target) = Ret true \/
  (FileDiscovery.is_file fs (Path_of_str target) = Ret false /\
   exists directory,
     FileDiscovery.is_dir fs (Path_of_str target) = Ret directory).

Lemma collect_targets_NoDup (targets : list str)
  (all_files files : list Path) :
  NoDup all_files ->
  outcome (FileDiscovery.collect_targets fs config targets all_files)
    = Ret files ->
  NoDup files.
Proof.
  revert all_files. induction targets as [|target rest IH];
    intros all_files Hnd.
  - cbn. intros H. now injection H as <-.
  - rewrite collect_targets_cons.
    destruct (FileDiscovery.is_file fs (Path_of_str target)) as [[|]|e];
      [apply IH; now apply add_NoDup| |discriminate].
    destruct (FileDiscovery.is_dir fs (Path_of_str target)) as [[|]|e];
      [|now apply IH|discriminate].
    destruct (scan_directory_returns (Path_of_str target))
      as [found [Hret Hfound]].
    rewrite Hret. apply IH. now apply update_NoDup.
Qed.

(** The loop returns exactly when the file system answers for every
    target path. *)
Lemma collect_targets_returns (targets : list str) (all_files : list Path) :
  (exists files,
     outcome (FileDiscovery.collect_targets fs config targets all_files)
     = Ret files) <->
  (forall target, In target targets -> target_answers target).
Proof.
  revert all_files. induction targets as [|target rest IH];
    intros all_files.
  - split; [intros _ t []|intros _; exists all_files; reflexivity].
  - assert (Hcons : forall P : str -> Prop,
              (forall t, In t (target :: rest) -> P t) <->
              P target /\ (forall t, In t rest -> P t)).
    { intros P. split.
      - intros H. split; [apply H; now left|intros t Ht; apply H; now right].
      - intros [H1 H2] t [<-|Ht]; auto. }
    rewrite Hcons, collect_targets_cons. unfold target_answers at 1.
    destruct (FileDiscovery.is_file fs (Path_of_str target))
      as [[|]|e] eqn:Hf.
    + rewrite IH. tauto.
    + destruct (FileDiscovery.is_dir fs (Path_of_str target))
        as [[|]|e] eqn:Hd.
      * destruct (scan_directory_returns (Path_of_str target))
          as [found [Hret _]].
        rewrite Hret, IH. split; [intros H; split; eauto|tauto].
      * rewrite IH. split; [intros H; split; eauto|tauto].
      * split; [intros [files H]; discriminate|].
        intros [[H1|[_ [d H2]]] _]; discriminate.
    + split; [intros [files H]; discriminate|].
      intros [[H1|[H1 _]] _]; discriminate.
Qed.

Lemma sorted_In (l : list Path) (p : Path) : In p (sorted l) <-> In p l.
Proof.
  unfold sorted. split; intros H.
  - eapply Permutation_in; [|exact H].
    apply Permutation_sym, PathSort.Permuted_sort.
  - eapply Permutation_in; [|exact H]. apply PathSort.Permuted_sort.
Qed.

Lemma sorted_NoDup (l : list Path) : NoDup l -> NoDup (sorted l).
Proof.
  intros H. eapply Permutation_NoDup; [|exact H].
  apply PathSort.Permuted_sort.
Qed.

Lemma sorted_StronglySorted (l : list Path) :
  StronglySorted (fun p q => path_leb p q = true) (sorted l).
Proof.
  apply (PathSort.StronglySorted_sort l).
  intros p q r. apply path_leb_trans.
Qed.

Lemma matches_any_false (p : Path) (patterns : list str) :
  FileDiscovery.matches_any fnmatch p patterns = false ->
  forall pattern, In pattern patterns ->
    fnmatch (path_str p) pattern = false /\ fnmatch (name p) pattern = false.
Proof.
  unfold FileDiscovery.matches_any. intros H pattern Hin.
  destruct (fnmatch (path_str p) pattern) eqn:H1;
    destruct (fnmatch (name p) pattern) eqn:H2; auto;
    exfalso; apply Bool.not_true_iff_false in H; apply H;
    apply existsb_exists; exists pattern; rewrite H1, H2; auto.
Qed.

(** What a discovery pass returns, when it returns. *)
Lemma discover_files_outcome :
  outcome (FileDiscovery.discover_files fnmatch fs config) =
  match outcome (FileDiscovery.collect_targets fs config
                   (target_paths config) []) with
  | Ret all_files =>
      Ret (sorted (filter (FileDiscovery._should_include_file fnmatch config)
                          all_files))
  | Raise e => Raise e
  end.
Proof.
  unfold FileDiscovery.discover_files.
  destruct (outcome (FileDiscovery.collect_targets fs config
                       (target_paths config) [])) as [all_files|e] eqn:H.
  - now rewrite (outcome_bind_ret _ _ _ H).
  - now rewrite (bind_raise _ _ _ H).
Qed.

Lemma discover_files_returned (files : list Path) :
  outcome (FileDiscovery.discover_files fnmatch fs config) = Ret files ->
  exists all_files,
    outcome (FileDiscovery.collect_targets fs config (target_paths config) [])
      = Ret all_files /\
    NoDup all_files /\
    files = sorted (filter (FileDiscovery._should_include_file fnmatch config)
                           all_files).
Proof.
  rewrite discover_files_outcome.
  destruct (outcome (FileDiscovery.collect_targets fs config
                       (target_paths config) [])) as [all_files|e] eqn:H;
    [|discriminate].
  intros Heq. injection Heq as <-. exists all_files.
  split; [reflexivity|]. split; [|reflexivity].
  exact (collect_targets_NoDup _ _ _ (NoDup_nil _) H).
Qed.

Lemma discover_files_returns :
  (exists files,
     outcome (FileDiscovery.discover_files fnmatch fs config) = Ret files) <->
  (forall target, In target (target_paths config) -> target_answers target).
Proof.
  rewrite <- (collect_targets_returns (target_paths config) []).
  rewrite discover_files_outcome.
  destruct (outcome (FileDiscovery.collect_targets fs config
                       (target_paths config) [])) as [all_files|e].
  - split; intros _; eauto.
  - split; intros [files H]; discriminate.
Qed.

End DiscoveryFacts.

(** C5.  For every configuration and file system, every sequence of paths
    that discovery returns is sorted in the lexicographic order of paths
    and has no duplicate, and no path in it matches an exclude pattern,
    by its full text or by its bare name, whatever include patterns it
    matches.  Discovery returns exactly when the file system answers for
    every target path; otherwise it raises what [is_file] or [is_dir]
    raises. *)
Theorem discovery_sorted_nodup_excluded :
  forall (fnmatch : str -> str -> bool) (fs : FileDiscovery.FileSystem)
         (config : ScanConfig),
    ((exists files,
        outcome (FileDiscovery.discover_files fnmatch fs config) = Ret files)
     <->
     (forall target, In target (target_paths config) ->
                     target_answers fs target)) /\
    (forall files,
       outcome (FileDiscovery.discover_files fnmatch fs config) = Ret files ->
       StronglySorted (fun p q => path_leb p q = true) files /\
       NoDup files /\
       forall p, In p files ->
         forall pattern, In pattern (exclude_patterns config) ->
           fnmatch (path_str p) pattern = false /\
           fnmatch (name p) pattern = false).
Proof.
  intros fnmatch fs config. split; [apply discover_files_returns|].
  intros files Hret.
  destruct (discover_files_returned fnmatch fs config files Hret)
    as [all [_ [Hnd ->]]].
  split; [apply sorted_StronglySorted|].
  split; [apply sorted_NoDup, NoDup_filter, Hnd|].
  intros p Hin pattern Hpat.
  apply sorted_In, filter_In in Hin. destruct Hin as [_ Hinc].
  unfold FileDiscovery._should_include_file in Hinc.
  destruct (FileDiscovery.matches_any fnmatch p (exclude_patterns config))
    eqn:Hex; [discriminate|].
  exact (matches_any_false fnmatch p _ Hex pattern Hpat).
Qed.

(** ** The orchestrator *)

Lemma appended_app (t1 t2 : list scan_event) :
  appended (t1 ++ t2) = appended t1 ++ appended t2.
Proof. unfold appended. apply flat_map_app. Qed.

Lemma awaited_app (t1 t2 : list scan_event) :
  awaited (t1 ++ t2) = awaited t1 ++ awaited t2.
Proof. unfold awaited. apply flat_map_app. Qed.

Lemma appended_Effect (t : list event) : appended (map Effect t) = [].
Proof. induction t as [|ev t IH]; simpl; auto. Qed.

Lemma awaited_Effect (t : list event) : awaited (map Effect t) = [].
Proof. induction t as [|ev t IH]; simpl; auto. Qed.

Lemma appended_AnalyzeCall n f (t : list scan_event) :
  appended (AnalyzeCall n f :: t) = appended t.
Proof. reflexivity. Qed.

Lemma awaited_AnalyzeCall n f (t : list scan_event) :
  awaited (AnalyzeCall n f :: t) = n :: awaited t.
Proof. reflexivity. Qed.

Lemma outcome_within {A} (m : task A) : outcome (within m) = outcome m.
Proof. reflexivity. Qed.

Lemma trace_within {A} (m : task A) : trace (within m) = map Effect (trace m).
Proof. reflexivity. Qed.

Section ScanFacts.

Variable self : AlgorandScanner.

(** What one analyzer adds to the findings of one file. *)
Definition contribution (file_type : FileType) (file_path : Path)
  (doc : Document) (item : str * Analyzer) : list Vulnerability :=
  if supports_file_type (snd item) file_type then
    match outcome (analyze (snd item) file_path doc) with
    | Ret analyzer_results => analyzer_results
    | Raise _ => []
    end
  else [].

(** The analyzer-call boundary: the guarded call of one analyzer. *)
Definition guarded_call (analyzer_name : str) (analyzer : Analyzer)
  (file_path : Path) (doc : Document) (vulnerabilities : list Vulnerability)
  : taskE scan_event (list Vulnerability) :=
  try_except
    (emit (AnalyzeCall analyzer_name (path_str file_path)) ;;;
     analyzer_results <- within (analyze analyzer file_path doc) ;;
     ret (vulnerabilities ++ analyzer_results))
    (fun e =>
       logging ERROR (analyzer_error_msg analyzer_name file_path e) ;;;
       ret vulnerabilities).

Lemma guarded_call_ret n a f doc acc l :
  outcome (analyze a f doc) = Ret l ->
  guarded_call n a f doc acc =
  (AnalyzeCall n (path_str f) :: map Effect (trace (analyze a f doc)),
   Ret (acc ++ l)).
Proof.
  unfold guarded_call, within. destruct (analyze a f doc) as [t r]; simpl.
  intros ->. simpl. now rewrite app_nil_r.
Qed.

Lemma guarded_call_raise n a f doc acc e :
  outcome (analyze a f doc) = Raise e ->
  guarded_call n a f doc acc =
  (AnalyzeCall n (path_str f) :: map Effect (trace (analyze a f doc)) ++
     [Effect (Log ERROR (analyzer_error_msg n f e))],
   Ret acc).
Proof.
  unfold guarded_call, within. destruct (analyze a f doc) as [t r]; simpl.
  intros ->. reflexivity.
Qed.

Lemma run_analyzers_cons n a rest ft f doc acc :
  run_analyzers ((n, a) :: rest) ft f doc acc =
  if supports_file_type a ft then
    acc' <- guarded_call n a f doc acc ;; run_analyzers rest ft f doc acc'
  else run_analyzers rest ft f doc acc.
Proof. reflexivity. Qed.

Lemma guarded_call_cases n a f doc acc :
  exists t,
    guarded_call n a f doc acc =
      (AnalyzeCall n (path_str f) :: map Effect t,
       Ret (acc ++ match outcome (analyze a f doc) with
                   | Ret l => l
                   | Raise _ => []
                   end)).
Proof.
  destruct (outcome (analyze a f doc)) as [l|e] eqn:H.
  - rewrite (guarded_call_ret _ _ _ _ _ _ H). eauto.
  - rewrite (guarded_call_raise _ _ _ _ _ _ H), app_nil_r.
    exists (trace (analyze a f doc) ++
            [Log ERROR (analyzer_error_msg n f e)]).
    now rewrite map_app.
Qed.

Lemma run_analyzers_outcome items ft f doc acc :
  outcome (run_analyzers items ft f doc acc) =
  Ret (acc ++ flat_map (contribution ft f doc) items).
Proof.
  revert acc. induction items as [|[n a] rest IH]; intros acc.
  - simpl. now rewrite app_nil_r.
  - rewrite run_analyzers_cons. cbn [flat_map]. unfold contribution at 1.
    cbn [snd]. destruct (supports_file_type a ft).
    + destruct (guarded_call_cases n a f doc acc) as [t Ht].
      rewrite (outcome_bind_ret _ _ _ (f_equal snd Ht)).
      rewrite IH. now rewrite <- app_assoc.
    + rewrite IH. reflexivity.
Qed.

Lemma run_analyzers_appended items ft f doc acc :
  appended (trace (run_analyzers items ft f doc acc)) = [].
Proof.
  revert acc. induction items as [|[n a] rest IH]; intros acc; auto.
  rewrite run_analyzers_cons. destruct (supports_file_type a ft); auto.
  destruct (guarded_call_cases n a f doc acc) as [t Ht].
  rewrite (trace_bind_ret _ _ _ (f_equal snd Ht)), appended_app, IH, Ht.
  cbn [trace fst]. now rewrite appended_AnalyzeCall, appended_Effect.
Qed.

Lemma run_analyzers_awaited items ft f doc acc :
  awaited (trace (run_analyzers items ft f doc acc)) =
  map fst (filter (fun item => supports_file_type (snd item) ft) items).
Proof.
  revert acc. induction items as [|[n a] rest IH]; intros acc; auto.
  rewrite run_analyzers_cons. cbn [filter snd].
  destruct (supports_file_type a ft); auto.
  destruct (guarded_call_cases n a f doc acc) as [t Ht].
  rewrite (trace_bind_ret _ _ _ (f_equal snd Ht)), awaited_app, IH, Ht.
  cbn [trace fst]. now rewrite awaited_AnalyzeCall, awaited_Effect.
Qed.

(** What one file adds to the findings and to the error list of a scan. *)
Definition file_findings (file_path : Path) : list Vulnerability :=
  match outcome (_scan_single_file self file_path) with
  | Ret found => found
  | Raise _ => []
  end.

Definition file_errors (file_path : Path) : list str :=
  match outcome (_scan_single_file self file_path) with
  | Ret _ => []
  | Raise e => [error_msg file_path e]
  end.

Lemma scan_single_file_appended (f : Path) :
  appended (trace (_scan_single_file self f)) = [].
Proof.
  unfold _scan_single_file.
  rewrite (trace_bind_ret _ _ tt) by reflexivity. rewrite appended_app.
  cbn [logging emit trace fst appended flat_map app].
  destruct (_get_file_type f) as [ft|]; [|reflexivity].
  destruct (lookup_parser ft (parsers self)) as [parser|]; [|reflexivity].
  destruct (outcome (within (parser f))) as [[doc|]|e] eqn:Hp.
  - rewrite (trace_bind_ret _ _ _ Hp), appended_app, trace_within,
      appended_Effect. apply run_analyzers_appended.
  - rewrite (trace_bind_ret _ _ _ Hp), appended_app, trace_within,
      appended_Effect. reflexivity.
  - rewrite (bind_raise _ _ _ Hp). cbn [trace fst].
    rewrite trace_within. apply appended_Effect.
Qed.

Lemma scan_file_outcome (f : Path) :
  outcome (scan_file self f) = Ret (file_findings f).
Proof.
  unfold scan_file, file_findings.
  destruct (outcome (_scan_single_file self f)) as [l|e] eqn:H.
  - rewrite (try_except_ret _ _ _ H). exact H.
  - rewrite (outcome_try_except_raise _ _ _ H). reflexivity.
Qed.

Lemma scan_file_appended (f : Path) :
  appended (trace (scan_file self f)) = file_errors f.
Proof.
  unfold scan_file, file_errors.
  destruct (outcome (_scan_single_file self f)) as [l|e] eqn:H.
  - rewrite (try_except_ret _ _ _ H). apply scan_single_file_appended.
  - rewrite (trace_try_except_raise _ _ _ H), appended_app,
      scan_single_file_appended. reflexivity.
Qed.

End ScanFacts.




Lemma awaited_flat_map {I} (g : I -> list scan_event) (l : list I) :
  awaited (flat_map g l) = flat_map (fun i => awaited (g i)) l.
Proof.
  induction l as [|i l IH]; auto.
  cbn [flat_map]. now rewrite awaited_app, IH.
Qed.

Lemma sum_ones_filter {A} (p : A -> bool) (vs : list A) :
  sum_ones p vs = len (filter p vs).
Proof.
  unfold sum_ones, len.
  assert (H : forall acc,
            fold_left (fun acc v => if p v then acc + 1 else acc) vs acc =
            acc + Z.of_nat (List.length (filter p vs))).
  { induction vs as [|v vs IH]; intros acc; simpl; [lia|].
    rewrite IH. destruct (p v); simpl List.length; lia. }
  now rewrite H.
Qed.

Section ScanReport.

Variable self : AlgorandScanner.

(** The effects of the file tasks, in the order of a schedule. *)
Definition task_effects (schedule : list nat) (files : list Path)
  : list scan_event :=
  flat_map (fun i => nth i (map trace (map (scan_file self) files)) [])
           schedule.

Definition discovery : task (list Path) :=
  FileDiscovery.discover_files (fnmatch (env self)) (fs (env self))
                               (config self).

Lemma collect_outcomes (files : list Path) (found : list Vulnerability)
  (errs : list str) :
  collect (map outcome (map (scan_file self) files)) found errs =
  (found ++ flat_map (file_findings self) files, errs).
Proof.
  revert found. induction files as [|f files IH]; intros found.
  - simpl. now rewrite app_nil_r.
  - cbn [map]. rewrite scan_file_outcome. cbn [collect flat_map].
    rewrite IH. now rewrite <- app_assoc.
Qed.

(** What a scan comes to when discovery returns [files] and every file
    task is done: its effects and its report. *)
Definition completed (schedule : list nat) (t0 t1 : QArith_base.Q)
  (files : list Path) : taskE scan_event ScanResult :=
  (map Effect (trace discovery) ++ task_effects schedule files,
   Ret {| files_scanned := len files;
          vulnerabilities :=
            filter (at_least (severity_threshold (config self)))
                   (flat_map (file_findings self) files);
          errors := appended (task_effects schedule files);
          scan_duration := QArith_base.Qminus t1 t0;
          tools_used := map fst (Core.analyzers self) |}).

Lemma all_done_async_with (semaphore : Z) (files : list Path) :
  all_done (map (fun f => async_with semaphore (scan_file self f)) files) =
  if 0 <? semaphore then Some (map (scan_file self) files)
  else match files with
       | [] => Some []
       | _ => None
       end.
Proof.
  unfold async_with. destruct (0 <? semaphore).
  - induction files as [|f files IH]; [reflexivity|].
    cbn [map all_done]. now rewrite IH.
  - destruct files; reflexivity.
Qed.

Lemma scan_after_gather (schedule : list nat) (t0 t1 : QArith_base.Q)
  (files : list Path) (semaphore : Z) :
  outcome discovery = Ret files ->
  Semaphore (max_workers (config self)) = Ret semaphore ->
  all_done (map (fun f => async_with semaphore (scan_file self f)) files)
    = Some (map (scan_file self) files) ->
  scan self schedule t0 t1 = Some (completed schedule t0 t1 files).
Proof.
  intros Hd Hs Hall. unfold scan, completed. fold discovery.
  unfold within. rewrite Hd, Hs. cbn [await lift].
  unfold gather. rewrite Hall. fold (task_effects schedule files).
  cbn [await fst snd]. rewrite collect_outcomes. cbn [app].
  rewrite filter_by_threshold_filter.
  unfold lift, ret, bind. now rewrite !app_nil_r.
Qed.

(** The three ways in which a scan ends, and the one in which it does
    not. *)
Lemma scan_cases (schedule : list nat) (t0 t1 : QArith_base.Q) :
  scan self schedule t0 t1 =
  match outcome discovery with
  | Raise e => Some (map Effect (trace discovery), Raise e)
  | Ret files =>
      if max_workers (config self) <? 0 then
        Some (map Effect (trace discovery),
              Raise (ValueError "Semaphore initial value must be >= 0"))
      else if 0 <? max_workers (config self) then
        Some (completed schedule t0 t1 files)
      else match files with
           | [] => Some (completed schedule t0 t1 [])
           | _ => None
           end
  end.
Proof.
  destruct (outcome discovery) as [files|e] eqn:Hd.
  - destruct (Z.ltb_spec (max_workers (config self)) 0) as [Hneg|Hnn].
    + unfold scan. fold discovery. unfold within. rewrite Hd.
      unfold Semaphore. destruct (Z.ltb_spec (max_workers (config self)) 0);
        [|lia]. cbn [await lift]. now rewrite app_nil_r.
    + assert (Hs : Semaphore (max_workers (config self)) =
                   Ret (max_workers (config self))).
      { unfold Semaphore.
        destruct (Z.ltb_spec (max_workers (config self)) 0); [lia|auto]. }
      pose proof (all_done_async_with (max_workers (config self)) files)
        as Hall.
      destruct (0 <? max_workers (config self)).
      * exact (scan_after_gather schedule t0 t1 files _ Hd Hs Hall).
      * destruct files as [|f files].
        -- exact (scan_after_gather schedule t0 t1 [] _ Hd Hs Hall).
        -- unfold scan. fold discovery. unfold within. rewrite Hd, Hs.
           cbn [await lift]. unfold gather. now rewrite Hall.
  - unfold scan. fold discovery. unfold within. now rewrite Hd.
Qed.


(** Every report that a scan returns is the report of the files that
    discovery returned. *)
Lemma scan_returned (schedule : list nat) (t0 t1 : QArith_base.Q)
  (t : list scan_event) (report : ScanResult) :
  scan self schedule t0 t1 = Some (t, Ret report) ->
  exists files,
    outcome discovery = Ret files /\
    0 <= max_workers (config self) /\
    (t, Ret report) = completed schedule t0 t1 files.
Proof.
  rewrite scan_cases.
  destruct (outcome discovery) as [files|e]; [|discriminate].
  destruct (Z.ltb_spec (max_workers (config self)) 0) as [Hneg|Hnn];
    [discriminate|].
  destruct (0 <? max_workers (config self)).
  - intros Hs. exists files.
    split; [reflexivity|]. split; [exact Hnn|congruence].
  - destruct files; [|discriminate].
    intros Hs. exists [].
    split; [reflexivity|]. split; [exact Hnn|congruence].
Qed.


End ScanReport.

Section ScanTheorems.

Variable self : AlgorandScanner.

Let T : SeverityLevel := severity_threshold (config self).


Definition tally (s : SeverityLevel) (vs : list Vulnerability) : Z :=
  len (filter (fun v => severity_eqb (severity v) s) vs).

Lemma severity_eqb_eq (a b : SeverityLevel) :
  severity_eqb a b = true <-> a = b.
Proof. destruct a, b; simpl; split; congruence. Qed.

Lemma tally_below (s : SeverityLevel) (vs : list Vulnerability) :
  (order s < order T)%nat -> tally s (filter (at_least T) vs) = 0.
Proof.
  intros Hlt. unfold tally, len.
  replace (filter _ (filter (at_least T) vs)) with (@nil Vulnerability);
    [reflexivity|].
  symmetry. induction vs as [|v vs IH]; auto. cbn [filter].
  destruct (at_least T v) eqn:Hv; auto. cbn [filter].
  destruct (severity_eqb (severity v) s) eqn:Hs; auto.
  apply severity_eqb_eq in Hs. unfold at_least in Hv.
  apply Nat.leb_le in Hv. rewrite Hs in Hv. lia.
Qed.


Lemma scan_single_file_awaited (f : Path) :
  incl (awaited (trace (_scan_single_file self f)))
       (map fst (Core.analyzers self)).
Proof.
  unfold _scan_single_file.
  rewrite (trace_bind_ret _ _ tt) by reflexivity. rewrite awaited_app.
  cbn [logging emit trace fst awaited flat_map app].
  destruct (_get_file_type f) as [ft|]; [|intros x []].
  destruct (lookup_parser ft (parsers self)) as [parser|]; [|intros x []].
  destruct (outcome (within (parser f))) as [[doc|]|e] eqn:Hp.
  - rewrite (trace_bind_ret _ _ _ Hp), awaited_app, trace_within,
      awaited_Effect, run_analyzers_awaited. cbn [app].
    intros x Hx. apply in_map_iff in Hx. destruct Hx as [item [<- Hin]].
    apply filter_In in Hin. apply in_map. tauto.
  - rewrite (trace_bind_ret _ _ _ Hp), awaited_app, trace_within,
      awaited_Effect. intros x [].
  - rewrite (bind_raise _ _ _ Hp). cbn [trace fst].
    rewrite trace_within, awaited_Effect. intros x [].
Qed.

Lemma scan_file_awaited (f : Path) :
  incl (awaited (trace (scan_file self f))) (map fst (Core.analyzers self)).
Proof.
  unfold scan_file.
  destruct (outcome (_scan_single_file self f)) as [l|e] eqn:H.
  - rewrite (try_except_ret _ _ _ H). apply scan_single_file_awaited.
  - rewrite (trace_try_except_raise _ _ _ H), awaited_app.
    cbn. rewrite app_nil_r. apply scan_single_file_awaited.
Qed.

Lemma task_effects_awaited (schedule : list nat) (files : list Path) :
  incl (awaited (task_effects self schedule files))
       (map fst (Core.analyzers self)).
Proof.
  unfold task_effects. rewrite awaited_flat_map.
  intros x Hx. apply in_flat_map in Hx. destruct Hx as [i [_ Hx]].
  destruct (Nat.lt_ge_cases i
              (List.length (map trace (map (scan_file self) files))))
    as [Hlt|Hge].
  - pose proof (nth_In _ (@nil scan_event) Hlt) as Hin.
    rewrite map_map in Hin. apply in_map_iff in Hin.
    destruct Hin as [f [Hf _]]. rewrite map_map in Hx. rewrite <- Hf in Hx.
    exact (scan_file_awaited f x Hx).
  - rewrite (nth_overflow _ _ Hge) in Hx. destruct Hx.
Qed.

(** C9, amended.  In every report that a scan returns, the analyzer
    identifiers are those of all the analyzers that the scanner holds, in
    their order, whether or not any of them analyzed a file; every analyzer
    that was awaited during the scan is among them. *)
Theorem tools_used_are_the_enabled_analyzers :
  forall (schedule : list nat) (t0 t1 : QArith_base.Q)
         (t : list scan_event) (report : ScanResult),
    scan self schedule t0 t1 = Some (t, Ret report) ->
    tools_used report = map fst (Core.analyzers self) /\
    incl (awaited t) (tools_used report).
Proof.
  intros schedule t0 t1 t report Hscan.
  destruct (scan_returned self schedule t0 t1 t report Hscan)
    as [files [Hd [_ Heq]]].
  unfold completed in Heq. injection Heq as -> ->.
  split; [reflexivity|].
  cbn [tools_used]. rewrite awaited_app, awaited_Effect.
  apply task_effects_awaited.
Qed.

End ScanTheorems.

Section AnalyzerFaults.

Variable self : AlgorandScanner.

Lemma run_analyzers_logs_fault items ft f doc acc n a e :
  In (n, a) items ->
  supports_file_type a ft = true ->
  outcome (analyze a f doc) = Raise e ->
  In (Effect (Log ERROR (analyzer_error_msg n f e)))
     (trace (run_analyzers items ft f doc acc)).
Proof.
  intros Hin Hs He. revert acc.
  induction items as [|[n' a'] rest IH]; intros acc; [destruct Hin|].
  rewrite run_analyzers_cons. destruct Hin as [Heq|Hin].
  - inversion Heq; subst n' a'. rewrite Hs.
    pose proof (guarded_call_raise n a f doc acc e He) as Hg.
    rewrite (trace_bind_ret _ _ acc) by now rewrite Hg.
    apply in_or_app. left. rewrite Hg. cbn [trace fst].
    right. apply in_or_app. right. now left.
  - destruct (supports_file_type a' ft); [|now apply IH].
    destruct (guarded_call_cases n' a' f doc acc) as [t Ht].
    rewrite (trace_bind_ret _ _ _ (f_equal snd Ht)).
    apply in_or_app. right. now apply IH.
Qed.

(** A file whose format has a parser that returns a document. *)
Lemma scan_single_file_parsed f ft parser doc :
  _get_file_type f = Some ft ->
  lookup_parser ft (parsers self) = Some parser ->
  outcome (parser f) = Ret (Some doc) ->
  _scan_single_file self f =
  (Effect (Log DEBUG ("Scanning file: " +++ path_str f)) ::
     map Effect (trace (parser f)) ++
     trace (run_analyzers (Core.analyzers self) ft f doc []),
   outcome (run_analyzers (Core.analyzers self) ft f doc [])).
Proof.
  intros Hft Hp Hd. unfold _scan_single_file. rewrite Hft, Hp.
  unfold within. rewrite Hd.
  unfold logging, emit, bind. cbn [trace outcome fst snd app].
  destruct (run_analyzers (Core.analyzers self) ft f doc []) as [t r].
  reflexivity.
Qed.

(** C4, amended.  When one enabled analyzer raises on a file that was
    parsed, the exception stops at the analyzer-call boundary: the scan of
    the file returns the findings of the other analyzers, the failing one
    adds none, every other analyzer that supports the format is awaited,
    and the failure is written to the log at level ERROR.  Nothing is added
    to the error list of the scan. *)
Theorem analyzer_fault_is_contained_and_logged :
  forall (f : Path) (ft : FileType) (parser : Parser) (doc : Document)
         (before after : list (str * Analyzer)) (n : str) (a : Analyzer)
         (e : exn),
    _get_file_type f = Some ft ->
    lookup_parser ft (parsers self) = Some parser ->
    outcome (parser f) = Ret (Some doc) ->
    Core.analyzers self = before ++ (n, a) :: after ->
    supports_file_type a ft = true ->
    outcome (analyze a f doc) = Raise e ->
    outcome (_scan_single_file self f) =
      Ret (flat_map (contribution ft f doc) before ++
           flat_map (contribution ft f doc) after) /\
    contribution ft f doc (n, a) = [] /\
    (forall n' a', In (n', a') (before ++ after) ->
                   supports_file_type a' ft = true ->
                   In n' (awaited (trace (_scan_single_file self f)))) /\
    In (Effect (Log ERROR (analyzer_error_msg n f e)))
       (trace (_scan_single_file self f)) /\
    appended (trace (scan_file self f)) = [] /\
    file_errors self f = [].
Proof.
  intros f ft parser doc before after n a e Hft Hp Hd Han Hs He.
  pose proof (scan_single_file_parsed f ft parser doc Hft Hp Hd) as Hsf.
  assert (Hc : contribution ft f doc (n, a) = []).
  { unfold contribution. cbn [snd]. now rewrite Hs, He. }
  assert (Hout : outcome (_scan_single_file self f) =
                 Ret (flat_map (contribution ft f doc) before ++
                      flat_map (contribution ft f doc) after)).
  { rewrite Hsf. cbn [outcome snd]. rewrite run_analyzers_outcome, Han.
    rewrite flat_map_app. cbn [flat_map app]. now rewrite Hc. }
  split; [exact Hout|]. split; [exact Hc|]. split; [|split; [|split]].
  - intros n' a' Hin Hs'. rewrite Hsf. cbn [trace fst].
    change (Effect ?x :: ?l) with ([Effect x] ++ l).
    rewrite !awaited_app, awaited_Effect, run_analyzers_awaited.
    cbn [awaited flat_map app].
    apply (in_map fst _ (n', a')). apply filter_In. split; [|exact Hs'].
    rewrite Han. apply in_app_or in Hin. apply in_or_app.
    destruct Hin; [now left|right; now right].
  - rewrite Hsf. cbn [trace fst]. right. apply in_or_app. right.
    apply (run_analyzers_logs_fault _ ft f doc [] n a e); auto.
    rewrite Han. apply in_or_app. right. now left.
  - rewrite scan_file_appended. unfold file_errors. now rewrite Hout.
  - unfold file_errors. now rewrite Hout.
Qed.

End AnalyzerFaults.

(* ================================================================== *)
(** * A small world to run the scanner in                               *)
(* ================================================================== *)

Module Demo.

(** An instance of [fnmatch] for patterns made of literal characters,
    [*] and [?]. *)
Fixpoint glob (pattern name : str) : bool :=
  match pattern with
  | EmptyString => match name with EmptyString => true | _ => false end
  | String p pattern' =>
      if Ascii.eqb p "*"%char then
        (fix star (n : str) : bool :=
           glob pattern' n ||
           match n with
           | EmptyString => false
           | String _ n' => star n'
           end) name
      else
        match name with
        | EmptyString => false
        | String c name' =>
            (Ascii.eqb p "?"%char || Ascii.eqb p c) && glob pattern' name'
        end
  end.

Definition fnmatch (name pattern : str) : bool := glob pattern name.

(** Decimal numerals, for [int]. *)
Fixpoint digits (s : str) (acc : Z) : option Z :=
  match s with
  | EmptyString => Some acc
  | String c s' =>
      let n := code c in
      if ((48 <=? n) && (n <=? 57))%nat
      then digits s' (10 * acc + Z.of_nat (n - 48))
      else None
  end.

Definition int_of_str (s : str) : option Z :=
  match s with
  | EmptyString => None
  | _ => digits s 0
  end.

Definition a_teal : Path := ["contracts"; "a.teal"].
Definition b_teal : Path := ["contracts"; "b.teal"].
Definition vendored_teal : Path := ["contracts"; "node_modules"; "c.teal"].

(** A counter that anyone may set. *)
Definition a_content : str :=
  "#pragma version 6" +++ LF +++ "int 1" +++ LF +++ "app_global_put" +++ LF.

Definition fs : FileDiscovery.FileSystem :=
  {| FileDiscovery.is_file := fun p =>
       Ret (path_eqb p a_teal || path_eqb p b_teal || path_eqb p vendored_teal);
     FileDiscovery.is_dir := fun p => Ret (path_eqb p ["contracts"]);
     FileDiscovery.rglob := fun directory pattern =>
       if path_eqb directory ["contracts"] && String.eqb pattern "*.teal"
       then ([vendored_teal; b_teal; a_teal], None)
       else ([], None);
     FileDiscovery.read_text := fun p =>
       if path_eqb p a_teal || path_eqb p b_teal then Ret a_content
       else Raise (Exception "UnicodeDecodeError" "invalid start byte") |}.

Definition no_tool : Tool :=
  {| available := false; run := fun _ _ => ret [] |}.

Definition env : Environment :=
  {| Core.fnmatch := fnmatch;
     Core.fs := fs;
     ast_parse := fun _ _ => Raise (Exception "SyntaxError" "invalid syntax");
     Core.int_of_str := int_of_str;
     _extract_transaction_fields := fun _ => Ret [];
     ts_passes :=
       {| TypeScriptParser._contains_algorand_code := fun _ => Ret false;
          TypeScriptParser._extract_imports := fun _ => Ret [];
          TypeScriptParser._extract_functions := fun _ => Ret [];
          TypeScriptParser._extract_contract_interactions := fun _ => Ret [];
          TypeScriptParser._extract_transaction_calls := fun _ => Ret [];
          TypeScriptParser._extract_abi_calls := fun _ => Ret [];
          TypeScriptParser._extract_security_patterns := fun _ => Ret [] |};
     open_rules :=
       {| _check_arithmetic_vulnerabilities_python := fun _ _ => [];
          _check_timestamp_dependencies_python := fun _ _ => [];
          _check_weak_randomness_python := fun _ _ => [];
          _check_state_management_python := fun _ _ => [];
          _analyze_typescript := fun _ _ => Ret [] |};
     panda := no_tool;
     tealer := no_tool;
     qa := no_tool |}.

Definition config_with (analyzers : list str) (threshold : SeverityLevel)
  : ScanConfig :=
  {| target_paths := ["contracts"];
     include_patterns := ["*.teal"];
     exclude_patterns := ["*node_modules*"];
     Models.analyzers := analyzers;
     severity_threshold := threshold;
     output_format := "json";
     output_file := None;
     max_workers := 4;
     timeout := 300 |}.

Definition config : ScanConfig := config_with ["builtin"] LOW.

Definition scanner : AlgorandScanner := init env config.

(** A scanner whose assembly-format parser fails on [b.teal]. *)
Definition boom : exn := Exception "RuntimeError" "boom".

Definition failing_parser : Parser := fun file_path =>
  if path_eqb file_path b_teal then raise boom
  else TealParser.parse fs int_of_str (fun _ => Ret []) file_path.

Definition scanner_with_failing_parser : AlgorandScanner :=
  {| Core.env := env;
     Core.config := config;
     parsers := [(TEAL, failing_parser)];
     Core.analyzers := Core.analyzers scanner |}.

(** A scanner with an analyzer that always raises, ahead of the built-in
    one. *)
Definition crashing : Analyzer :=
  {| analyzer_name := "crashing";
     supports_file_type := fun _ => true;
     analyze := fun _ _ => raise boom |}.

Definition scanner_with_crashing_analyzer : AlgorandScanner :=
  {| Core.env := env;
     Core.config := config;
     parsers := parsers scanner;
     Core.analyzers := ("crashing", crashing) :: Core.analyzers scanner |}.

Definition t0 : QArith_base.Q := QArith_base.Qmake 0 1.
Definition t1 : QArith_base.Q := QArith_base.Qmake 3 2.

End Demo.

(* ================================================================== *)
(** * Facts about strings and regular expressions                       *)
(* ================================================================== *)

Lemma append_nil_r (s : str) : s +++ EmptyString = s.
Proof. induction s as [|c s IH]; simpl; congruence. Qed.

Lemma append_assoc (a b c : str) : (a +++ b) +++ c = a +++ b +++ c.
Proof. induction a as [|x a IH]; simpl; congruence. Qed.

Lemma append_eq_empty (a b : str) :
  a +++ b = EmptyString -> a = EmptyString /\ b = EmptyString.
Proof. destruct a; simpl; intros H; [auto|discriminate]. Qed.

(** Two ways to cut one string overlap. *)
Lemma append_eq_append (a b c d : str) :
  a +++ b = c +++ d ->
  (exists k, a = c +++ k /\ d = k +++ b) \/
  (exists k, c = a +++ k /\ b = k +++ d).
Proof.
  revert c. induction a as [|x a IH]; intros c H.
  - right. exists c. auto.
  - destruct c as [|y c].
    + left. exists (String x a). simpl in *. auto.
    + simpl in H. injection H as Hxy H. subst y.
      destruct (IH c H) as [[k [H1 H2]]|[k [H1 H2]]].
      * left. exists k. simpl. split; congruence.
      * right. exists k. simpl. split; congruence.
Qed.

Lemma lower_append (a b : str) : lower (a +++ b) = lower a +++ lower b.
Proof. induction a as [|x a IH]; simpl; congruence. Qed.

Lemma lower_join_LF (ls : list str) :
  lower (join LF ls) = join LF (map lower ls).
Proof.
  induction ls as [|l ls IH]; auto.
  destruct ls as [|l2 ls]; auto.
  change (join LF (l :: l2 :: ls)) with (l +++ LF +++ join LF (l2 :: ls)).
  rewrite !lower_append, IH. reflexivity.
Qed.

Module ReFacts.
Import Re.

Section Semantics.

Variable ic : bool.

Lemma nullable_matches (r : regex) :
  nullable r = true -> matches ic r EmptyString.
Proof.
  induction r; simpl; intros H; try discriminate.
  - constructor.
  - apply andb_prop in H. destruct H as [H1 H2].
    change EmptyString with (EmptyString +++ EmptyString).
    constructor; auto.
  - apply orb_prop in H. destruct H; [apply MAltL|apply MAltR]; auto.
  - constructor.
Qed.

Lemma matches_empty_nullable (r : regex) (s : str) :
  matches ic r s -> s = EmptyString -> nullable r = true.
Proof.
  induction 1; intros Hs; simpl; auto; try discriminate.
  - apply append_eq_empty in Hs. destruct Hs.
    rewrite IHmatches1, IHmatches2; auto.
  - rewrite IHmatches; auto.
  - rewrite IHmatches; auto. apply orb_true_r.
Qed.

Lemma nullable_spec (r : regex) :
  nullable r = true <-> matches ic r EmptyString.
Proof.
  split; [apply nullable_matches|].
  intros H. now apply (matches_empty_nullable r EmptyString).
Qed.

Lemma deriv_sound (c : ascii) (r : regex) (s : str) :
  matches ic (deriv ic c r) s -> matches ic r (String c s).
Proof.
  revert s. induction r; simpl; intros s H.
  - inversion H.
  - inversion H.
  - destruct (chr_match ic c0 c) eqn:Hc; inversion H; subst.
    now constructor.
  - destruct (is_lf c) eqn:Hc; inversion H; subst. now constructor.
  - assert (Hcat : forall s, matches ic (Cat (deriv ic c r1) r2) s ->
                             matches ic (Cat r1 r2) (String c s)).
    { intros s' H'. inversion H'; subst.
      change (String c (s1 +++ s2)) with (String c s1 +++ s2).
      constructor; auto. }
    destruct (nullable r1) eqn:N; [|now apply Hcat].
    inversion H; subst; [now apply Hcat|].
    change (String c s) with (EmptyString +++ String c s).
    constructor; [now apply nullable_matches|auto].
  - inversion H; subst; [apply MAltL|apply MAltR]; auto.
  - inversion H; subst.
    change (String c (s1 +++ s2)) with (String c s1 +++ s2).
    apply MStarS; auto.
Qed.

Lemma deriv_complete (r : regex) (w : str) :
  matches ic r w ->
  forall c s, w = String c s -> matches ic (deriv ic c r) s.
Proof.
  induction 1; intros c0 s0 Heq; simpl; try discriminate.
  - injection Heq as -> <-. rewrite H. constructor.
  - injection Heq as -> <-. rewrite H. constructor.
  - destruct s1 as [|x s1'].
    + simpl in Heq. rewrite (matches_empty_nullable r1 _ H eq_refl).
      apply MAltR. now apply IHmatches2.
    + simpl in Heq. injection Heq as -> <-.
      assert (Hc : matches ic (Cat (deriv ic c0 r1) r2) (s1' +++ s2))
        by (constructor; auto).
      destruct (nullable r1); [now apply MAltL|exact Hc].
  - apply MAltL. auto.
  - apply MAltR. auto.
  - destruct s1 as [|x s1'].
    + simpl in Heq. exact (IHmatches2 c0 s0 Heq).
    + simpl in Heq. injection Heq as -> <-. constructor; auto.
Qed.

Lemma deriv_spec (c : ascii) (r : regex) (s : str) :
  matches ic (deriv ic c r) s <-> matches ic r (String c s).
Proof.
  split; [apply deriv_sound|].
  intros H. exact (deriv_complete r _ H c s eq_refl).
Qed.

(** [match_here] finds exactly the prefixes that the pattern denotes. *)
Lemma match_here_spec (r : regex) (s : str) :
  match_here ic r s = true <->
  exists w rest, s = w +++ rest /\ matches ic r w.
Proof.
  revert r. induction s as [|c s IH]; intros r; cbn [match_here].
  - rewrite orb_false_r. split.
    + intros H. exists EmptyString, EmptyString.
      split; [reflexivity|now apply nullable_matches].
    + intros [w [rest [Hs Hm]]]. symmetry in Hs.
      apply append_eq_empty in Hs. destruct Hs; subst.
      now apply nullable_spec.
  - rewrite orb_true_iff. split.
    + intros [H|H].
      * exists EmptyString, (String c s).
        split; [reflexivity|now apply nullable_matches].
      * apply IH in H. destruct H as [w [rest [Hs Hm]]].
        exists (String c w), rest. split; [simpl; congruence|].
        now apply deriv_sound.
    + intros [w [rest [Hs Hm]]]. destruct w as [|x w].
      * left. now apply nullable_spec.
      * simpl in Hs. injection Hs as <- ->. right. apply IH.
        exists w, rest. split; auto. now apply deriv_spec.
Qed.

(** [search] finds exactly the substrings that the pattern denotes. *)
Lemma search_spec (r : regex) (s : str) :
  search ic r s = true <->
  exists pre w post, s = pre +++ w +++ post /\ matches ic r w.
Proof.
  induction s as [|c s IH]; cbn [search].
  - rewrite orb_false_r. split.
    + intros H. apply match_here_spec in H.
      destruct H as [w [rest [Hs Hm]]].
      exists EmptyString, w, rest. auto.
    + intros [pre [w [post [Hs Hm]]]]. symmetry in Hs.
      apply append_eq_empty in Hs. destruct Hs as [_ Hs].
      apply append_eq_empty in Hs. destruct Hs; subst.
      apply match_here_spec. exists EmptyString, EmptyString. auto.
  - rewrite orb_true_iff. split.
    + intros [H|H].
      * apply match_here_spec in H. destruct H as [w [rest [Hs Hm]]].
        exists EmptyString, w, rest. auto.
      * apply IH in H. destruct H as [pre [w [post [Hs Hm]]]].
        exists (String c pre), w, post. split; [simpl; congruence|auto].
    + intros [pre [w [post [Hs Hm]]]]. destruct pre as [|x pre].
      * left. apply match_here_spec. exists w, post. auto.
      * simpl in Hs. injection Hs as <- ->. right. apply IH.
        exists pre, w, post. auto.
Qed.

(** ** Patterns without a line feed *)

Lemma no_lf_append (a b : str) : no_lf (a +++ b) = no_lf a && no_lf b.
Proof.
  induction a as [|x a IH]; simpl; auto. rewrite IH. apply andb_assoc.
Qed.

Lemma lower_char_lf (c : ascii) :
  is_lf c = true -> is_lf (lower_char c) = true.
Proof.
  unfold is_lf. intros H. apply Ascii.eqb_eq in H. subst. reflexivity.
Qed.

Lemma chr_match_no_lf (p c : ascii) :
  lf_free (Chr p) = true -> chr_match ic p c = true -> is_lf c = false.
Proof.
  simpl. intros H Hm. apply andb_prop in H. destruct H as [H1 H2].
  apply negb_true_iff in H1, H2. unfold chr_match in Hm.
  destruct ic.
  - apply Ascii.eqb_eq in Hm. destruct (is_lf c) eqn:Hc; auto.
    apply lower_char_lf in Hc. congruence.
  - apply Ascii.eqb_eq in Hm. congruence.
Qed.

Lemma matches_no_lf (r : regex) (w : str) :
  matches ic r w -> lf_free r = true -> no_lf w = true.
Proof.
  induction 1; intros Hf; simpl; auto.
  - now rewrite (chr_match_no_lf _ _ Hf H).
  - now rewrite H.
  - simpl in Hf. apply andb_prop in Hf. destruct Hf.
    rewrite no_lf_append, IHmatches1, IHmatches2; auto.
  - simpl in Hf. apply andb_prop in Hf. destruct Hf. auto.
  - simpl in Hf. apply andb_prop in Hf. destruct Hf. auto.
  - rewrite no_lf_append, IHmatches1, IHmatches2; auto.
Qed.

End Semantics.

End ReFacts.

(** ** Lines, joined and sliced *)

Lemma join_cons2 (l l2 : str) (ls : list str) :
  join LF (l :: l2 :: ls) = l +++ LF +++ join LF (l2 :: ls).
Proof. reflexivity. Qed.

Lemma no_lf_LF_inside (k k2 : str) :
  Re.no_lf (k +++ String "010"%char k2) = false.
Proof.
  rewrite ReFacts.no_lf_append. simpl. apply andb_false_r.
Qed.

(** A string without line feed that occurs in joined lines occurs in one
    of the lines. *)
Lemma substring_of_join (w : str) (ls : list str) (pre post : str) :
  Re.no_lf w = true -> w <> EmptyString ->
  join LF ls = pre +++ w +++ post ->
  exists l pre' post', In l ls /\ l = pre' +++ w +++ post'.
Proof.
  intros Hnl Hne. revert pre.
  induction ls as [|l ls IH]; intros pre H.
  - simpl in H. symmetry in H. apply append_eq_empty in H.
    destruct H as [_ H]. apply append_eq_empty in H. tauto.
  - destruct ls as [|l2 ls].
    + exists l, pre, post. simpl in *. auto.
    + rewrite join_cons2 in H.
      destruct (append_eq_append _ _ _ _ H) as [[k [H1 H2]]|[k [H1 H2]]].
      * destruct (append_eq_append _ _ _ _ H2) as [[k2 [H3 H4]]|[k2 [H3 H4]]].
        -- destruct k2 as [|x k2].
           ++ rewrite append_nil_r in H3. subst.
              exists (pre +++ k), pre, EmptyString.
              split; [now left|now rewrite append_nil_r].
           ++ simpl in H4. injection H4 as <- _. subst w.
              now rewrite no_lf_LF_inside in Hnl.
        -- subst. exists (pre +++ w +++ k2), pre, k2. split; [now left|auto].
      * destruct k as [|x k].
        -- simpl in H2. destruct w as [|y w]; [tauto|].
           simpl in H2. injection H2 as <- _. simpl in Hnl. discriminate.
        -- simpl in H2. injection H2 as _ H2.
           destruct (IH k H2) as [l' [pre' [post' [Hin Hl]]]].
           exists l', pre', post'. split; [now right|auto].
Qed.

Lemma In_join (l : str) (ls : list str) :
  In l ls -> exists a b, join LF ls = a +++ l +++ b.
Proof.
  induction ls as [|l1 ls IH]; intros Hin; [destruct Hin|].
  destruct ls as [|l2 ls].
  - destruct Hin as [->|[]]. exists EmptyString, EmptyString.
    simpl. now rewrite append_nil_r.
  - rewrite join_cons2. destruct Hin as [->|Hin].
    + exists EmptyString, (LF +++ join LF (l2 :: ls)). reflexivity.
    + destruct (IH Hin) as [a [b Hj]]. rewrite Hj.
      exists (l1 +++ LF +++ a), b. now rewrite !append_assoc.
Qed.

(** Searching joined lines for a pattern that cannot match across or
    between lines is searching each line. *)
Lemma search_join_LF (ic : bool) (r : Re.regex) (ls : list str) :
  Re.lf_free r = true -> Re.nullable r = false ->
  Re.search ic r (join LF ls) = existsb (Re.search ic r) ls.
Proof.
  intros Hf Hn. apply eq_true_iff_eq.
  rewrite ReFacts.search_spec, existsb_exists. split.
  - intros [pre [w [post [Hs Hm]]]].
    assert (Hne : w <> EmptyString).
    { intros ->. apply ReFacts.nullable_spec in Hm. congruence. }
    pose proof (ReFacts.matches_no_lf ic r w Hm Hf) as Hnl.
    destruct (substring_of_join w ls pre post Hnl Hne Hs)
      as [l [pre' [post' [Hin Hl]]]].
    exists l. split; auto. apply ReFacts.search_spec.
    exists pre', w, post'. auto.
  - intros [l [Hin Hs]]. apply ReFacts.search_spec in Hs.
    destruct Hs as [pre [w [post [Hl Hm]]]].
    destruct (In_join l ls Hin) as [a [b Hj]].
    exists (a +++ pre), w, (post +++ b). split; auto.
    rewrite Hj, Hl. now rewrite !append_assoc.
Qed.

Lemma In_slice {A} (l : list A) (a b : Z) (x : A) :
  0 <= a -> 0 <= b ->
  (In x (slice l a b) <->
   exists k : nat, a <= Z.of_nat k < b /\ nth_error l k = Some x).
Proof.
  intros Ha Hb. unfold slice, clamp_index, len.
  destruct (Z.ltb_spec a 0); [lia|]. destruct (Z.ltb_spec b 0); [lia|].
  set (n := List.length l). split.
  - intros Hin. apply In_nth_error in Hin. destruct Hin as [j Hj].
    rewrite nth_error_firstn in Hj.
    destruct (Nat.ltb_spec j
                (Z.to_nat (Z.min b (Z.of_nat n) - Z.min a (Z.of_nat n))));
      [|discriminate].
    rewrite nth_error_skipn in Hj.
    exists (Z.to_nat (Z.min a (Z.of_nat n)) + j)%nat. split; auto.
    assert (Hlt : (Z.to_nat (Z.min a (Z.of_nat n)) + j < n)%nat).
    { apply nth_error_Some. congruence. }
    lia.
  - intros [k [Hk Hx]].
    assert (Hlt : (k < n)%nat) by (apply nth_error_Some; congruence).
    apply (nth_error_In _ (k - Z.to_nat (Z.min a (Z.of_nat n)))).
    rewrite nth_error_firstn.
    destruct (Nat.ltb_spec (k - Z.to_nat (Z.min a (Z.of_nat n)))
                (Z.to_nat (Z.min b (Z.of_nat n) - Z.min a (Z.of_nat n))));
      [|lia].
    rewrite nth_error_skipn. rewrite <- Hx. f_equal. lia.
Qed.

Lemma In_enumerate {A} (l : list A) (start i : Z) (x : A) :
  In (i, x) (enumerate l start) <->
  exists k : nat, i = start + Z.of_nat k /\ nth_error l k = Some x.
Proof.
  revert start. induction l as [|y l IH]; intros start; simpl.
  - split; [tauto|]. intros [[|k] [_ H]]; discriminate.
  - rewrite IH. split.
    + intros [H|[k [Hi Hx]]].
      * injection H as <- <-. exists 0%nat. split; [lia|reflexivity].
      * exists (S k). split; [lia|exact Hx].
    + intros [[|k] [Hi Hx]].
      * left. simpl in Hx. injection Hx as <-. f_equal. lia.
      * right. exists k. split; [lia|exact Hx].
Qed.

(** The line of number [j], counted from 1. *)
Definition line_at (lines : list str) (j : Z) : option str :=
  if j <? 1 then None else nth_error lines (Z.to_nat (j - 1)).

Lemma In_enumerate_line_at (lines : list str) (i : Z) (line : str) :
  In (i, line) (enumerate lines 1) <-> line_at lines i = Some line.
Proof.
  rewrite In_enumerate. unfold line_at. split.
  - intros [k [-> Hx]]. destruct (Z.ltb_spec (1 + Z.of_nat k) 1); [lia|].
    rewrite <- Hx. f_equal. lia.
  - destruct (Z.ltb_spec i 1); [discriminate|]. intros Hx.
    exists (Z.to_nat (i - 1)). split; [lia|exact Hx].
Qed.

(* ================================================================== *)
(** * The assembly-format rule for missing access control               *)
(* ================================================================== *)

Section TealAccessControl.

(** Whether the context that the rule joins around line [i] holds a
    sender check. *)
Definition sender_checked (lines : list str) (i : Z) : bool :=
  Re.search false pat_sender_check
    (lower (join LF (slice lines (Z.max 0 (i - 5))
                                 (Z.min (len lines) (i + 2))))).

Lemma check_teal_In (path : Path) (lines : list str) (v : Vulnerability) :
  In v (_check_missing_access_control_teal path lines) <->
  exists i line,
    line_at lines i = Some line /\
    Re.search false pat_state_write (lower line) = true /\
    sender_checked lines i = false /\
    v = teal_missing_access_control path i line.
Proof.
  unfold _check_missing_access_control_teal. rewrite in_flat_map. split.
  - intros [[i line] [Hin Hv]]. apply In_enumerate_line_at in Hin.
    destruct (Re.search false pat_state_write (lower line)) eqn:Hw;
      [|destruct Hv].
    fold (sender_checked lines i) in Hv.
    destruct (sender_checked lines i) eqn:Hc; [destruct Hv|].
    destruct Hv as [<-|[]]. exists i, line. auto.
  - intros [i [line [Hl [Hw [Hc ->]]]]]. exists (i, line).
    split; [now apply In_enumerate_line_at|].
    rewrite Hw. fold (sender_checked lines i). rewrite Hc. now left.
Qed.

Lemma line_at_Some (lines : list str) (j : Z) (l : str) :
  line_at lines j = Some l ->
  1 <= j /\ j <= len lines /\ nth_error lines (Z.to_nat (j - 1)) = Some l.
Proof.
  unfold line_at, len. destruct (Z.ltb_spec j 1); [discriminate|].
  intros Hx.
  assert (Hlt : (Z.to_nat (j - 1) < List.length lines)%nat)
    by (apply nth_error_Some; congruence).
  repeat split; auto; lia.
Qed.

(** The context of line [i] is the four lines before it, the line itself
    and the two lines after it. *)
Lemma sender_checked_spec (lines : list str) (i : Z) :
  1 <= i ->
  (sender_checked lines i = true <->
   exists j l, i - 4 <= j <= i + 2 /\ line_at lines j = Some l /\
               Re.search false pat_sender_check (lower l) = true).
Proof.
  intros Hi. unfold sender_checked.
  rewrite lower_join_LF, search_join_LF by reflexivity.
  rewrite existsb_exists. split.
  - intros [l' [Hin Hs]]. apply in_map_iff in Hin.
    destruct Hin as [l [<- Hin]].
    apply In_slice in Hin; [|lia|unfold len; lia].
    destruct Hin as [k [Hk Hx]].
    exists (Z.of_nat k + 1), l. split; [lia|]. split; auto.
    unfold line_at. destruct (Z.ltb_spec (Z.of_nat k + 1) 1); [lia|].
    rewrite <- Hx. f_equal. lia.
  - intros [j [l [Hj [Hl Hs]]]]. exists (lower l). split; auto.
    apply in_map. apply line_at_Some in Hl. destruct Hl as [H1 [H2 Hx]].
    apply In_slice; [lia|unfold len; lia|].
    exists (Z.to_nat (j - 1)). split; [lia|exact Hx].
Qed.

Lemma other_teal_rules (path : Path) (doc : Document) (v : Vulnerability) :
  In v (_check_unsafe_state_operations_teal path (doc_state_operations doc) ++
        _check_arithmetic_vulnerabilities_teal path (doc_opcodes doc) ++
        _check_control_flow_teal path (doc_opcodes doc)) ->
  rule_id v <> "teal_missing_access_control".
Proof.
  intros Hin. repeat (apply in_app_or in Hin; destruct Hin as [Hin|Hin]);
    apply in_flat_map in Hin; destruct Hin as [op [_ Hin]].
  - destruct (mem (operation op) _); [|destruct Hin].
    destruct Hin as [<-|[]]. discriminate.
  - destruct (mem (opcode op) _); [|destruct Hin].
    destruct Hin as [<-|[]]. discriminate.
  - destruct (String.eqb (opcode op) "err"); [|destruct Hin].
    destruct Hin as [<-|[]]. discriminate.
Qed.

Variable rules : OpenRules.

Lemma builtin_analyze_teal (path : Path) (doc : Document) :
  suffix path = ".teal" ->
  analyze (BuiltinAnalyzer rules) path doc = ret (_analyze_teal path doc).
Proof.
  intros Hs. cbn [analyze BuiltinAnalyzer]. unfold builtin_analyze.
  rewrite Hs. reflexivity.
Qed.

(** C6, amended.  On a document of an assembly file, a line that contains
    [app_global_put] or [app_local_put] (in any case) makes the built-in
    analyzer emit the HIGH finding of rule [teal_missing_access_control]
    for that line when none of the lines from five before it to two after
    it, the line itself included, contains [txn sender] or
    [global creatoraddress] (in any case); and the analyzer emits no
    finding of that rule for the line when one of the lines from four
    before it to two after it, the line itself included, contains one. *)
Theorem teal_state_write_needs_sender_check_nearby :
  forall (path : Path) (doc : Document) (i : Z) (line : str),
    suffix path = ".teal" ->
    line_at (doc_lines doc) i = Some line ->
    Re.search false pat_state_write (lower line) = true ->
    exists findings,
      outcome (analyze (BuiltinAnalyzer rules) path doc) = Ret findings /\
      ((forall j l, i - 5 <= j <= i + 2 ->
                    line_at (doc_lines doc) j = Some l ->
                    Re.search false pat_sender_check (lower l) = false) ->
       In (teal_missing_access_control path i line) findings /\
       severity (teal_missing_access_control path i line) = HIGH /\
       Models.line (teal_missing_access_control path i line) = i) /\
      ((exists j l, i - 4 <= j <= i + 2 /\
                    line_at (doc_lines doc) j = Some l /\
                    Re.search false pat_sender_check (lower l) = true) ->
       forall v, In v findings ->
                 rule_id v = "teal_missing_access_control" ->
                 Models.line v <> i).
Proof.
  intros path doc i line Hsfx Hl Hw.
  exists (_analyze_teal path doc).
  split; [now rewrite builtin_analyze_teal|].
  pose proof (line_at_Some _ _ _ Hl) as [Hi _].
  unfold _analyze_teal. split.
  - intros Hnone. split; [|split; reflexivity].
    apply in_or_app. left. apply check_teal_In. exists i, line.
    repeat split; auto.
    destruct (sender_checked (doc_lines doc) i) eqn:Hc; auto.
    apply sender_checked_spec in Hc; auto.
    destruct Hc as [j [l [Hj [Hjl Hs]]]].
    rewrite (Hnone j l) in Hs; [discriminate|lia|auto].
  - intros Hsome v Hin Hrule Hline.
    apply in_app_or in Hin. destruct Hin as [Hin|Hin].
    + apply check_teal_In in Hin.
      destruct Hin as [i' [line' [_ [_ [Hc ->]]]]].
      simpl in Hline. subst i'.
      apply sender_checked_spec in Hsome; auto. congruence.
    + now apply other_teal_rules in Hin.
Qed.

End TealAccessControl.

(** C6, as stated, fails in both halves.  First input: the state write on
    line 2 has no sender check before it, only one on the next line, and
    no finding is emitted.  Second input: the sender check is five lines
    before the state write on line 6, and the finding is emitted. *)
Lemma teal_window_is_not_the_five_lines_before :
  (line_at ["int 1"; "app_global_put"; "txn Sender"] 2
     = Some "app_global_put" /\
   Re.search false pat_state_write (lower "app_global_put") = true /\
   Re.search false pat_sender_check (lower "int 1") = false /\
   _check_missing_access_control_teal ["a.teal"]
     ["int 1"; "app_global_put"; "txn Sender"] = []) /\
  (line_at ["txn Sender"; "int 1"; "int 2"; "int 3"; "int 4";
            "app_global_put"] 6 = Some "app_global_put" /\
   line_at ["txn Sender"; "int 1"; "int 2"; "int 3"; "int 4";
            "app_global_put"] (6 - 5) = Some "txn Sender" /\
   Re.search false pat_sender_check (lower "txn Sender") = true /\
   _check_missing_access_control_teal ["a.teal"]
     ["txn Sender"; "int 1"; "int 2"; "int 3"; "int 4"; "app_global_put"]
   = [teal_missing_access_control ["a.teal"] 6 "app_global_put"]).
Proof. vm_compute. repeat split. Qed.

(* ================================================================== *)
(** * The application-language rule for missing access control          *)
(* ================================================================== *)

(** The head of [test_contracts/vulnerable_contract.py], the sample
    contract of the repository: its lines 1 to 38, which hold the methods
    [__init__], [withdraw] and [emergency_withdraw], and the syntax tree
    of those lines. *)
Module Fixture.

Definition dq : str := String (ascii_of_nat 34) EmptyString.

Definition head_lines : list str :=
  [dq +++ dq +++ dq;
   "Vulnerable Algorand Smart Contract (PyTeal/Algopy)";
   "This contract contains INTENTIONAL vulnerabilities for testing purposes";
   "DO NOT USE IN PRODUCTION";
   dq +++ dq +++ dq;
   EmptyString;
   "from algopy import ARC4Contract, UInt64, String, Txn, Global, op, Bytes";
   "from algopy.arc4 import abimethod";
   EmptyString;
   "class VulnerableContract(ARC4Contract):";
   "    " +++ dq +++ dq +++ dq +++ "A deliberately vulnerable contract for security testing" +++ dq +++ dq +++ dq;
   "    ";
   "    # State variables";
   "    balance: UInt64";
   "    owner: String";
   "    secret_key: String";
   "    admin_backdoor: String";
   "    ";
   "    def __init__(self) -> None:";
   "        # VULNERABILITY 1: Hardcoded sensitive data";
   "        self.secret_key = String(" +++ dq +++ "sk_live_51234567890abcdef" +++ dq +++ ")  # CRITICAL: Hardcoded private key";
   "        self.admin_backdoor = String(" +++ dq +++ "ADMIN123BACKDOOR456" +++ dq +++ ")    # HIGH: Hardcoded backdoor";
   "        self.balance = UInt64(1000000)";
   "        self.owner = Global.creator_address";
   "    ";
   "    @abimethod()";
   "    def withdraw(self, amount: UInt64) -> None:";
   "        " +++ dq +++ dq +++ dq +++ "VULNERABILITY 2: Missing access control - CRITICAL" +++ dq +++ dq +++ dq;
   "        # Anyone can withdraw funds - no authorization check";
   "        self.balance -= amount  # VULNERABILITY 3: Unchecked arithmetic - MEDIUM";
   "        ";
   "    @abimethod()";
   "    def emergency_withdraw(self) -> None:";
   "        " +++ dq +++ dq +++ dq +++ "VULNERABILITY 4: Logic bomb with hardcoded condition - HIGH" +++ dq +++ dq +++ dq;
   "        # Backdoor for specific address";
   "        if Txn.sender == " +++ dq +++ "AAAAAAAAAAAAAAAAAAAAAAAAAAAAAAAAAAAAAAAAAAAAAAAAAAAAAAAAAA" +++ dq +++ ":";
   "            self.balance = UInt64(0)  # Drain all funds";
   "            op.exit(1)  # VULNERABILITY 5: Unsafe exit operation - LOW"].

Definition abimethod_call : expr := Call (Name "abimethod").

Definition head_tree : list stmt :=
  [ OtherNode [];
    ImportFrom (Some "algopy")
      (map (fun n => {| alias_name := n; asname := None |})
           ["ARC4Contract"; "UInt64"; "String"; "Txn"; "Global"; "op"; "Bytes"])
      7;
    ImportFrom (Some "algopy.arc4")
      [{| alias_name := "abimethod"; asname := None |}] 8;
    ClassDef "VulnerableContract" 10 [Name "ARC4Contract"]
      [ OtherNode []; OtherNode []; OtherNode []; OtherNode []; OtherNode [];
        FunctionDef "__init__" 19 [] ["self"]
          [OtherNode []; OtherNode []; OtherNode []; OtherNode []];
        FunctionDef "withdraw" 27 [abimethod_call] ["self"; "amount"]
          [OtherNode []; OtherNode []];
        FunctionDef "emergency_withdraw" 33 [abimethod_call] ["self"]
          [OtherNode []; OtherNode [OtherNode []; OtherNode []]] ] ].

(** The entry that the parser extracts for [withdraw]. *)
Definition withdraw : Method :=
  {| m_name := "withdraw";
     m_line := 27;
     m_decorators := ["abimethod"];
     m_args := ["self"; "amount"];
     is_abi_method := true |}.

(** The body of [withdraw]: lines 28 to 30. *)
Definition withdraw_body : list str := slice head_lines 27 30.

Definition path : Path := ["test_contracts"; "vulnerable_contract.py"].

End Fixture.

Lemma check_python_In (path : Path) (lines : list str) (doc : Document)
  (v : Vulnerability) :
  In v (_check_missing_access_control_python path lines doc) ->
  exists method,
    v = py_missing_access_control path method /\
    has_access_control lines (m_line method) = false.
Proof.
  unfold _check_missing_access_control_python. intros Hin.
  apply in_flat_map in Hin. destruct Hin as [contract [_ Hin]].
  apply in_flat_map in Hin. destruct Hin as [method [_ Hin]].
  destruct (is_abi_method method); [|destruct Hin].
  destruct (is_critical method); [|destruct Hin].
  destruct (has_access_control lines (m_line method)) eqn:Hc;
    [destruct Hin|].
  destruct Hin as [<-|[]]. exists method. auto.
Qed.

(** Whatever follows the head of the sample, the lines in which the rule
    looks for an authorization check of [withdraw] reach into the next
    method, where it finds one. *)
Lemma sample_withdraw_window (rest : list str) :
  has_access_control (Fixture.head_lines ++ rest) 27 = true.
Proof.
  unfold has_access_control, method_lines, slice, clamp_index, len.
  rewrite length_app. change (List.length Fixture.head_lines) with 38%nat.
  destruct (Z.leb_spec 27 (Z.of_nat (38 + List.length rest))); [|lia].
  change (26 + 1 - 1) with 26. change (27 - 1) with 26.
  change (27 + 10) with 37. change (26 <? 0) with false.
  change (37 <? 0) with false.
  rewrite !Z.min_l by lia. change (Z.to_nat (37 - 26)) with 11%nat.
  change (Z.to_nat 26) with 26%nat.
  unfold Fixture.head_lines. cbn [app skipn firstn].
  vm_compute. reflexivity.
Qed.

(** C7 on the sample contract of the repository.  The parser extracts
    [withdraw] as an ABI method of a contract class; its name is a critical
    one and its body holds no authorization check; and yet, whatever
    follows line 38 of the file and whatever the document holds, the rule
    emits no finding at line 27, the line of [withdraw]. *)
Theorem sample_withdraw_is_not_flagged :
  forall (rest : list str) (doc : Document),
    map c_name (PythonParser._extract_contracts Fixture.head_tree)
      = ["VulnerableContract"] /\
    In Fixture.withdraw
       (flat_map c_methods (PythonParser._extract_contracts Fixture.head_tree)) /\
    is_abi_method Fixture.withdraw = true /\
    is_critical Fixture.withdraw = true /\
    existsb (Re.search true pat_access_control) Fixture.withdraw_body = false /\
    existsb (fun v => Models.line v =? 27)
            (_check_missing_access_control_python Fixture.path
               (Fixture.head_lines ++ rest) doc) = false.
Proof.
  intros rest doc.
  split; [reflexivity|]. split; [vm_compute; tauto|].
  split; [reflexivity|]. split; [reflexivity|].
  split; [vm_compute; reflexivity|].
  apply not_true_iff_false. intros H. apply existsb_exists in H.
  destruct H as [v [Hin Hline]]. apply Z.eqb_eq in Hline.
  apply check_python_In in Hin. destruct Hin as [method [-> Hc]].
  simpl in Hline. rewrite Hline, sample_withdraw_window in Hc.
  discriminate.
Qed.

(* ================================================================== *)
(** * The properties at work in the small world                         *)
(* ================================================================== *)

Module Examples.
Import Demo.

Definition high_finding : Vulnerability :=
  teal_missing_access_control a_teal 3 "app_global_put".

Definition low_finding : Vulnerability :=
  _create_vulnerability "builtin" a_teal 7 LOW "teal_explicit_error"
    "Explicit error instruction" None None MEDIUM_confidence (Some "err")
    None None.

Lemma severity_filter_on_two_findings :
  exists kept kept2,
    filter_by_threshold LOW [high_finding; low_finding] = Ret kept /\
    (In low_finding kept <->
     In low_finding [high_finding; low_finding] /\
     (order LOW <= order (severity low_finding))%nat) /\
    filter_by_threshold HIGH [high_finding; low_finding] = Ret kept2 /\
    incl kept2 kept.
Proof.
  destruct (severity_filter_exact_and_monotone
              [high_finding; low_finding] LOW) as [kept [H1 [_ [H3 H4]]]].
  destruct (H4 HIGH) as [kept2 [H5 H6]]; [simpl; lia|].
  exists kept, kept2. split; [exact H1|]. split; [apply H3|].
  split; [exact H5|exact H6].
Defined.

Lemma discovery_in_the_small_world :
  exists files,
    outcome (FileDiscovery.discover_files fnmatch fs config) = Ret files /\
    files = [a_teal; b_teal] /\
    fnmatch (path_str vendored_teal) "*.teal" = true /\
    fnmatch (path_str vendored_teal) "*node_modules*" = true /\
    fnmatch (path_str a_teal) "*node_modules*" = false /\
    fnmatch (name a_teal) "*node_modules*" = false.
Proof.
  destruct (discovery_sorted_nodup_excluded fnmatch fs config)
    as [Hreturns Hsorted].
  destruct (proj2 Hreturns) as [files Hret].
  { intros target [<-|[]]. right. split; [reflexivity|].
    exists true. reflexivity. }
  destruct (Hsorted files Hret) as [_ [_ Hex]].
  assert (Hfiles : files = [a_teal; b_teal]).
  { assert (Hc : outcome (FileDiscovery.discover_files fnmatch fs config)
                 = Ret [a_teal; b_teal]) by reflexivity.
    rewrite Hc in Hret. now injection Hret as <-. }
  exists files. split; [exact Hret|]. split; [exact Hfiles|].
  split; [reflexivity|]. split; [reflexivity|].
  apply (Hex a_teal); [rewrite Hfiles; now left|now left].
Defined.


Definition a_doc : Document :=
  TealDoc {| teal_file_path := "contracts/a.teal";
             teal_content := a_content;
             teal_lines := ["#pragma version 6"; "int 1"; "app_global_put"];
             version := Some 6;
             labels := [];
             opcodes :=
               [ {| opcode := "int"; o_line := 2;
                    full_instruction := "int 1"; o_args := ["1"] |};
                 {| opcode := "app_global_put"; o_line := 3;
                    full_instruction := "app_global_put"; o_args := [] |} ];
             subroutines := [];
             state_operations :=
               [ {| operation := "app_global_put"; so_line := 3;
                    instruction := "app_global_put" |} ];
             transaction_fields := [];
             line_count := 3 |}.

Lemma a_doc_is_parsed :
  outcome (TealParser.parse fs int_of_str (fun _ => Ret []) a_teal)
  = Ret (Some a_doc).
Proof. reflexivity. Qed.

Lemma one_failing_analyzer_in_the_small_world :
  outcome (_scan_single_file scanner_with_crashing_analyzer a_teal) =
    Ret (flat_map (contribution TEAL a_teal a_doc) [] ++
         flat_map (contribution TEAL a_teal a_doc)
                  (Core.analyzers scanner)) /\
  contribution TEAL a_teal a_doc ("crashing", crashing) = [] /\
  In "builtin"
     (awaited (trace (_scan_single_file scanner_with_crashing_analyzer
                                        a_teal))) /\
  In (Effect (Log ERROR (analyzer_error_msg "crashing" a_teal boom)))
     (trace (_scan_single_file scanner_with_crashing_analyzer a_teal)) /\
  appended (trace (scan_file scanner_with_crashing_analyzer a_teal)) = [].
Proof.
  destruct (analyzer_fault_is_contained_and_logged
              scanner_with_crashing_analyzer a_teal TEAL
              (TealParser.parse fs int_of_str (fun _ => Ret []))
              a_doc [] (Core.analyzers scanner) "crashing" crashing boom)
    as [H1 [H2 [H3 [H4 [H5 _]]]]]; try reflexivity.
  repeat split; auto.
  apply (H3 "builtin" (BuiltinAnalyzer (open_rules env)));
    [now left|reflexivity].
Defined.

(** C4, as stated, fails where it says that the error is recorded in the
    error list of the scan: the analyzer [crashing] is awaited on both
    files and raises on both, and the report has no error. *)
Lemma analyzer_fault_leaves_the_error_list_empty :
  exists t report,
    scan scanner_with_crashing_analyzer [0%nat; 1%nat] t0 t1
      = Some (t, Ret report) /\
    awaited t = ["crashing"; "builtin"; "crashing"; "builtin"] /\
    outcome (analyze crashing a_teal a_doc) = Raise boom /\
    List.length (vulnerabilities report) = 2%nat /\
    errors report = [].
Proof. eexists. eexists. repeat split. Qed.

(** C9, as stated, fails: with only [tealer] enabled and its tool absent,
    no analyzer is awaited on any of the two files, and the report still
    lists [tealer]. *)
Lemma unavailable_tool_is_listed_as_used :
  exists t report,
    scan (init env (config_with ["tealer"] LOW)) [0%nat; 1%nat] t0 t1
      = Some (t, Ret report) /\
    files_scanned report = 2 /\
    available (tealer env) = false /\
    supports_file_type (TealerAnalyzer (tealer env)) TEAL = false /\
    awaited t = [] /\
    tools_used report = ["tealer"].
Proof. eexists. eexists. repeat split. Qed.

Lemma tools_in_the_small_world :
  exists t report,
    scan scanner [0%nat; 1%nat] t0 t1 = Some (t, Ret report) /\
    tools_used report = ["builtin"] /\
    incl (awaited t) (tools_used report).
Proof.
  assert (H : exists t report,
            scan scanner [0%nat; 1%nat] t0 t1 = Some (t, Ret report))
    by (eexists; eexists; reflexivity).
  destruct H as [t [report H]]. exists t, report. split; [exact H|].
  destruct (tools_used_are_the_enabled_analyzers scanner [0%nat; 1%nat]
              t0 t1 t report H) as [H1 H2].
  split; [rewrite H1; reflexivity|exact H2].
Defined.

Lemma configuration_in_the_small_world :
  (exists e,
     from_dict {| d_target_paths := None; d_include_patterns := None;
                  d_exclude_patterns := None; d_analyzers := None;
                  d_severity_threshold := Some "SEVERE";
                  d_output_format := None; d_output_file := None;
                  d_max_workers := None; d_timeout := None |} = Raise e /\
     exn_class e = "ValueError") /\
  (exists cfg,
     from_dict {| d_target_paths := None; d_include_patterns := None;
                  d_exclude_patterns := None;
                  d_analyzers := Some ["tealer"; "nonexistent"; "builtin"];
                  d_severity_threshold := Some "HIGH";
                  d_output_format := None; d_output_file := None;
                  d_max_workers := None; d_timeout := None |} = Ret cfg /\
     severity_threshold cfg = HIGH /\
     map fst (Core.analyzers (init env cfg)) = ["builtin"; "tealer"]).
Proof.
  split.
  - apply config_validates_severity_only.
    intros m. destruct m; discriminate.
  - destruct (config_validates_severity_only
                {| d_target_paths := None; d_include_patterns := None;
                   d_exclude_patterns := None;
                   d_analyzers := Some ["tealer"; "nonexistent"; "builtin"];
                   d_severity_threshold := Some "HIGH";
                   d_output_format := None; d_output_file := None;
                   d_max_workers := None; d_timeout := None |})
      as [_ H].
    destruct (H HIGH eq_refl) as [cfg [H1 [H2 [H3 H4]]]].
    exists cfg. split; [exact H1|]. split; [exact H2|].
    rewrite H4, H3. reflexivity.
Defined.


Definition two_lines : Document :=
  TealDoc {| teal_file_path := "contracts/a.teal";
             teal_content := "int 1" +++ LF +++ "app_global_put";
             teal_lines := ["int 1"; "app_global_put"];
             version := None; labels := []; opcodes := [];
             subroutines := []; state_operations := [];
             transaction_fields := []; line_count := 2 |}.

Lemma unguarded_state_write_in_the_small_world :
  exists findings,
    outcome (analyze (BuiltinAnalyzer (open_rules env)) a_teal two_lines)
      = Ret findings /\
    In (teal_missing_access_control a_teal 2 "app_global_put") findings /\
    severity (teal_missing_access_control a_teal 2 "app_global_put") = HIGH.
Proof.
  destruct (teal_state_write_needs_sender_check_nearby (open_rules env)
              a_teal two_lines 2 "app_global_put")
    as [findings [Hout [Hmissing _]]]; try reflexivity.
  exists findings. split; [exact Hout|].
  destruct Hmissing as [Hin [Hsev _]]; [|auto].
  intros j l Hj Hl. pose proof (line_at_Some _ _ _ Hl) as [H1 [H2 _]].
  change (len (doc_lines two_lines)) with 2 in H2.
  assert (Hcases : j = 1 \/ j = 2) by lia.
  destruct Hcases; subst j; injection Hl as <-; reflexivity.
Defined.

End Examples.

(* ================================================================== *)
(** * cli/main.py: the exit code                                        *)
(* ================================================================== *)

Module Cli.

(** [_get_exit_code]; the threshold is a parameter that the body never
    reads. *)
Definition _get_exit_code (result : ScanResult)
  (severity_threshold : SeverityLevel) : Z :=
  if critical_count result >? 0 then 3
  else if high_count result >? 0 then 2
  else if medium_count result >? 0 then 1
  else 0.

End Cli.

(** ** Counts and exit code *)

Lemma tally_cons (s : SeverityLevel) (v : Vulnerability)
  (vs : list Vulnerability) :
  tally s (v :: vs) =
  (if severity_eqb (severity v) s then 1 else 0) + tally s vs.
Proof.
  unfold tally, len. cbn [filter].
  destruct (severity_eqb (severity v) s); cbn [List.length]; lia.
Qed.

Lemma tally_all_levels (vs : list Vulnerability) :
  tally CRITICAL vs + tally HIGH vs + tally MEDIUM vs + tally LOW vs +
  tally INFO vs = len vs.
Proof.
  induction vs as [|v vs IH]; [reflexivity|].
  rewrite !tally_cons. unfold len in *. cbn [List.length].
  destruct (severity v); cbn [severity_eqb]; lia.
Qed.

Lemma count_of_tally (s : SeverityLevel) (r : ScanResult) :
  count_of s r = tally s (vulnerabilities r).
Proof. unfold count_of. apply sum_ones_filter. Qed.

(** X1.  The four named counts of a report and the number of its INFO
    findings add up to its total: the named counts never exceed the total,
    and they fall short of it by exactly the INFO findings. *)
Theorem counts_add_up_to_total :
  forall r : ScanResult,
    critical_count r + high_count r + medium_count r + low_count r +
    count_of INFO r = total_vulnerabilities r /\
    critical_count r + high_count r + medium_count r + low_count r
      <= total_vulnerabilities r.
Proof.
  intros r. unfold critical_count, high_count, medium_count, low_count,
    total_vulnerabilities.
  rewrite !count_of_tally.
  pose proof (tally_all_levels (vulnerabilities r)) as H.
  split; [exact H|].
  assert (0 <= tally INFO (vulnerabilities r)) by (unfold tally, len; lia).
  lia.
Qed.

Lemma tally_pos (s : SeverityLevel) (vs : list Vulnerability) :
  0 < tally s vs <-> exists v, In v vs /\ severity v = s.
Proof.
  induction vs as [|v vs IH].
  - split; [unfold tally, len; simpl; lia|intros [v [[] _]]].
  - rewrite tally_cons. split.
    + intros H. destruct (severity_eqb (severity v) s) eqn:Hs.
      * exists v. split; [now left|now apply severity_eqb_eq].
      * destruct IH as [IH _]. destruct IH as [w [Hin Hw]]; [lia|].
        exists w. split; [now right|exact Hw].
    + intros [w [[->|Hin] Hw]].
      * apply severity_eqb_eq in Hw. rewrite Hw.
        assert (0 <= tally s vs) by (unfold tally, len; lia). lia.
      * assert (0 < tally s vs) by (apply IH; eauto).
        destruct (severity_eqb (severity v) s); lia.
Qed.

Lemma tally_zero (s : SeverityLevel) (vs : list Vulnerability) :
  tally s vs = 0 <-> forall v, In v vs -> severity v <> s.
Proof.
  assert (Hnn : 0 <= tally s vs) by (unfold tally, len; lia).
  split.
  - intros Hz v Hin Hs.
    assert (0 < tally s vs) by (apply tally_pos; eauto). lia.
  - intros Hall. destruct (Z.eq_dec (tally s vs) 0) as [|Hne]; auto.
    assert (Hpos : 0 < tally s vs) by lia.
    apply tally_pos in Hpos. destruct Hpos as [v [Hin Hs]].
    now destruct (Hall v Hin).
Qed.

(** X2.  The exit code names the worst severity present among CRITICAL,
    HIGH and MEDIUM: 3, 2 or 1; it is 0 exactly when every finding of the
    report is LOW or INFO; and it does not depend on the threshold that it
    is passed. *)
Theorem exit_code_names_the_worst_severity :
  forall (r : ScanResult) (T : SeverityLevel),
    let has s := exists v, In v (vulnerabilities r) /\ severity v = s in
    (Cli._get_exit_code r T = 3 <-> has CRITICAL) /\
    (Cli._get_exit_code r T = 2 <-> ~ has CRITICAL /\ has HIGH) /\
    (Cli._get_exit_code r T = 1 <->
       ~ has CRITICAL /\ ~ has HIGH /\ has MEDIUM) /\
    (Cli._get_exit_code r T = 0 <->
       forall v, In v (vulnerabilities r) ->
                 severity v = LOW \/ severity v = INFO) /\
    (forall T', Cli._get_exit_code r T' = Cli._get_exit_code r T).
Proof.
  intros r T has. unfold Cli._get_exit_code, critical_count, high_count,
    medium_count. rewrite !count_of_tally.
  pose proof (tally_pos CRITICAL (vulnerabilities r)) as HC.
  pose proof (tally_pos HIGH (vulnerabilities r)) as HH.
  pose proof (tally_pos MEDIUM (vulnerabilities r)) as HM.
  fold (has CRITICAL) in HC. fold (has HIGH) in HH. fold (has MEDIUM) in HM.
  assert (Hzero : (forall v, In v (vulnerabilities r) ->
                     severity v = LOW \/ severity v = INFO) <->
                  ~ has CRITICAL /\ ~ has HIGH /\ ~ has MEDIUM).
  { split.
    - intros Hall. repeat split; intros [v [Hin Hs]];
        destruct (Hall v Hin); congruence.
    - intros [nc [nh nm]] v Hin. destruct (severity v) eqn:Hs; auto;
        exfalso; [apply nc|apply nh|apply nm]; exists v; auto. }
  destruct (Z.gtb_spec (tally CRITICAL (vulnerabilities r)) 0) as [c|c];
  destruct (Z.gtb_spec (tally HIGH (vulnerabilities r)) 0) as [h|h];
  destruct (Z.gtb_spec (tally MEDIUM (vulnerabilities r)) 0) as [m|m];
    (split; [|split; [|split; [|split]]]; [| | | |reflexivity]);
    rewrite ?Hzero; (split; [try discriminate|]); intuition (try lia).
Qed.

(* ================================================================== *)
(** * More on the orchestrator                                          *)
(* ================================================================== *)

Section OrchestratorFacts.

Variable self : AlgorandScanner.

(** Only the parser of a file can make the scan of the file raise. *)
Lemma scan_single_file_raise (f : Path) (e : exn) :
  outcome (_scan_single_file self f) = Raise e ->
  exists ft parser,
    _get_file_type f = Some ft /\
    lookup_parser ft (parsers self) = Some parser /\
    outcome (parser f) = Raise e.
Proof.
  unfold _scan_single_file.
  rewrite (outcome_bind_ret _ _ tt) by reflexivity.
  destruct (_get_file_type f) as [ft|] eqn:Hft; [|discriminate].
  destruct (lookup_parser ft (parsers self)) as [parser|] eqn:Hl;
    [|discriminate].
  destruct (outcome (parser f)) as [[doc|]|e'] eqn:Hp.
  - rewrite (outcome_bind_ret _ _ (Some doc)) by exact Hp.
    rewrite run_analyzers_outcome. discriminate.
  - rewrite (outcome_bind_ret _ _ None) by exact Hp. discriminate.
  - rewrite (bind_raise _ _ e') by exact Hp. cbn [outcome snd].
    intros H. injection H as <-. exists ft, parser. auto.
Qed.

Lemma scan_single_file_parser_raise (f : Path) (e : exn) ft parser :
  _get_file_type f = Some ft ->
  lookup_parser ft (parsers self) = Some parser ->
  outcome (parser f) = Raise e ->
  outcome (_scan_single_file self f) = Raise e.
Proof.
  intros Hft Hp He. unfold _scan_single_file.
  rewrite (outcome_bind_ret _ _ tt) by reflexivity. rewrite Hft, Hp.
  rewrite (bind_raise _ _ e) by exact He. reflexivity.
Qed.

(** A file that is not analyzed: its format is unknown, or no parser is
    registered for it, or its parser finds nothing to analyze. *)
Definition skipped (f : Path) : Prop :=
  match _get_file_type f with
  | None => True
  | Some ft =>
      match lookup_parser ft (parsers self) with
      | None => True
      | Some parser => outcome (parser f) = Ret None
      end
  end.


End OrchestratorFacts.

(** X4.  The scan of one file raises exactly when the parser registered
    for the format of the file raises, and then with the same exception:
    neither an unknown format nor any analyzer can make it raise. *)
Theorem single_file_scan_raises_only_from_the_parser :
  forall (self : AlgorandScanner) (f : Path) (e : exn),
    outcome (_scan_single_file self f) = Raise e <->
    exists ft parser,
      _get_file_type f = Some ft /\
      lookup_parser ft (parsers self) = Some parser /\
      outcome (parser f) = Raise e.
Proof.
  intros self f e. split.
  - apply scan_single_file_raise.
  - intros (ft & parser & Hft & Hp & He).
    exact (scan_single_file_parser_raise self f e ft parser Hft Hp He).
Qed.




(** X6.  A file that is skipped (unknown format, no parser for the format,
    or a parser that finds nothing to analyze) yields no finding, no
    analyzer is awaited for it, and nothing is added to the error list. *)
Theorem skipped_file_is_not_analyzed :
  forall (self : AlgorandScanner) (f : Path),
    skipped self f ->
    outcome (_scan_single_file self f) = Ret [] /\
    outcome (scan_file self f) = Ret [] /\
    awaited (trace (scan_file self f)) = [] /\
    appended (trace (scan_file self f)) = [].
Proof.
  intros self f Hs.
  assert (Hout : outcome (_scan_single_file self f) = Ret [] /\
                 awaited (trace (_scan_single_file self f)) = []).
  { unfold skipped in Hs. unfold _scan_single_file.
    rewrite (outcome_bind_ret _ _ tt), (trace_bind_ret _ _ tt)
      by reflexivity.
    rewrite awaited_app. cbn [logging emit trace fst awaited flat_map app].
    destruct (_get_file_type f) as [ft|]; [|split; reflexivity].
    destruct (lookup_parser ft (parsers self)) as [parser|];
      [|split; reflexivity].
    rewrite (outcome_bind_ret _ _ None), (trace_bind_ret _ _ None)
      by exact Hs.
    rewrite awaited_app, trace_within, awaited_Effect.
    split; reflexivity. }
  destruct Hout as [Hout Haw]. split; [exact Hout|].
  unfold scan_file. rewrite (try_except_ret _ _ _ Hout).
  split; [exact Hout|]. split; [exact Haw|].
  apply scan_single_file_appended.
Qed.

(** X7.  For a file that was parsed, the findings are the results of the
    analyzers that support the format of the file and return, concatenated
    in the order in which the analyzers were registered; and exactly the
    analyzers that support the format are awaited, each once, in that
    order. *)
Theorem parsed_file_goes_to_the_supporting_analyzers :
  forall (self : AlgorandScanner) (f : Path) (ft : FileType)
         (parser : Parser) (doc : Document),
    _get_file_type f = Some ft ->
    lookup_parser ft (parsers self) = Some parser ->
    outcome (parser f) = Ret (Some doc) ->
    outcome (_scan_single_file self f) =
      Ret (flat_map (contribution ft f doc) (Core.analyzers self)) /\
    awaited (trace (_scan_single_file self f)) =
      map fst (filter (fun item => supports_file_type (snd item) ft)
                      (Core.analyzers self)).
Proof.
  intros self f ft parser doc Hft Hp Hd.
  rewrite (scan_single_file_parsed self f ft parser doc Hft Hp Hd).
  cbn [outcome trace fst snd]. split.
  - now rewrite run_analyzers_outcome.
  - change (Effect ?x :: ?l) with ([Effect x] ++ l).
    rewrite !awaited_app, awaited_Effect, run_analyzers_awaited.
    reflexivity.
Qed.

(** X3.  The exit code is computed from the findings that passed the
    threshold filter: for every report that a scan returns, a threshold
    above MEDIUM never gives the exit code 1, and a threshold above HIGH
    never gives the exit code 2. *)
Theorem exit_code_ignores_findings_below_the_threshold :
  forall (self : AlgorandScanner) (schedule : list nat)
         (t0 t1 : QArith_base.Q) (t : list scan_event)
         (report : ScanResult),
    scan self schedule t0 t1 = Some (t, Ret report) ->
    let T := severity_threshold (config self) in
    ((order MEDIUM < order T)%nat -> Cli._get_exit_code report T <> 1) /\
    ((order HIGH < order T)%nat -> Cli._get_exit_code report T <> 2).
Proof.
  intros self schedule t0 t1 t report Hscan.
  destruct (scan_returned self schedule t0 t1 t report Hscan)
    as [files [_ [_ Heq]]].
  unfold completed in Heq. injection Heq as _ ->. cbv zeta.
  unfold Cli._get_exit_code, critical_count, high_count, medium_count.
  rewrite !count_of_tally. cbn [vulnerabilities].
  split; intros Hlt.
  - rewrite (tally_below self MEDIUM _ Hlt).
    destruct (_ >? 0); [discriminate|]. destruct (_ >? 0); discriminate.
  - rewrite (tally_below self HIGH) by exact Hlt.
    destruct (_ >? 0); [discriminate|]. cbn.
    destruct (_ >? 0); discriminate.
Qed.

(* ================================================================== *)
(** * The analyzers backed by an external tool                          *)
(* ================================================================== *)

Section ToolAnalyzers.

Variable tool : Tool.




End ToolAnalyzers.


(** X9.  When the run of an available tool raises, the Panda and the
    quality-assurance analyzers add one ERROR message to the log, which
    names the file and the exception; the Tealer analyzer adds nothing: its
    log is that of the run, so the failure leaves no trace of its own. *)
Theorem tool_failure_is_logged_except_by_tealer :
  forall (tool : Tool) (f : Path) (doc : Document) (e : exn),
    available tool = true ->
    outcome (run tool f doc) = Raise e ->
    trace (analyze (PandaAnalyzer tool) f doc) =
      trace (run tool f doc) ++
      [Log ERROR ("Error running Panda analysis on " +++ path_str f +++
                  ": " +++ exn_str e)] /\
    trace (analyze (QualityAssuranceAnalyzer tool) f doc) =
      trace (run tool f doc) ++
      [Log ERROR ("Quality Assurance analysis failed for " +++
                  path_str f +++ ": " +++ exn_str e)] /\
    trace (analyze (TealerAnalyzer tool) f doc) = trace (run tool f doc).
Proof.
  intros tool f doc e Hav He.
  cbn [analyze PandaAnalyzer TealerAnalyzer QualityAssuranceAnalyzer].
  rewrite Hav. cbn [negb].
  rewrite !(trace_try_except_raise _ _ _ He). cbn [trace fst].
  repeat split. cbn. now rewrite app_nil_r.
Qed.

(* ================================================================== *)
(** * The security patterns of the scripting format                     *)
(* ================================================================== *)

Module TypeScriptSecurity.

(** The keys of [SECURITY_PATTERNS], in the order of the dictionary; the
    patterns themselves are applied by [finditer] below. *)
Definition SECURITY_PATTERNS : list str :=
  ["hardcoded_private_key"; "hardcoded_address"; "unsafe_random";
   "direct_state_access"; "unsigned_transaction"].

Definition severity_map : list (str * str) :=
  [("hardcoded_private_key", "CRITICAL");
   ("hardcoded_address", "MEDIUM");
   ("unsafe_random", "HIGH");
   ("direct_state_access", "LOW");
   ("unsigned_transaction", "MEDIUM")].

(** [d.get(key, default)] on a dictionary with string keys. *)
Definition dict_get {V} (d : list (str * V)) (key : str) (default : V) : V :=
  match find (fun entry => String.eqb (fst entry) key) d with
  | Some entry => snd entry
  | None => default
  end.

Definition _get_security_severity (issue_type : str) : str :=
  dict_get severity_map issue_type "LOW".

(** [s.count(c)] for a single character. *)
Fixpoint count (c : ascii) (s : str) : Z :=
  match s with
  | EmptyString => 0
  | String x s' => (if Ascii.eqb x c then 1 else 0) + count c s'
  end.

(** [s.replace(old, new)] for single characters. *)
Fixpoint replace (old new : ascii) (s : str) : str :=
  match s with
  | EmptyString => EmptyString
  | String x s' =>
      String (if Ascii.eqb x old then new else x) (replace old new s')
  end.

Section Extract.

(** [re.finditer(SECURITY_PATTERNS[issue_type], content, re.IGNORECASE)]:
    the start and the text of each match. *)
Variable finditer : str -> str -> result (list (nat * str)).

Definition issue_of (issue_type content : str) (m : nat * str)
  : SecurityIssue :=
  {| si_type := issue_type;
     si_line := count "010"%char (String.substring 0 (fst m) content) + 1;
     si_match := snd m;
     si_severity := _get_security_severity issue_type |}.

Fixpoint extract_from (issue_types : list str) (content : str)
  (security_issues : list SecurityIssue) : result (list SecurityIssue) :=
  match issue_types with
  | [] => Ret security_issues
  | issue_type :: rest =>
      rbind (finditer issue_type content) (fun found =>
      extract_from rest content
        (security_issues ++ map (issue_of issue_type content) found))
  end.

Definition _extract_security_patterns (content : str)
  : result (list SecurityIssue) :=
  extract_from SECURITY_PATTERNS content [].

End Extract.

Section Convert.

(** [str.title] *)
Variable title : str -> str.

Definition finding_of (file_path : Path) (issue : SecurityIssue)
  (severity : SeverityLevel) : Vulnerability :=
  _create_vulnerability "builtin" file_path (si_line issue) severity
    ("ts_" +++ si_type issue)
    ("Security issue: " +++ title (replace "_"%char " "%char (si_type issue)))
    (Some ("Found potential security issue: " +++ si_match issue))
    None MEDIUM_confidence (Some (si_match issue)) None None.

(** The loop of [_analyze_typescript] that converts the security issues of
    a document. *)
Fixpoint convert_security_issues (file_path : Path)
  (security_issues : list SecurityIssue) (vulnerabilities : list Vulnerability)
  : result (list Vulnerability) :=
  match security_issues with
  | [] => Ret vulnerabilities
  | issue :: rest =>
      rbind (SeverityLevel_of_value (si_severity issue)) (fun severity =>
      convert_security_issues file_path rest
        (vulnerabilities ++ [finding_of file_path issue severity]))
  end.

End Convert.

End TypeScriptSecurity.

Section TypeScriptSecurityFacts.

Import TypeScriptSecurity.

(** The severity that the parser assigns to an issue type, as a level. *)
Definition level_of_issue (issue_type : str) : SeverityLevel :=
  dict_get [("hardcoded_private_key", CRITICAL);
            ("hardcoded_address", MEDIUM);
            ("unsafe_random", HIGH);
            ("direct_state_access", LOW);
            ("unsigned_transaction", MEDIUM)] issue_type LOW.

Lemma get_security_severity_is_a_level (issue_type : str) :
  _get_security_severity issue_type = value (level_of_issue issue_type).
Proof.
  unfold _get_security_severity, level_of_issue, dict_get, severity_map.
  cbn [find fst snd].
  repeat (destruct (String.eqb _ issue_type); [reflexivity|]).
  reflexivity.
Qed.

Variable finditer : str -> str -> result (list (nat * str)).
Variable title : str -> str.

(** An issue as the parser builds it. *)
Definition well_formed (issue : SecurityIssue) : Prop :=
  In (si_type issue) SECURITY_PATTERNS /\
  si_severity issue = _get_security_severity (si_type issue) /\
  1 <= si_line issue.

Lemma count_nonneg (c : ascii) (s : str) : 0 <= count c s.
Proof.
  induction s as [|x s IH]; simpl; [lia|].
  destruct (Ascii.eqb x c); lia.
Qed.

Lemma extract_from_well_formed (issue_types : list str) (content : str)
  (acc issues : list SecurityIssue) :
  incl issue_types SECURITY_PATTERNS ->
  Forall well_formed acc ->
  extract_from finditer issue_types content acc = Ret issues ->
  Forall well_formed issues.
Proof.
  revert acc. induction issue_types as [|issue_type rest IH];
    intros acc Hincl Hacc; cbn [extract_from].
  - intros H. now injection H as <-.
  - destruct (finditer issue_type content) as [found|e]; [|discriminate].
    cbn [rbind]. apply IH; [intros x Hx; apply Hincl; now right|].
    apply Forall_app. split; [exact Hacc|].
    apply Forall_forall. intros issue Hin. apply in_map_iff in Hin.
    destruct Hin as [m [<- _]]. split; [apply Hincl; now left|].
    split; [reflexivity|]. cbn [si_line issue_of].
    pose proof (count_nonneg "010"%char
                  (String.substring 0 (fst m) content)). lia.
Qed.

Lemma convert_well_formed (file_path : Path) (issues : list SecurityIssue)
  (acc : list Vulnerability) :
  Forall well_formed issues ->
  convert_security_issues title file_path issues acc =
  Ret (acc ++ map (fun issue =>
                     finding_of title file_path issue
                                (level_of_issue (si_type issue))) issues).
Proof.
  revert acc. induction issues as [|issue rest IH]; intros acc Hwf;
    cbn [convert_security_issues map].
  - now rewrite app_nil_r.
  - inversion Hwf as [|? ? [_ [Hsev _]] Hrest]; subst.
    rewrite Hsev, get_security_severity_is_a_level,
      SeverityLevel_of_value_known. cbn [rbind].
    rewrite (IH _ Hrest), <- app_assoc. reflexivity.
Qed.

End TypeScriptSecurityFacts.

(** X10.  Whatever the pattern matcher finds in a scripting file, every
    security issue that the parser records carries a severity string that
    names a severity level, and a line number from 1 on; so converting the
    recorded issues into findings never raises, and it yields one finding
    of the built-in analyzer per issue, in order, with the rule identifier
    [ts_] followed by the issue type and the severity of that type. *)
Theorem recorded_security_issues_always_convert :
  forall (finditer : str -> str -> result (list (nat * str)))
         (title : str -> str) (file_path : Path) (content : str)
         (issues : list SecurityIssue),
    TypeScriptSecurity._extract_security_patterns finditer content
      = Ret issues ->
    Forall (fun issue =>
              In (si_type issue) TypeScriptSecurity.SECURITY_PATTERNS /\
              1 <= si_line issue /\
              exists m, si_severity issue = value m) issues /\
    exists findings,
      TypeScriptSecurity.convert_security_issues title file_path issues []
        = Ret findings /\
      Forall2 (fun issue v =>
                 tool v = "builtin" /\
                 rule_id v = "ts_" +++ si_type issue /\
                 Models.line v = si_line issue /\
                 severity v = level_of_issue (si_type issue) /\
                 value (severity v) = si_severity issue)
              issues findings.
Proof.
  intros finditer title file_path content issues Hex.
  pose proof (extract_from_well_formed finditer _ _ [] issues
                (incl_refl _) (Forall_nil _) Hex) as Hwf.
  split.
  - apply Forall_forall. intros issue Hin.
    apply (proj1 (Forall_forall _ _) Hwf) in Hin.
    destruct Hin as [Ht [Hs Hl]]. split; [exact Ht|]. split; [exact Hl|].
    exists (level_of_issue (si_type issue)).
    now rewrite Hs, get_security_severity_is_a_level.
  - eexists. split; [apply (convert_well_formed title _ _ [] Hwf)|].
    cbn [app]. clear Hex.
    induction Hwf as [|issue rest [Ht [Hs Hl]] Hrest IH];
      cbn [map]; constructor; auto.
    repeat split.
    cbn [severity TypeScriptSecurity.finding_of _create_vulnerability].
    now rewrite Hs, get_security_severity_is_a_level.
Qed.

(* ================================================================== *)
(** * utils/output_formatter.py: the SARIF report                       *)
(* ================================================================== *)

Module OutputFormatter.

(** An entry of the list under [rules]. *)
Record SarifRule := {
  sr_id : str;
  sr_name : str;
  shortDescription : str;
  fullDescription : str;
  defaultLevel : str;
  tags : list str;
  precision : str;
  cwe : option str
}.

(** An entry of the list under [results]. *)
Record SarifResult := {
  ruleId : str;
  level : str;
  message_text : str;
  uri : str;
  startLine : Z;
  startColumn : Z;
  fixes : list str
}.

(** The truth value of an optional string: [None] and the empty string are
    false. *)
Definition truthy (s : option str) : bool :=
  match s with
  | Some (String _ _) => true
  | _ => false
  end.

Definition _severity_to_sarif_level (severity : SeverityLevel) : str :=
  match severity with
  | CRITICAL => "error"
  | HIGH => "error"
  | MEDIUM => "warning"
  | LOW => "note"
  | Models.INFO => "note"
  end.

Definition sarif_rule_id (vuln : Vulnerability) : str :=
  tool vuln +++ "." +++ rule_id vuln.

Definition rule_of (vuln : Vulnerability) : SarifRule :=
  {| sr_id := sarif_rule_id vuln;
     sr_name := rule_id vuln;
     shortDescription := message vuln;
     fullDescription :=
       if truthy (description vuln) then get (description vuln) EmptyString
       else message vuln;
     defaultLevel := _severity_to_sarif_level (severity vuln);
     tags := ["security"; "algorand"];
     precision :=
       if truthy (confidence vuln) then lower (get (confidence vuln) EmptyString)
       else "medium";
     cwe := if truthy (cwe_id vuln) then cwe_id vuln else None |}.

(** [rule_id in rules] *)
Definition has_key (rule_id : str) (rules : list (str * SarifRule)) : bool :=
  existsb (fun entry => String.eqb (fst entry) rule_id) rules.

(** The loop of [_get_sarif_rules]; the dictionary [rules] keeps the order
    of insertion. *)
Fixpoint rules_loop (vulnerabilities : list Vulnerability)
  (rules : list (str * SarifRule)) : list (str * SarifRule) :=
  match vulnerabilities with
  | [] => rules
  | vuln :: rest =>
      if has_key (sarif_rule_id vuln) rules then rules_loop rest rules
      else rules_loop rest (rules ++ [(sarif_rule_id vuln, rule_of vuln)])
  end.

Definition _get_sarif_rules (result : ScanResult) : list SarifRule :=
  map snd (rules_loop (vulnerabilities result) []).

Definition result_of (vuln : Vulnerability) : SarifResult :=
  {| ruleId := sarif_rule_id vuln;
     level := _severity_to_sarif_level (severity vuln);
     message_text := message vuln;
     uri := file vuln;
     startLine := Models.line vuln;
     startColumn :=
       match column vuln with
       | Some c => if c =? 0 then 1 else c
       | None => 1
       end;
     fixes :=
       if truthy (fix_suggestion vuln)
       then [get (fix_suggestion vuln) EmptyString] else [] |}.

Definition _get_sarif_results (result : ScanResult) : list SarifResult :=
  map result_of (vulnerabilities result).

End OutputFormatter.

Section SarifFacts.

Import OutputFormatter.

Lemma has_key_In (k : str) (rules : list (str * SarifRule)) :
  has_key k rules = true <-> In k (map fst rules).
Proof.
  unfold has_key. rewrite existsb_exists, in_map_iff. split.
  - intros [entry [Hin Heq]]. apply String.eqb_eq in Heq. eauto.
  - intros [entry [Heq Hin]]. exists entry. split; auto.
    now apply String.eqb_eq.
Qed.

(** The entries of the dictionary during the loop: each is keyed by its
    own identifier and built from a finding that no earlier finding
    shares the identifier with. *)
Definition first_of (vulns : list Vulnerability) (entry : str * SarifRule)
  : Prop :=
  exists pre v post,
    vulns = pre ++ v :: post /\
    ~ In (sarif_rule_id v) (map sarif_rule_id pre) /\
    entry = (sarif_rule_id v, rule_of v).

Lemma rules_loop_spec (vulns : list Vulnerability) :
  forall (seen : list Vulnerability) (rules : list (str * SarifRule)),
    NoDup (map fst rules) ->
    (forall k, In k (map fst rules) <-> In k (map sarif_rule_id seen)) ->
    (forall entry, In entry rules -> first_of (seen ++ vulns) entry) ->
    let out := rules_loop vulns rules in
    NoDup (map fst out) /\
    (forall k, In k (map fst out) <->
               In k (map sarif_rule_id (seen ++ vulns))) /\
    (forall entry, In entry out -> first_of (seen ++ vulns) entry).
Proof.
  induction vulns as [|v vulns IH]; intros seen rules Hnd Hkeys Hfirst;
    cbn [rules_loop].
  - cbv zeta. rewrite app_nil_r in *. auto.
  - assert (Hassoc : seen ++ v :: vulns = (seen ++ [v]) ++ vulns)
      by now rewrite <- app_assoc.
    destruct (has_key (sarif_rule_id v) rules) eqn:Hk.
    + apply has_key_In in Hk. rewrite Hassoc. apply IH; auto.
      * intros k. rewrite Hkeys, map_app, in_app_iff. cbn [map In].
        split; [tauto|]. intros [H|[<-|[]]]; [exact H|].
        now apply Hkeys.
      * intros entry Hin. rewrite <- Hassoc. now apply Hfirst.
    + assert (Hnk : ~ In (sarif_rule_id v) (map fst rules)).
      { intros H. apply has_key_In in H. congruence. }
      rewrite Hassoc. apply IH.
      * rewrite map_app. cbn [map fst]. apply NoDup_app; auto.
        -- repeat constructor. intros [].
        -- intros k Hin [<-|[]]. now apply Hnk.
      * intros k. rewrite !map_app, !in_app_iff, Hkeys. cbn [map fst In].
        tauto.
      * intros entry Hin. apply in_app_or in Hin. rewrite <- Hassoc.
        destruct Hin as [Hin|[<-|[]]]; [now apply Hfirst|].
        exists seen, v, vulns. split; [reflexivity|]. split; [|reflexivity].
        intros H. apply Hnk. now apply Hkeys.
Qed.

Lemma map_fst_rules (rules : list (str * SarifRule)) :
  (forall entry, In entry rules -> fst entry = sr_id (snd entry)) ->
  map fst rules = map sr_id (map snd rules).
Proof.
  intros H. rewrite map_map. apply map_ext_in. exact H.
Qed.

End SarifFacts.

(** X11.  In a SARIF report there is one result per finding, in order; the
    identifiers of the rules are pairwise distinct; a rule is listed
    exactly for the identifiers that the results refer to; every rule is
    built from the first finding that has its identifier, so a later
    finding of another severity keeps its own level in its result while
    the rule keeps the level of the first; and no result starts at
    column 0. *)
Theorem sarif_rules_are_the_first_findings :
  forall result : ScanResult,
    let rules := OutputFormatter._get_sarif_rules result in
    let results := OutputFormatter._get_sarif_results result in
    map OutputFormatter.ruleId results =
      map OutputFormatter.sarif_rule_id (vulnerabilities result) /\
    NoDup (map OutputFormatter.sr_id rules) /\
    (forall k, In k (map OutputFormatter.sr_id rules) <->
               In k (map OutputFormatter.ruleId results)) /\
    (forall rule, In rule rules ->
       exists pre v post,
         vulnerabilities result = pre ++ v :: post /\
         ~ In (OutputFormatter.sarif_rule_id v)
              (map OutputFormatter.sarif_rule_id pre) /\
         rule = OutputFormatter.rule_of v) /\
    (forall res, In res results -> OutputFormatter.startColumn res <> 0).
Proof.
  intros result rules results. subst rules results.
  unfold OutputFormatter._get_sarif_rules, OutputFormatter._get_sarif_results.
  destruct (rules_loop_spec (vulnerabilities result) [] [] (NoDup_nil _))
    as [Hnd [Hkeys Hfirst]].
  { intros k. reflexivity. }
  { intros entry []. }
  cbn [app] in Hkeys, Hfirst.
  assert (Hid : map fst (OutputFormatter.rules_loop
                           (vulnerabilities result) []) =
                map OutputFormatter.sr_id
                    (map snd (OutputFormatter.rules_loop
                                (vulnerabilities result) []))).
  { apply map_fst_rules. intros entry Hin.
    destruct (Hfirst entry Hin) as (pre & v & post & _ & _ & ->).
    reflexivity. }
  rewrite <- Hid. rewrite !map_map.
  split; [reflexivity|]. split; [exact Hnd|]. split; [exact Hkeys|]. split.
  - intros rule Hin. apply in_map_iff in Hin.
    destruct Hin as [entry [<- Hin]].
    destruct (Hfirst entry Hin) as (pre & v & post & Hv & Hpre & ->).
    exists pre, v, post. auto.
  - intros res Hin. apply in_map_iff in Hin. destruct Hin as [v [<- _]].
    cbn [OutputFormatter.startColumn OutputFormatter.result_of].
    destruct (column v) as [c|]; [|discriminate].
    destruct (Z.eqb_spec c 0); [discriminate|assumption].
Qed.

(* ================================================================== *)
(** * cli/main.py: the configuration of a run                           *)
(* ================================================================== *)

Module Main.

(** [config_data.update(file_config)]: the entries of [file_config]
    replace those of [config_data]. *)
Definition first_some {A} (a b : option A) : option A :=
  match a with
  | Some v => Some v
  | None => b
  end.

Definition update (config_data file_config : ConfigData) : ConfigData :=
  {| d_target_paths :=
       first_some (d_target_paths file_config) (d_target_paths config_data);
     d_include_patterns :=
       first_some (d_include_patterns file_config)
                  (d_include_patterns config_data);
     d_exclude_patterns :=
       first_some (d_exclude_patterns file_config)
                  (d_exclude_patterns config_data);
     d_analyzers :=
       first_some (d_analyzers file_config) (d_analyzers config_data);
     d_severity_threshold :=
       first_some (d_severity_threshold file_config)
                  (d_severity_threshold config_data);
     d_output_format :=
       first_some (d_output_format file_config) (d_output_format config_data);
     d_output_file :=
       first_some (d_output_file file_config) (d_output_file config_data);
     d_max_workers :=
       first_some (d_max_workers file_config) (d_max_workers config_data);
     d_timeout :=
       first_some (d_timeout file_config) (d_timeout config_data) |}.

(** The truth value of a tuple. *)
Definition nonempty {A} (l : list A) : bool :=
  match l with
  | [] => false
  | _ => true
  end.

Definition defaults (paths : list str) : ConfigData :=
  {| d_target_paths := Some (if nonempty paths then paths else ["."]);
     d_include_patterns :=
       Some ["**/*.py"; "**/*.teal"; "**/*.ts"; "**/*.tsx"];
     d_exclude_patterns :=
       Some ["**/node_modules/**"; "**/.git/**"; "**/venv/**";
             "**/__pycache__/**"; "**/build/**"; "**/dist/**"];
     d_analyzers := Some ["builtin"];
     d_severity_threshold := Some "LOW";
     d_output_format := Some "json";
     d_output_file := None;
     d_max_workers := Some 4;
     d_timeout := Some 300 |}.

(** The last update of [_load_configuration]: five keys are set from the
    command line.  [output_file] may be set to [None], which
    [ScanConfig.from_dict] reads as it reads a missing key. *)
Definition update_from_command_line (config_data : ConfigData)
  (severity output_format : str) (output_file : option str)
  (workers timeout : Z) : ConfigData :=
  {| d_target_paths := d_target_paths config_data;
     d_include_patterns := d_include_patterns config_data;
     d_exclude_patterns := d_exclude_patterns config_data;
     d_analyzers := d_analyzers config_data;
     d_severity_threshold := Some severity;
     d_output_format := Some output_format;
     d_output_file := output_file;
     d_max_workers := Some workers;
     d_timeout := Some timeout |}.

(** [config_data[key].extend(more)], guarded by the truth value of
    [more]. *)
Definition extend (entry : option (list str)) (more : list str)
  : option (list str) :=
  if nonempty more then option_map (fun l => l ++ more) entry else entry.

(** [_load_configuration].  [file_config] is [None] when no configuration
    file is given, and otherwise what loading the file gives: a dictionary
    or an exception. *)
Definition _load_configuration (paths : list str)
  (file_config : option (result ConfigData)) (analyzers : list str)
  (severity : str) (include exclude : list str) (workers timeout : Z)
  (output_format : str) (output_file : option str) : result ScanConfig :=
  let config_data := defaults paths in
  rbind (match file_config with
         | Some loaded =>
             rbind loaded (fun file_config =>
             Ret (update config_data file_config))
         | None => Ret config_data
         end) (fun config_data =>
  let config_data :=
    {| d_target_paths := d_target_paths config_data;
       d_include_patterns := extend (d_include_patterns config_data) include;
       d_exclude_patterns := extend (d_exclude_patterns config_data) exclude;
       d_analyzers :=
         if nonempty analyzers then Some analyzers
         else d_analyzers config_data;
       d_severity_threshold := d_severity_threshold config_data;
       d_output_format := d_output_format config_data;
       d_output_file := d_output_file config_data;
       d_max_workers := d_max_workers config_data;
       d_timeout := d_timeout config_data |} in
  from_dict (update_from_command_line config_data severity output_format
                                      output_file workers timeout)).

End Main.

(** The entry of a key in the configuration file, if there is a file and
    it has the key. *)
Definition file_entry {A} (file : option ConfigData)
  (field : ConfigData -> option A) : option A :=
  match file with
  | Some data => field data
  | None => None
  end.

(** X12.  With a severity that names a level, and a configuration file
    that is absent or loads, [_load_configuration] returns a configuration
    in which: the severity threshold, the output format, the output file,
    the number of workers and the timeout are those of the command line,
    whatever the file says; the target paths are those of the file when it
    gives any, and else those of the command line, or the current
    directory; the analyzers are those of the command line when it names
    any, else those of the file, else the built-in one alone; and the
    include and exclude patterns of the command line are added after those
    of the file, or after the defaults. *)
Theorem command_line_wins_except_for_target_paths :
  forall (paths : list str) (file : option ConfigData)
         (analyzers : list str) (m : SeverityLevel)
         (include exclude : list str) (workers timeout : Z)
         (output_format : str) (output_file : option str),
  exists cfg,
    Main._load_configuration paths (option_map Ret file) analyzers (value m)
      include exclude workers timeout output_format output_file = Ret cfg /\
    severity_threshold cfg = m /\
    Models.output_format cfg = output_format /\
    Models.output_file cfg = output_file /\
    max_workers cfg = workers /\
    Models.timeout cfg = timeout /\
    target_paths cfg =
      get (file_entry file d_target_paths)
          (match paths with [] => ["."] | _ => paths end) /\
    Models.analyzers cfg =
      match analyzers with
      | [] => get (file_entry file d_analyzers) ["builtin"]
      | _ => analyzers
      end /\
    include_patterns cfg =
      get (file_entry file d_include_patterns)
          ["**/*.py"; "**/*.teal"; "**/*.ts"; "**/*.tsx"] ++ include /\
    exclude_patterns cfg =
      get (file_entry file d_exclude_patterns)
          ["**/node_modules/**"; "**/.git/**"; "**/venv/**";
           "**/__pycache__/**"; "**/build/**"; "**/dist/**"] ++ exclude.
Proof.
  intros paths file analyzers m include exclude workers timeout
    output_format output_file.
  unfold Main._load_configuration, from_dict.
  destruct file as [data|]; cbn [option_map rbind];
    cbn [Main.update_from_command_line d_severity_threshold get];
    rewrite SeverityLevel_of_value_known; cbn [rbind];
    (eexists; split; [reflexivity|]);
    cbn [severity_threshold Models.output_format Models.output_file
         max_workers Models.timeout target_paths Models.analyzers
         include_patterns exclude_patterns d_target_paths d_analyzers
         d_include_patterns d_exclude_patterns d_output_format d_output_file
         d_max_workers d_timeout Main.update Main.defaults get];
    repeat (split; [reflexivity|]); unfold file_entry.
  - split; [destruct (d_target_paths data), paths; reflexivity|].
    split; [destruct analyzers, (d_analyzers data); reflexivity|].
    split.
    + destruct (d_include_patterns data), include; cbn;
        now rewrite ?app_nil_r.
    + destruct (d_exclude_patterns data), exclude; cbn;
        now rewrite ?app_nil_r.
  - split; [destruct paths; reflexivity|].
    split; [destruct analyzers; reflexivity|].
    split; [destruct include|destruct exclude]; cbn; now rewrite ?app_nil_r.
Qed.

(* ================================================================== *)
(** * More on file discovery                                            *)
(* ================================================================== *)

Section DiscoveryMembership.

Variable fs : FileDiscovery.FileSystem.
Variable config : ScanConfig.

Lemma add_In (p q : Path) (files : list Path) :
  In p (FileDiscovery.add q files) <-> p = q \/ In p files.
Proof. apply ListSet.set_add_iff. Qed.

Lemma update_In (p : Path) (more files : list Path) :
  In p (FileDiscovery.update files more) <-> In p files \/ In p more.
Proof.
  unfold FileDiscovery.update. revert files.
  induction more as [|q more IH]; intros files; cbn [fold_left In].
  - tauto.
  - rewrite IH, add_In. intuition congruence.
Qed.

Lemma add_files_In (p : Path) (yielded files : list Path) :
  In p (fst (FileDiscovery.add_files fs yielded files)) ->
  In p files \/ FileDiscovery.is_file fs p = Ret true.
Proof.
  revert files. induction yielded as [|q yielded IH]; intros files;
    cbn [FileDiscovery.add_files fst]; auto.
  destruct (FileDiscovery.is_file fs q) as [[|]|e] eqn:Hq; cbn [fst]; auto.
  intros H. apply IH in H. destruct H as [H|H]; auto.
  apply add_In in H. destruct H as [->|H]; auto.
Qed.

Lemma rglob_patterns_In (directory : Path) (patterns : list str)
  (files : list Path) (p : Path) :
  In p (fst (FileDiscovery.rglob_patterns fs directory patterns files)) ->
  In p files \/ FileDiscovery.is_file fs p = Ret true.
Proof.
  revert files. induction patterns as [|pattern rest IH]; intros files;
    cbn [FileDiscovery.rglob_patterns fst]; auto.
  destruct (FileDiscovery.rglob fs directory pattern) as [yielded failure].
  pose proof (add_files_In p yielded files) as Hadd.
  destruct (FileDiscovery.add_files fs yielded files) as [files' [e|]];
    cbn [fst] in *; auto.
  destruct failure as [e|]; cbn [fst]; auto.
  intros H. apply IH in H. destruct H as [H|H]; auto.
Qed.

Lemma scan_directory_files (directory : Path) (files : list Path) :
  outcome (FileDiscovery._scan_directory fs config directory) = Ret files ->
  forall p, In p files -> FileDiscovery.is_file fs p = Ret true.
Proof.
  unfold FileDiscovery._scan_directory.
  pose proof (rglob_patterns_In directory (include_patterns config) [])
    as Hin.
  destruct (FileDiscovery.rglob_patterns fs directory _ [])
    as [found failure].
  cbn [fst] in Hin. intros H p Hp.
  assert (found = files) by (destruct failure; now injection H).
  subst. destruct (Hin p Hp) as [[]|]; assumption.
Qed.

Lemma collect_targets_In (targets : list str) (all_files files : list Path) :
  outcome (FileDiscovery.collect_targets fs config targets all_files)
    = Ret files ->
  (forall p, In p all_files -> In p files) /\
  (forall p, In p files ->
             In p all_files \/ FileDiscovery.is_file fs p = Ret true) /\
  (forall target, In target targets ->
     FileDiscovery.is_file fs (Path_of_str target) = Ret true ->
     In (Path_of_str target) files).
Proof.
  revert all_files. induction targets as [|target rest IH];
    intros all_files.
  - cbn. intros H. injection H as <-. repeat split; auto. intros t [].
  - rewrite collect_targets_cons.
    destruct (FileDiscovery.is_file fs (Path_of_str target))
      as [[|]|e] eqn:Hf; [| |discriminate].
    + intros H. destruct (IH _ H) as [H1 [H2 H3]]. repeat split.
      * intros p Hp. apply H1, add_In. auto.
      * intros p Hp. destruct (H2 p Hp) as [Hadd|]; auto.
        apply add_In in Hadd. destruct Hadd as [->|]; auto.
      * intros t [<-|Ht] Hfile; [apply H1, add_In; auto|auto].
    + destruct (FileDiscovery.is_dir fs (Path_of_str target))
        as [[|]|e]; [| |discriminate].
      * destruct (scan_directory_returns fs config (Path_of_str target))
          as [found [Hret _]].
        rewrite Hret. intros H.
        destruct (IH _ H) as [H1 [H2 H3]]. repeat split.
        -- intros p Hp. apply H1, update_In. auto.
        -- intros p Hp. destruct (H2 p Hp) as [Hup|]; auto.
           apply update_In in Hup. destruct Hup as [|Hfound]; auto.
           right. exact (scan_directory_files _ _ Hret p Hfound).
        -- intros t [<-|Ht] Hfile; [congruence|auto].
      * intros H. destruct (IH _ H) as [H1 [H2 H3]]. repeat split; auto.
        intros t [<-|Ht] Hfile; [congruence|auto].
Qed.

End DiscoveryMembership.

(** X13.  Every path in a sequence that discovery returns is a regular
    file that passes the include and exclude patterns; and a target path
    that names a regular file is in that sequence exactly when it passes
    these patterns: a file named on the command line is still dropped when
    no include pattern matches it. *)
Theorem discovery_returns_included_files_only :
  forall (fnmatch : str -> str -> bool) (fs : FileDiscovery.FileSystem)
         (config : ScanConfig) (files : list Path),
    outcome (FileDiscovery.discover_files fnmatch fs config) = Ret files ->
    (forall p, In p files ->
       FileDiscovery.is_file fs p = Ret true /\
       FileDiscovery._should_include_file fnmatch config p = true) /\
    (forall target, In target (target_paths config) ->
       FileDiscovery.is_file fs (Path_of_str target) = Ret true ->
       (In (Path_of_str target) files <->
        FileDiscovery._should_include_file fnmatch config
          (Path_of_str target) = true)).
Proof.
  intros fnmatch fs config files Hfiles.
  destruct (discover_files_returned fnmatch fs config files Hfiles)
    as [all_files [Hret [_ ->]]].
  destruct (collect_targets_In fs config _ _ _ Hret) as [_ [H2 H3]].
  split.
  - intros p Hp. apply sorted_In, filter_In in Hp. destruct Hp as [Hp Hinc].
    split; [|exact Hinc]. destruct (H2 p Hp) as [[]|]; assumption.
  - intros target Ht Hfile. rewrite sorted_In, filter_In.
    split; [tauto|]. intros Hinc. split; [|exact Hinc]. now apply H3.
Qed.

(* ================================================================== *)
(** * More on the assembly format                                       *)
(* ================================================================== *)

Lemma prefix_append (a b s : str) :
  String.prefix (a +++ b) s = true -> String.prefix a s = true.
Proof.
  revert s. induction a as [|x a IH]; intros s; [now destruct s|].
  destruct s as [|y s]; simpl; [discriminate|].
  destruct (ascii_dec x y); [apply IH|discriminate].
Qed.

(** A string that contains [a] followed by [b] contains [a]. *)
Lemma contains_append (a b s : str) :
  contains (a +++ b) s = true -> contains a s = true.
Proof.
  induction s as [|y s IH]; cbn [contains]; rewrite !orb_true_iff.
  - intros [H|H]; [left; exact (prefix_append a b _ H)|discriminate].
  - intros [H|H]; [left; exact (prefix_append a b _ H)|right; auto].
Qed.

Section TealExtraction.

Variable lines : list str.

(** The operation that the parser records for a line, if any. *)
Definition recorded_operation (raw : str) : option str :=
  find (fun opcode => contains opcode (lower (strip raw)))
       TealParser.state_opcodes.

Lemma extract_state_operations_In (op : StateOperation) :
  In op (TealParser._extract_state_operations lines) <->
  exists raw,
    line_at lines (so_line op) = Some raw /\
    recorded_operation raw = Some (operation op) /\
    instruction op = strip raw.
Proof.
  unfold TealParser._extract_state_operations. rewrite in_flat_map. split.
  - intros [[i raw] [Hin Hop]]. apply In_enumerate_line_at in Hin.
    fold (recorded_operation raw) in Hop.
    destruct (recorded_operation raw) as [opcode|] eqn:Hr; [|destruct Hop].
    destruct Hop as [<-|[]]. exists raw. auto.
  - intros [raw [Hl [Hr Hi]]]. exists (so_line op, raw).
    split; [now apply In_enumerate_line_at|].
    fold (recorded_operation raw). rewrite Hr. left.
    destruct op; cbn in *; congruence.
Qed.

Lemma recorded_operation_not_ex (raw opcode : str) :
  recorded_operation raw = Some opcode ->
  opcode <> "app_global_get_ex" /\ opcode <> "app_local_get_ex".
Proof.
  unfold recorded_operation, TealParser.state_opcodes. cbn [find].
  set (l := lower (strip raw)).
  destruct (contains "app_global_get" l) eqn:Hg;
    [intros H; injection H as <-; split; discriminate|].
  destruct (contains "app_global_put" l);
    [intros H; injection H as <-; split; discriminate|].
  destruct (contains "app_global_del" l);
    [intros H; injection H as <-; split; discriminate|].
  destruct (contains "app_global_get_ex" l) eqn:Hgx.
  { apply (contains_append "app_global_get" "_ex") in Hgx. congruence. }
  destruct (contains "app_local_get" l) eqn:Hl;
    [intros H; injection H as <-; split; discriminate|].
  destruct (contains "app_local_put" l);
    [intros H; injection H as <-; split; discriminate|].
  destruct (contains "app_local_del" l);
    [intros H; injection H as <-; split; discriminate|].
  destruct (contains "app_local_get_ex" l) eqn:Hlx; [|discriminate].
  apply (contains_append "app_local_get" "_ex") in Hlx. congruence.
Qed.

Lemma recorded_operation_global_get_ex (raw : str) :
  contains "app_global_get_ex" (lower (strip raw)) = true ->
  recorded_operation raw = Some "app_global_get".
Proof.
  intros H. apply (contains_append "app_global_get" "_ex") in H.
  unfold recorded_operation, TealParser.state_opcodes. cbn [find].
  now rewrite H.
Qed.

End TealExtraction.

(** The finding of the rule [teal_unsafe_state_get] for a recorded
    operation. *)
Definition teal_unsafe_state_get (file_path : Path) (op : StateOperation)
  : Vulnerability :=
  _create_vulnerability "builtin" file_path (so_line op) MEDIUM
    "teal_unsafe_state_get"
    "Unsafe state access without existence check"
    (Some "State access should use _ex variants to check existence")
    (Some "CWE-476") MEDIUM_confidence (Some (instruction op))
    (Some ("Use " +++ operation op +++ "_ex instead")) None.

(** X14.  The parser never records the operations [app_global_get_ex] and
    [app_local_get_ex]: a line that contains [app_global_get_ex] is
    recorded as [app_global_get].  So the built-in analyzer reports the
    existence-checked read itself as an unsafe read, and suggests to use
    [app_global_get_ex] instead. *)
Theorem existence_checked_read_is_reported_as_unsafe :
  forall (file_path : Path) (lines : list str),
    (forall op, In op (TealParser._extract_state_operations lines) ->
       operation op <> "app_global_get_ex" /\
       operation op <> "app_local_get_ex") /\
    (forall i raw,
       line_at lines i = Some raw ->
       contains "app_global_get_ex" (lower (strip raw)) = true ->
       let op := {| operation := "app_global_get"; so_line := i;
                    instruction := strip raw |} in
       In op (TealParser._extract_state_operations lines) /\
       In (teal_unsafe_state_get file_path op)
          (_check_unsafe_state_operations_teal file_path
             (TealParser._extract_state_operations lines)) /\
       fix_suggestion (teal_unsafe_state_get file_path op) =
         Some "Use app_global_get_ex instead").
Proof.
  intros file_path lines. split.
  - intros op Hin. apply extract_state_operations_In in Hin.
    destruct Hin as [raw [_ [Hr _]]].
    exact (recorded_operation_not_ex raw _ Hr).
  - intros i raw Hl Hc op.
    assert (Hin : In op (TealParser._extract_state_operations lines)).
    { apply extract_state_operations_In. exists raw.
      split; [exact Hl|]. split; [|reflexivity].
      now apply recorded_operation_global_get_ex. }
    split; [exact Hin|]. split; [|reflexivity].
    unfold _check_unsafe_state_operations_teal. apply in_flat_map.
    exists op. split; [exact Hin|]. now left.
Qed.

Section TealOpcodes.

Variable lines : list str.

Lemma extract_opcodes_In (op : Opcode) :
  In op (TealParser._extract_opcodes lines) ->
  exists raw,
    line_at lines (o_line op) = Some raw /\
    full_instruction op = strip raw /\
    endswith_char (strip raw) ":"%char = false /\
    startswith (strip raw) "//" = false /\
    startswith (strip raw) "#" = false /\
    mem (opcode op) TealParser.TEAL_OPCODES = true /\
    exists first, split (strip raw) = first :: o_args op /\
                  opcode op = lower first.
Proof.
  unfold TealParser._extract_opcodes. rewrite in_flat_map.
  intros [[i raw] [Hin Hop]]. apply In_enumerate_line_at in Hin.
  destruct (TealParser.isempty (strip raw)); [destruct Hop|].
  destruct (startswith (strip raw) "//") eqn:Hc; [destruct Hop|].
  destruct (startswith (strip raw) "#") eqn:Hp; [destruct Hop|].
  cbn [orb] in Hop.
  destruct (endswith_char (strip raw) ":"%char) eqn:He; [destruct Hop|].
  destruct (split (strip raw)) as [|first rest] eqn:Hs; [destruct Hop|].
  destruct (mem (lower first) TealParser.TEAL_OPCODES) eqn:Hm;
    [|destruct Hop].
  destruct Hop as [<-|[]]. exists raw. cbn. repeat split; auto.
  exists first. auto.
Qed.

Lemma extract_labels_In (label : Label) :
  In label (TealParser._extract_labels lines) ->
  exists raw,
    line_at lines (l_line label) = Some raw /\
    endswith_char (strip raw) ":"%char = true /\
    l_name label = strip (drop_last (strip raw)).
Proof.
  unfold TealParser._extract_labels. rewrite in_flat_map.
  intros [[i raw] [Hin Hl]]. apply In_enumerate_line_at in Hin.
  destruct (endswith_char (strip raw) ":"%char) eqn:He;
    [|destruct Hl].
  destruct (negb (startswith (strip raw) "//")); [|destruct Hl].
  cbn [andb] in Hl.
  destruct (_ && _); [|destruct Hl].
  destruct Hl as [<-|[]]. exists raw. auto.
Qed.

End TealOpcodes.

(** X15.  Every opcode entry that the parser extracts points to a line of
    the file: its line number is between 1 and the number of lines, its
    instruction is that line without the surrounding white space, the line
    is neither a comment nor a pragma, and its opcode is one of the known
    opcodes.  No line gives both a label and an opcode. *)
Theorem opcode_entries_point_to_instruction_lines :
  forall (lines : list str) (op : Opcode),
    In op (TealParser._extract_opcodes lines) ->
    1 <= o_line op <= len lines /\
    (exists raw,
       line_at lines (o_line op) = Some raw /\
       full_instruction op = strip raw /\
       startswith (strip raw) "//" = false /\
       startswith (strip raw) "#" = false) /\
    In (opcode op) TealParser.TEAL_OPCODES /\
    (forall label, In label (TealParser._extract_labels lines) ->
                   l_line label <> o_line op).
Proof.
  intros lines op Hin. apply extract_opcodes_In in Hin.
  destruct Hin as (raw & Hl & Hfull & He & Hc & Hp & Hm & _).
  pose proof (line_at_Some _ _ _ Hl) as [H1 [H2 _]].
  split; [lia|]. split; [exists raw; auto|]. split.
  - unfold mem in Hm. apply existsb_exists in Hm.
    destruct Hm as [x [Hx Heq]]. apply String.eqb_eq in Heq. now subst.
  - intros label Hlab Heq. apply extract_labels_In in Hlab.
    destruct Hlab as (raw' & Hl' & He' & _). rewrite Heq, Hl in Hl'.
    injection Hl' as <-. congruence.
Qed.

(** X16.  Every finding of the built-in analysis of an assembly file
    carries the tool name [builtin], the path of the file and the
    confidence MEDIUM, and its rule decides its severity: HIGH for
    [teal_missing_access_control], MEDIUM for [teal_unsafe_state_get] and
    [teal_unchecked_arithmetic], LOW for [teal_explicit_error].  So no
    finding on an assembly file is CRITICAL or INFO. *)
Theorem teal_findings_have_fixed_severities :
  forall (file_path : Path) (doc : Document) (v : Vulnerability),
    In v (_analyze_teal file_path doc) ->
    tool v = "builtin" /\
    file v = path_str file_path /\
    confidence v = Some "MEDIUM" /\
    ((rule_id v = "teal_missing_access_control" /\ severity v = HIGH) \/
     (rule_id v = "teal_unsafe_state_get" /\ severity v = MEDIUM) \/
     (rule_id v = "teal_unchecked_arithmetic" /\ severity v = MEDIUM) \/
     (rule_id v = "teal_explicit_error" /\ severity v = LOW)) /\
    severity v <> CRITICAL /\ severity v <> Models.INFO.
Proof.
  intros file_path doc v Hin. unfold _analyze_teal in Hin.
  apply in_app_or in Hin. destruct Hin as [Hin|Hin].
  { apply check_teal_In in Hin. destruct Hin as (i & l & _ & _ & _ & ->).
    cbn. repeat split; auto; discriminate. }
  apply in_app_or in Hin. destruct Hin as [Hin|Hin].
  { apply in_flat_map in Hin. destruct Hin as [op [_ Hin]].
    destruct (mem (operation op) _); [|destruct Hin].
    destruct Hin as [<-|[]]. cbn. repeat split; auto; discriminate. }
  apply in_app_or in Hin. destruct Hin as [Hin|Hin].
  { apply in_flat_map in Hin. destruct Hin as [op [_ Hin]].
    destruct (mem (opcode op) _); [|destruct Hin].
    destruct Hin as [<-|[]]. cbn. repeat split; auto; discriminate. }
  apply in_flat_map in Hin. destruct Hin as [op [_ Hin]].
  destruct (String.eqb (opcode op) "err"); [|destruct Hin].
  destruct Hin as [<-|[]]. cbn.
  split; [reflexivity|]. split; [reflexivity|]. split; [reflexivity|].
  split; [auto 6|]. split; discriminate.
Qed.

(* ================================================================== *)
(** * More on the application language                                  *)
(* ================================================================== *)

Lemma mem_In (x : str) (l : list str) : mem x l = true <-> In x l.
Proof.
  unfold mem. rewrite existsb_exists. split.
  - intros [y [Hin Heq]]. apply String.eqb_eq in Heq. now subst.
  - intros Hin. exists x. split; [exact Hin|apply String.eqb_refl].
Qed.

Lemma decorator_names_In (id : str) (decorator_list : list expr) :
  In id (PythonParser.decorator_names decorator_list) <->
  In (Name id) decorator_list \/ In (Call (Name id)) decorator_list.
Proof.
  unfold PythonParser.decorator_names. rewrite in_flat_map. split.
  - intros [d [Hin Hd]]. destruct d as [id'|v a|f|]; cbn in Hd.
    + destruct Hd as [<-|[]]. auto.
    + destruct Hd.
    + destruct f; cbn in Hd;
        [destruct Hd as [<-|[]]; auto|destruct Hd..].
    + destruct Hd.
  - intros [H|H]; eexists; (split; [exact H|now left]).
Qed.

(** The entry that the parser builds for a function definition in the
    body of a class. *)
Definition method_of (name : str) (lineno : Z) (decorator_list : list expr)
  (args : list str) : Method :=
  {| m_name := name;
     m_line := lineno;
     m_decorators := PythonParser.decorator_names decorator_list;
     m_args := args;
     is_abi_method :=
       mem "abimethod" (PythonParser.decorator_names decorator_list) |}.

(** X17.  A function defined directly in the body of a class is extracted
    as a method, and it counts as an ABI method exactly when one of its
    decorators is the bare name [abimethod] or a call of that bare name:
    the qualified forms, such as [arc4.abimethod], do not count. *)
Theorem abi_method_needs_the_bare_decorator :
  forall (class_body : list stmt) (name : str) (lineno : Z)
         (decorator_list : list expr) (args : list str) (body : list stmt),
    In (FunctionDef name lineno decorator_list args body) class_body ->
    In (method_of name lineno decorator_list args)
       (PythonParser._extract_class_methods class_body) /\
    (is_abi_method (method_of name lineno decorator_list args) = true <->
     In (Name "abimethod") decorator_list \/
     In (Call (Name "abimethod")) decorator_list) /\
    ((forall d, In d decorator_list ->
                d <> Name "abimethod" /\ d <> Call (Name "abimethod")) ->
     is_abi_method (method_of name lineno decorator_list args) = false).
Proof.
  intros class_body name lineno decorator_list args body Hin.
  assert (Hiff : is_abi_method (method_of name lineno decorator_list args)
                 = true <->
                 In (Name "abimethod") decorator_list \/
                 In (Call (Name "abimethod")) decorator_list).
  { cbn [is_abi_method method_of]. now rewrite mem_In, decorator_names_In. }
  split; [|split; [exact Hiff|]].
  - unfold PythonParser._extract_class_methods. apply in_flat_map.
    eexists. split; [exact Hin|]. now left.
  - intros Hnone.
    apply not_true_is_false. intros Hb.
    apply Hiff in Hb. destruct Hb as [Hb|Hb];
      destruct (Hnone _ Hb) as [H1 H2]; congruence.
Qed.

(** ** The walk over the syntax tree *)

(** The nodes of a forest: its roots and the nodes below them. *)
Inductive node_in (n : stmt) : list stmt -> Prop :=
| node_here (l : list stmt) : In n l -> node_in n l
| node_below (m : stmt) (l : list stmt) :
    In m l -> node_in n (PythonParser.children m) -> node_in n l.

Lemma node_in_nil (n : stmt) : ~ node_in n [].
Proof. intros H. inversion H; subst; contradiction. Qed.

Lemma node_in_app (n : stmt) (l1 l2 : list stmt) :
  node_in n (l1 ++ l2) <-> node_in n l1 \/ node_in n l2.
Proof.
  split.
  - intros H. inversion H as [l Hin|m l Hin Hb]; subst.
    + apply in_app_or in Hin.
      destruct Hin; [left|right]; now apply node_here.
    + apply in_app_or in Hin.
      destruct Hin; [left|right]; now apply (node_below n m).
  - intros [H|H]; inversion H as [l Hin|m l Hin Hb]; subst.
    + apply node_here, in_or_app. auto.
    + apply (node_below n m); [apply in_or_app; auto|exact Hb].
    + apply node_here, in_or_app. auto.
    + apply (node_below n m); [apply in_or_app; auto|exact Hb].
Qed.

Lemma node_in_cons (n m : stmt) (l : list stmt) :
  node_in n (m :: l) <->
  n = m \/ node_in n (PythonParser.children m) \/ node_in n l.
Proof.
  change (m :: l) with ([m] ++ l). rewrite node_in_app. split.
  - intros [H|H]; [|auto]. inversion H as [l' Hin|m' l' Hin Hb]; subst.
    + destruct Hin as [->|[]]. auto.
    + destruct Hin as [->|[]]. auto.
  - intros [->|[H|H]]; [left; apply node_here; now left| |auto].
    left. apply (node_below n m); [now left|exact H].
Qed.

Lemma sizes_app (l1 l2 : list stmt) :
  PythonParser.sizes (l1 ++ l2) =
  (PythonParser.sizes l1 + PythonParser.sizes l2)%nat.
Proof.
  unfold PythonParser.sizes. induction l1 as [|x l1 IH]; simpl; auto.
  rewrite IH. lia.
Qed.

Lemma size_children (n : stmt) :
  PythonParser.size n = S (PythonParser.sizes (PythonParser.children n)).
Proof.
  assert (Hfix : forall l,
            (fix sizes (l : list stmt) : nat :=
               match l with
               | [] => 0%nat
               | x :: l' => (PythonParser.size x + sizes l')%nat
               end) l = PythonParser.sizes l).
  { induction l as [|x l IH]; [reflexivity|].
    unfold PythonParser.sizes. cbn [fold_right].
    unfold PythonParser.sizes in IH. now rewrite <- IH. }
  destruct n; cbn [PythonParser.size PythonParser.children];
    try reflexivity; now rewrite Hfix.
Qed.

(** With the fuel that [walk] gives it, the walk visits every node. *)
Lemma walk_queue_spec (fuel : nat) :
  forall todo : list stmt,
    (PythonParser.sizes todo <= fuel)%nat ->
    forall n, In n (PythonParser.walk_queue fuel todo) <-> node_in n todo.
Proof.
  induction fuel as [|fuel IH]; intros todo Hfuel n;
    cbn [PythonParser.walk_queue].
  - destruct todo as [|m rest].
    + split; [intros []|apply node_in_nil].
    + unfold PythonParser.sizes in Hfuel. cbn [fold_right] in Hfuel.
      rewrite size_children in Hfuel. lia.
  - destruct todo as [|m rest].
    + split; [intros []|apply node_in_nil].
    + cbn [In]. rewrite IH.
      * rewrite node_in_cons, node_in_app. intuition congruence.
      * rewrite sizes_app. unfold PythonParser.sizes in *.
        cbn [fold_right] in Hfuel. rewrite size_children in Hfuel.
        unfold PythonParser.sizes in Hfuel. lia.
Qed.

Lemma walk_spec (tree : list stmt) (n : stmt) :
  In n (PythonParser.walk tree) <-> node_in n tree.
Proof. apply walk_queue_spec. unfold PythonParser.walk. lia. Qed.

(** The entry that the parser builds for a class definition. *)
Definition contract_of (name : str) (lineno : Z) (bases : list expr)
  (body : list stmt) : Contract :=
  {| c_name := name;
     c_line := lineno;
     c_bases := PythonParser.base_names bases;
     c_methods := PythonParser._extract_class_methods body |}.

(** X18.  The contracts of a document are exactly the class definitions
    found anywhere in the syntax tree, nested ones included, one of whose
    bases is named as a contract class, by its bare name or by the last
    component of a dotted name.  The methods of a contract are the
    functions defined directly in its body. *)
Theorem contracts_are_the_classes_with_a_contract_base :
  forall (tree : list stmt) (contract : Contract),
    In contract (PythonParser._extract_contracts tree) <->
    exists name lineno bases body,
      node_in (ClassDef name lineno bases body) tree /\
      (exists base, In base (PythonParser.base_names bases) /\
                    In base PythonParser.ALGORAND_CLASSES) /\
      contract = contract_of name lineno bases body.
Proof.
  intros tree contract. unfold PythonParser._extract_contracts.
  rewrite in_flat_map. split.
  - intros [node [Hin Hc]]. apply walk_spec in Hin.
    destruct node as [| name lineno bases body | | |]; try destruct Hc.
    destruct (existsb _ (PythonParser.base_names bases)) eqn:Hb;
      [|destruct Hc].
    destruct Hc as [<-|[]]. exists name, lineno, bases, body.
    split; [exact Hin|]. split; [|reflexivity].
    apply existsb_exists in Hb. destruct Hb as [base [H1 H2]].
    exists base. split; [exact H1|now apply mem_In].
  - intros (name & lineno & bases & body & Hin & [base [H1 H2]] & ->).
    exists (ClassDef name lineno bases body).
    split; [now apply walk_spec|].
    assert (Hb : existsb (fun base => mem base PythonParser.ALGORAND_CLASSES)
                         (PythonParser.base_names bases) = true).
    { apply existsb_exists. exists base. split; [exact H1|].
      now apply mem_In. }
    rewrite Hb. now left.
Qed.

(** ** The rule for missing access control, in general *)

(** The rule looks at the line of the definition and the ten lines after
    it. *)
Lemma has_access_control_spec (lines : list str) (n : Z) :
  1 <= n ->
  (has_access_control lines n = true <->
   exists j l, n <= j <= n + 10 /\ line_at lines j = Some l /\
               Re.search true pat_access_control l = true).
Proof.
  intros Hn. unfold has_access_control, method_lines.
  rewrite existsb_exists. destruct (Z.leb_spec n (len lines)) as [Hle|Hgt].
  - split.
    + intros [l [Hin Hs]]. apply In_slice in Hin; [|lia|lia].
      destruct Hin as [k [Hk Hx]]. exists (Z.of_nat k + 1), l.
      split; [lia|]. split; [|exact Hs]. unfold line_at.
      destruct (Z.ltb_spec (Z.of_nat k + 1) 1); [lia|].
      rewrite <- Hx. f_equal. lia.
    + intros [j [l [Hj [Hl Hs]]]]. exists l. split; [|exact Hs].
      apply line_at_Some in Hl. destruct Hl as [H1 [H2 Hx]].
      apply In_slice; [lia|lia|].
      exists (Z.to_nat (j - 1)). split; [lia|exact Hx].
  - split; [intros [l [[] _]]|].
    intros [j [l [Hj [Hl _]]]]. apply line_at_Some in Hl. lia.
Qed.

(** X19.  On a document whose methods carry line numbers from 1 on, the
    rule [py_missing_access_control] reports exactly the ABI methods of
    the contracts whose lower-cased name contains one of the critical
    words and for which none of the eleven lines from the line of the
    definition on matches the authorization pattern.  A method whose line
    number lies beyond the end of the file has no such line, so only its
    name decides. *)
Theorem python_access_control_rule_reads_eleven_lines :
  forall (file_path : Path) (lines : list str) (doc : Document),
    (forall contract method,
       In contract (doc_contracts doc) -> In method (c_methods contract) ->
       1 <= m_line method) ->
    (forall v,
       In v (_check_missing_access_control_python file_path lines doc) <->
       exists contract method,
         In contract (doc_contracts doc) /\
         In method (c_methods contract) /\
         is_abi_method method = true /\
         is_critical method = true /\
         (forall j l, m_line method <= j <= m_line method + 10 ->
                      line_at lines j = Some l ->
                      Re.search true pat_access_control l = false) /\
         v = py_missing_access_control file_path method) /\
    (forall contract method,
       In contract (doc_contracts doc) -> In method (c_methods contract) ->
       len lines < m_line method ->
       is_abi_method method = true -> is_critical method = true ->
       In (py_missing_access_control file_path method)
          (_check_missing_access_control_python file_path lines doc)).
Proof.
  intros file_path lines doc Hlines.
  assert (Hwin : forall method, 1 <= m_line method ->
            (has_access_control lines (m_line method) = false <->
             forall j l, m_line method <= j <= m_line method + 10 ->
                         line_at lines j = Some l ->
                         Re.search true pat_access_control l = false)).
  { intros method Hm. split.
    - intros Hc j l Hj Hl. apply not_true_is_false. intros Hs.
      assert (has_access_control lines (m_line method) = true)
        by (apply has_access_control_spec; eauto).
      congruence.
    - intros Hnone. apply not_true_is_false. intros Hc.
      apply has_access_control_spec in Hc; [|exact Hm].
      destruct Hc as [j [l [Hj [Hl Hs]]]].
      rewrite (Hnone j l Hj Hl) in Hs. discriminate. }
  assert (Hiff : forall v,
       In v (_check_missing_access_control_python file_path lines doc) <->
       exists contract method,
         In contract (doc_contracts doc) /\
         In method (c_methods contract) /\
         is_abi_method method = true /\
         is_critical method = true /\
         (forall j l, m_line method <= j <= m_line method + 10 ->
                      line_at lines j = Some l ->
                      Re.search true pat_access_control l = false) /\
         v = py_missing_access_control file_path method).
  { intros v. unfold _check_missing_access_control_python.
    rewrite in_flat_map. split.
    - intros [contract [Hc Hin]]. apply in_flat_map in Hin.
      destruct Hin as [method [Hm Hin]].
      destruct (is_abi_method method) eqn:Ha; [|destruct Hin].
      destruct (is_critical method) eqn:Hcrit; [|destruct Hin].
      destruct (has_access_control lines (m_line method)) eqn:Hac;
        [destruct Hin|].
      destruct Hin as [<-|[]]. exists contract, method.
      repeat (split; [assumption|]). split; [|reflexivity].
      apply Hwin; [exact (Hlines _ _ Hc Hm)|exact Hac].
    - intros (contract & method & Hc & Hm & Ha & Hcrit & Hnone & ->).
      exists contract. split; [exact Hc|]. apply in_flat_map.
      exists method. split; [exact Hm|]. rewrite Ha, Hcrit.
      apply Hwin in Hnone; [|exact (Hlines _ _ Hc Hm)].
      rewrite Hnone. now left. }
  split; [exact Hiff|].
  intros contract method Hc Hm Hlen Ha Hcrit. apply Hiff.
  exists contract, method. repeat (split; [assumption|]).
  split; [|reflexivity]. intros j l Hj Hl.
  apply line_at_Some in Hl. lia.
Qed.

(** X20.  The orchestrator picks the parser by the lower-cased suffix of
    the path, while the built-in analyzer compares the suffix as it is
    written.  So for a file whose suffix is not in lower case, such as
    [Contract.PY], the built-in analyzer returns no finding and logs
    nothing, whatever the document holds. *)
Theorem builtin_analyzer_ignores_suffixes_not_in_lower_case :
  forall (rules : OpenRules) (f : Path) (doc : Document),
    suffix f <> lower (suffix f) ->
    analyze (BuiltinAnalyzer rules) f doc = ret [] /\
    (forall ft, _get_file_type f = Some ft ->
                supports_file_type (BuiltinAnalyzer rules) ft = true).
Proof.
  intros rules f doc Hcase. split; [|reflexivity].
  cbn [analyze BuiltinAnalyzer]. unfold builtin_analyze, mem.
  cbn [existsb].
  repeat match goal with
  | |- context [String.eqb (suffix f) ?s] =>
      destruct (String.eqb_spec (suffix f) s) as [Heq|_];
      [exfalso; apply Hcase; rewrite Heq; reflexivity|]
  end.
  reflexivity.
Qed.

(* ================================================================== *)
(** * Three more rules of the built-in analyzer                         *)
(* ================================================================== *)

Module BuiltinRules.

(** [r'Global\.latest_timestamp'] *)
Definition pat_timestamp : Re.regex := Re.lit "Global.latest_timestamp".

(** [r'(random|lottery|game|reward)'] *)
Definition pat_critical_logic : Re.regex :=
  Re.Alt (Re.lit "random")
 (Re.Alt (Re.lit "lottery") (Re.Alt (Re.lit "game") (Re.lit "reward"))).

Definition py_timestamp_dependency (file_path : Path) (i : Z) (line : str)
  : Vulnerability :=
  _create_vulnerability "builtin" file_path i MEDIUM
    "py_timestamp_dependency"
    "Critical logic depends on manipulable timestamp"
    (Some "Timestamps can be manipulated by validators and should not be used for critical decisions")
    (Some "CWE-330") MEDIUM_confidence (Some (strip line))
    (Some "Use block height or external randomness instead of timestamps")
    None.

Definition _check_timestamp_dependencies_python (file_path : Path)
  (lines : list str) : list Vulnerability :=
  flat_map (fun '(i, line) =>
    if Re.search false pat_timestamp line then
      let context_start := Z.max 0 (i - 3) in
      let context_end := Z.min (len lines) (i + 3) in
      let context_lines := slice lines context_start context_end in
      let context := join LF context_lines in
      if Re.search true pat_critical_logic context
      then [py_timestamp_dependency file_path i line]
      else []
    else []) (enumerate lines 1).

(** The five patterns of [weak_patterns]; [any] stands for [.*]. *)
Definition any : Re.regex := Re.Star Re.Dot.

Definition weak_patterns : list Re.regex :=
  [ Re.Cat (Re.lit "Global.latest_timestamp") (Re.Cat any (Re.lit "%"));
    Re.Cat (Re.lit "Txn.sender") (Re.Cat any (Re.lit "%"));
    Re.Cat (Re.lit "Global.round") (Re.Cat any (Re.lit "%"));
    Re.Cat (Re.lit "hash") (Re.Cat any (Re.lit "timestamp"));
    Re.Cat (Re.lit "random") (Re.Cat any (Re.lit "timestamp")) ].

Definition py_weak_randomness (file_path : Path) (i : Z) (line : str)
  : Vulnerability :=
  _create_vulnerability "builtin" file_path i HIGH
    "py_weak_randomness"
    "Using predictable values for randomness generation"
    (Some "Predictable values should not be used for randomness in security-critical applications")
    (Some "CWE-338") MEDIUM_confidence (Some (strip line))
    (Some "Use Algorand's VRF or external oracle for secure randomness")
    None.

Definition _check_weak_randomness_python (file_path : Path)
  (lines : list str) : list Vulnerability :=
  flat_map (fun '(i, line) =>
    flat_map (fun pattern =>
      if Re.search true pattern line
      then [py_weak_randomness file_path i line]
      else []) weak_patterns) (enumerate lines 1).

(** [r'app_global_get|app_local_get'] *)
Definition pat_state_read : Re.regex :=
  Re.Alt (Re.lit "app_global_get") (Re.lit "app_local_get").

(** [r'(app_global_get_ex|app_local_get_ex|maybe)'] *)
Definition pat_checked_read : Re.regex :=
  Re.Alt (Re.lit "app_global_get_ex")
 (Re.Alt (Re.lit "app_local_get_ex") (Re.lit "maybe")).

Definition py_unsafe_state_access (file_path : Path) (i : Z) (line : str)
  : Vulnerability :=
  _create_vulnerability "builtin" file_path i MEDIUM
    "py_unsafe_state_access"
    "State access without existence check"
    (Some "State access should check for key existence to prevent errors")
    (Some "CWE-476") MEDIUM_confidence (Some (strip line))
    (Some "Use app_global_get_ex or app_local_get_ex to check existence")
    None.

Definition _check_state_management_python (file_path : Path)
  (lines : list str) : list Vulnerability :=
  flat_map (fun '(i, line) =>
    if Re.search false pat_state_read line then
      if negb (Re.search false pat_checked_read line)
      then [py_unsafe_state_access file_path i line]
      else []
    else []) (enumerate lines 1).

(** [r'makeApplication.*TxnFromObject'] *)
Definition pat_make_transaction : Re.regex :=
  Re.Cat (Re.lit "makeApplication") (Re.Cat any (Re.lit "TxnFromObject")).

(** [r'(validate|check|assert)'] *)
Definition pat_validation : Re.regex :=
  Re.Alt (Re.lit "validate") (Re.Alt (Re.lit "check") (Re.lit "assert")).

Definition ts_unvalidated_transaction (file_path : Path) (i : Z)
  (line : str) : Vulnerability :=
  _create_vulnerability "builtin" file_path i MEDIUM
    "ts_unvalidated_transaction"
    "Transaction creation without validation"
    (Some "Transaction parameters should be validated before creation")
    None MEDIUM_confidence (Some (strip line))
    (Some "Add parameter validation before transaction creation") None.

Definition _check_unsafe_transactions_typescript (file_path : Path)
  (lines : list str) : list Vulnerability :=
  flat_map (fun '(i, line) =>
    if Re.search false pat_make_transaction line then
      let context_start := Z.max 0 (i - 3) in
      let context_end := Z.min (len lines) (i + 3) in
      let context_lines := slice lines context_start context_end in
      let context := join LF context_lines in
      if negb (Re.search true pat_validation context)
      then [ts_unvalidated_transaction file_path i line]
      else []
    else []) (enumerate lines 1).

End BuiltinRules.

(** ** Literal patterns and substrings *)

Lemma prefix_spec (w s : str) :
  String.prefix w s = true <-> exists post, s = w +++ post.
Proof.
  revert s. induction w as [|x w IH]; intros s.
  - split; [intros _; exists s; reflexivity|now destruct s].
  - destruct s as [|y s]; simpl.
    + split; [discriminate|intros [post H]; discriminate].
    + destruct (ascii_dec x y) as [->|Hne].
      * rewrite IH. split; intros [post H]; exists post; congruence.
      * split; [discriminate|]. intros [post H]. congruence.
Qed.

Lemma contains_spec (w s : str) :
  contains w s = true <-> exists pre post, s = pre +++ w +++ post.
Proof.
  induction s as [|y s IH]; cbn [contains]; rewrite orb_true_iff.
  - rewrite prefix_spec. split.
    + intros [[post H]|H]; [|discriminate].
      exists EmptyString, post. exact H.
    + intros [pre [post H]]. left. destruct pre; [eauto|discriminate].
  - rewrite prefix_spec, IH. split.
    + intros [[post H]|[pre [post H]]].
      * exists EmptyString, post. exact H.
      * exists (String y pre), post. simpl. congruence.
    + intros [[|x pre] [post H]]; [left; eauto|].
      right. exists pre, post. simpl in H. congruence.
Qed.

Lemma matches_lit (w x : str) : Re.matches false (Re.lit w) x <-> x = w.
Proof.
  revert x. induction w as [|c w IH]; intros x; cbn [Re.lit].
  - split; [intros H; now inversion H|intros ->; constructor].
  - split.
    + intros H. inversion H as [| | |r1 r2 s1 s2 H1 H2| | | |]; subst.
      inversion H1 as [|p c' Hc| | | | | |]; subst.
      apply IH in H2. subst. unfold Re.chr_match in Hc.
      apply Ascii.eqb_eq in Hc. now subst.
    + intros ->. change (String c w) with (String c EmptyString +++ w).
      constructor; [|now apply IH]. constructor.
      unfold Re.chr_match. apply Ascii.eqb_refl.
Qed.

(** Searching for a literal, case-sensitively, is the substring test. *)
Lemma search_lit (w s : str) :
  Re.search false (Re.lit w) s = contains w s.
Proof.
  apply eq_true_iff_eq. rewrite ReFacts.search_spec, contains_spec. split.
  - intros (pre & x & post & Hs & Hm). apply matches_lit in Hm. subst.
    eauto.
  - intros (pre & post & Hs). exists pre, w, post.
    split; [exact Hs|now apply matches_lit].
Qed.

Lemma search_Alt (ic : bool) (r1 r2 : Re.regex) (s : str) :
  Re.search ic (Re.Alt r1 r2) s = Re.search ic r1 s || Re.search ic r2 s.
Proof.
  apply eq_true_iff_eq.
  rewrite orb_true_iff, !ReFacts.search_spec. split.
  - intros (pre & x & post & Hs & Hm).
    inversion Hm; subst; [left|right]; eauto.
  - intros [(pre & x & post & Hs & Hm)|(pre & x & post & Hs & Hm)];
      exists pre, x, post; split; auto;
      [now apply Re.MAltL|now apply Re.MAltR].
Qed.

(** ** Contexts of lines *)

(** A pattern that matches neither the empty string nor across lines is
    found in the joined lines [a+1] to [b] exactly when it is found in one
    of them. *)
Lemma search_context (ic : bool) (r : Re.regex) (lines : list str)
  (a b : Z) :
  Re.lf_free r = true -> Re.nullable r = false -> 0 <= b ->
  (Re.search ic r (join LF (slice lines (Z.max 0 a)
                                        (Z.min (len lines) b))) = true <->
   exists j l, a + 1 <= j <= b /\ line_at lines j = Some l /\
               Re.search ic r l = true).
Proof.
  intros Hf Hn Hb. rewrite search_join_LF by assumption.
  rewrite existsb_exists. split.
  - intros [l [Hin Hs]]. apply In_slice in Hin; [|lia|unfold len; lia].
    destruct Hin as [k [Hk Hx]]. exists (Z.of_nat k + 1), l.
    split; [lia|]. split; [|exact Hs]. unfold line_at.
    destruct (Z.ltb_spec (Z.of_nat k + 1) 1); [lia|].
    rewrite <- Hx. f_equal. lia.
  - intros [j [l [Hj [Hl Hs]]]]. exists l. split; [|exact Hs].
    apply line_at_Some in Hl. destruct Hl as [H1 [H2 Hx]].
    apply In_slice; [lia|unfold len; lia|].
    exists (Z.to_nat (j - 1)). split; [lia|exact Hx].
Qed.

(** X21.  The rule [py_timestamp_dependency] reports exactly the lines
    that contain [Global.latest_timestamp] and have, among the two lines
    before, the line itself and the three lines after, a line in which
    one of the words [random], [lottery], [game] or [reward] occurs in any
    case. *)
Theorem timestamp_rule_reads_two_lines_before_and_three_after :
  forall (file_path : Path) (lines : list str) (v : Vulnerability),
    In v (BuiltinRules._check_timestamp_dependencies_python file_path lines)
    <->
    exists i line,
      line_at lines i = Some line /\
      contains "Global.latest_timestamp" line = true /\
      (exists j l, i - 2 <= j <= i + 3 /\ line_at lines j = Some l /\
                   Re.search true BuiltinRules.pat_critical_logic l = true) /\
      v = BuiltinRules.py_timestamp_dependency file_path i line.
Proof.
  intros file_path lines v.
  unfold BuiltinRules._check_timestamp_dependencies_python.
  rewrite in_flat_map. unfold BuiltinRules.pat_timestamp. split.
  - intros [[i line] [Hin Hv]]. rewrite search_lit in Hv.
    apply In_enumerate_line_at in Hin.
    pose proof (line_at_Some _ _ _ Hin) as [Hi _].
    destruct (contains "Global.latest_timestamp" line) eqn:Ht;
      [|destruct Hv].
    destruct (Re.search true BuiltinRules.pat_critical_logic _) eqn:Hc;
      [|destruct Hv].
    destruct Hv as [<-|[]]. exists i, line. split; [exact Hin|].
    split; [exact Ht|]. split; [|reflexivity].
    apply search_context in Hc; [|reflexivity|reflexivity|lia].
    destruct Hc as [j [l [Hj Hl]]]. exists j, l. split; [lia|exact Hl].
  - intros (i & line & Hl & Ht & (j & l & Hj & Hjl & Hs) & ->).
    exists (i, line). split; [now apply In_enumerate_line_at|].
    rewrite search_lit, Ht.
    pose proof (line_at_Some _ _ _ Hl) as [Hi _].
    assert (Hc : Re.search true BuiltinRules.pat_critical_logic
                   (join LF (slice lines (Z.max 0 (i - 3))
                                         (Z.min (len lines) (i + 3))))
                 = true).
    { apply search_context; [reflexivity|reflexivity|lia|].
      exists j, l. split; [lia|auto]. }
    rewrite Hc. now left.
Qed.

Lemma filter_line_enumerate (g : Z -> str -> list Vulnerability)
  (lines : list str) (i : Z) :
  (forall j l v, In v (g j l) -> Models.line v = j) ->
  forall start,
    filter (fun v => Models.line v =? i)
           (flat_map (fun '(j, l) => g j l) (enumerate lines start)) =
    if i <? start then []
    else match nth_error lines (Z.to_nat (i - start)) with
         | Some l => g i l
         | None => []
         end.
Proof.
  intros Hg. induction lines as [|x rest IH]; intros start.
  - cbn. destruct (i <? start); [reflexivity|].
    now destruct (Z.to_nat (i - start)).
  - cbn [enumerate flat_map]. rewrite filter_app, IH.
    assert (Hhere : filter (fun v => Models.line v =? i) (g start x) =
                    if start =? i then g start x else []).
    { destruct (Z.eqb_spec start i) as [->|Hne].
      - apply forallb_filter_id. apply forallb_forall. intros v Hv.
        apply Z.eqb_eq. eauto.
      - assert (forall l', (forall v, In v l' -> Models.line v = start) ->
                           filter (fun v => Models.line v =? i) l' = []).
        { induction l' as [|v l' IHl]; intros Hall; [reflexivity|].
          cbn [filter]. destruct (Z.eqb_spec (Models.line v) i) as [He|_].
          - rewrite (Hall v) in He by now left. congruence.
          - apply IHl. intros w Hw. apply Hall. now right. }
        apply H. intros v Hv. eauto. }
    rewrite Hhere. clear Hhere IH.
    destruct (Z.eqb_spec start i) as [Heq|Hne].
    + rewrite Heq.
      destruct (Z.ltb_spec i (i + 1)); [|lia].
      destruct (Z.ltb_spec i i); [lia|].
      replace (i - i) with 0 by lia. cbn. now rewrite app_nil_r.
    + cbn [app]. destruct (Z.ltb_spec i (start + 1));
        destruct (Z.ltb_spec i start); try lia; try reflexivity.
      replace (Z.to_nat (i - start)) with (S (Z.to_nat (i - (start + 1))))
        by lia.
      reflexivity.
Qed.

Lemma flat_map_if_repeat {A B} (p : A -> bool) (b : B) (l : list A) :
  flat_map (fun a => if p a then [b] else []) l =
  repeat b (List.length (filter p l)).
Proof.
  induction l as [|a l IH]; [reflexivity|].
  cbn [flat_map filter]. destruct (p a); cbn; now rewrite IH.
Qed.

(** X22.  The rule [py_weak_randomness] reports a line once for every
    one of its five patterns that the line matches: the findings of a line
    are as many copies of one finding as there are matching patterns, so a
    line that matches two patterns is reported twice. *)
Theorem weak_randomness_rule_reports_once_per_pattern :
  forall (file_path : Path) (lines : list str) (i : Z) (line : str),
    line_at lines i = Some line ->
    filter (fun v => Models.line v =? i)
           (BuiltinRules._check_weak_randomness_python file_path lines) =
    repeat (BuiltinRules.py_weak_randomness file_path i line)
           (List.length (filter (fun pattern => Re.search true pattern line)
                                BuiltinRules.weak_patterns)).
Proof.
  intros file_path lines i line Hl.
  unfold BuiltinRules._check_weak_randomness_python.
  rewrite (filter_line_enumerate
             (fun j l =>
                flat_map (fun pattern =>
                  if Re.search true pattern l
                  then [BuiltinRules.py_weak_randomness file_path j l]
                  else []) BuiltinRules.weak_patterns)).
  - unfold line_at in Hl. destruct (i <? 1); [discriminate|].
    rewrite Hl. apply flat_map_if_repeat.
  - intros j l v Hv. apply in_flat_map in Hv. destruct Hv as [p [_ Hv]].
    destruct (Re.search true p l); [|destruct Hv].
    destruct Hv as [<-|[]]. reflexivity.
Qed.

(** X23.  The rule [py_unsafe_state_access] reports exactly the lines
    that contain [app_global_get] or [app_local_get] and contain none of
    [app_global_get_ex], [app_local_get_ex] and [maybe].  So, unlike the
    rule for the assembly format, it never reports an existence-checked
    read; and the word [maybe] anywhere in a line silences it. *)
Theorem python_state_rule_spares_existence_checked_reads :
  forall (file_path : Path) (lines : list str) (v : Vulnerability),
    In v (BuiltinRules._check_state_management_python file_path lines) <->
    exists i line,
      line_at lines i = Some line /\
      (contains "app_global_get" line = true \/
       contains "app_local_get" line = true) /\
      contains "app_global_get_ex" line = false /\
      contains "app_local_get_ex" line = false /\
      contains "maybe" line = false /\
      v = BuiltinRules.py_unsafe_state_access file_path i line.
Proof.
  intros file_path lines v.
  unfold BuiltinRules._check_state_management_python.
  rewrite in_flat_map.
  unfold BuiltinRules.pat_state_read, BuiltinRules.pat_checked_read.
  split.
  - intros [[i line] [Hin Hv]]. rewrite !search_Alt, !search_lit in Hv.
    apply In_enumerate_line_at in Hin.
    destruct (contains "app_global_get" line || contains "app_local_get" line)
      eqn:Hr; [|destruct Hv].
    destruct (contains "app_global_get_ex" line ||
              (contains "app_local_get_ex" line || contains "maybe" line))
      eqn:Hx; [destruct Hv|].
    destruct Hv as [<-|[]]. exists i, line.
    apply orb_true_iff in Hr. apply orb_false_iff in Hx.
    destruct Hx as [Hx1 Hx]. apply orb_false_iff in Hx.
    destruct Hx as [Hx2 Hx3]. auto 10.
  - intros (i & line & Hl & Hr & Hx1 & Hx2 & Hx3 & ->).
    exists (i, line). split; [now apply In_enumerate_line_at|].
    rewrite !search_Alt, !search_lit, Hx1, Hx2, Hx3.
    apply orb_true_iff in Hr. rewrite Hr. now left.
Qed.

(** X24.  The rule [ts_unvalidated_transaction] reports exactly the lines
    that match [makeApplication.*TxnFromObject] and have, among the two
    lines before, the line itself and the three lines after, no line in
    which [validate], [check] or [assert] occurs in any case. *)
Theorem transaction_rule_reads_two_lines_before_and_three_after :
  forall (file_path : Path) (lines : list str) (v : Vulnerability),
    In v (BuiltinRules._check_unsafe_transactions_typescript file_path lines)
    <->
    exists i line,
      line_at lines i = Some line /\
      Re.search false BuiltinRules.pat_make_transaction line = true /\
      (forall j l, i - 2 <= j <= i + 3 -> line_at lines j = Some l ->
                   Re.search true BuiltinRules.pat_validation l = false) /\
      v = BuiltinRules.ts_unvalidated_transaction file_path i line.
Proof.
  intros file_path lines v.
  unfold BuiltinRules._check_unsafe_transactions_typescript.
  rewrite in_flat_map. split.
  - intros [[i line] [Hin Hv]]. apply In_enumerate_line_at in Hin.
    pose proof (line_at_Some _ _ _ Hin) as [Hi _].
    destruct (Re.search false BuiltinRules.pat_make_transaction line) eqn:Ht;
      [|destruct Hv].
    destruct (Re.search true BuiltinRules.pat_validation _) eqn:Hc;
      [destruct Hv|].
    destruct Hv as [<-|[]]. exists i, line. split; [exact Hin|].
    split; [exact Ht|]. split; [|reflexivity].
    intros j l Hj Hl. apply not_true_is_false. intros Hs.
    assert (Hc' : Re.search true BuiltinRules.pat_validation
                    (join LF (slice lines (Z.max 0 (i - 3))
                                          (Z.min (len lines) (i + 3))))
                  = true).
    { apply search_context; [reflexivity|reflexivity|lia|].
      exists j, l. split; [lia|auto]. }
    congruence.
  - intros (i & line & Hl & Ht & Hnone & ->).
    exists (i, line). split; [now apply In_enumerate_line_at|].
    rewrite Ht. pose proof (line_at_Some _ _ _ Hl) as [Hi _].
    destruct (Re.search true BuiltinRules.pat_validation _) eqn:Hc;
      [|now left].
    apply search_context in Hc; [|reflexivity|reflexivity|lia].
    destruct Hc as [j [l [Hj [Hjl Hs]]]].
    rewrite (Hnone j l) in Hs; [discriminate|lia|exact Hjl].
Qed.

(* ================================================================== *)
(** * The documents of the assembly-format parser                       *)
(* ================================================================== *)

(** X25.  Every document that the assembly-format parser returns is
    consistent with the file: the file was read and recognised as
    assembly code, the lines of the document are the lines of the content,
    the line count is their number, and every opcode, label and state
    operation entry carries a line number between 1 and the line count. *)
Theorem teal_document_is_consistent_with_the_file :
  forall (fs : FileDiscovery.FileSystem) (int_of_str : str -> option Z)
         (tx_fields : list str -> result (list TxField))
         (file_path : Path) (doc : Document),
    outcome (TealParser.parse fs int_of_str tx_fields file_path)
      = Ret (Some doc) ->
    exists d content,
      doc = TealDoc d /\
      FileDiscovery.read_text fs file_path = Ret content /\
      TealParser._is_teal_file content = true /\
      teal_file_path d = path_str file_path /\
      teal_content d = content /\
      teal_lines d = splitlines content /\
      line_count d = len (teal_lines d) /\
      tx_fields (teal_lines d) = Ret (transaction_fields d) /\
      (forall op, In op (opcodes d) -> 1 <= o_line op <= line_count d) /\
      (forall label, In label (labels d) ->
                     1 <= l_line label <= line_count d) /\
      (forall op, In op (state_operations d) ->
                  1 <= so_line op <= line_count d).
Proof.
  intros fs int_of_str tx_fields file_path doc.
  unfold TealParser.parse, TealParser._read_file, lift. intros H.
  destruct (FileDiscovery.read_text fs file_path) as [content|e];
    [|cbn in H; discriminate H].
  cbn [bind] in H.
  destruct (TealParser._is_teal_file content) eqn:Hteal;
    [|cbn in H; discriminate H].
  cbn [negb bind] in H.
  destruct (tx_fields (splitlines content)) as [fields|e] eqn:Htx;
    [|cbn in H; discriminate H].
  cbn in H. injection H as <-.
  eexists. exists content. split; [reflexivity|].
  cbn [teal_file_path teal_content teal_lines line_count transaction_fields
       opcodes labels state_operations].
  repeat (split; [first [reflexivity|assumption]|]).
  split; [|split].
  - intros op Hin. apply extract_opcodes_In in Hin.
    destruct Hin as (raw & Hl & _). apply line_at_Some in Hl. lia.
  - intros label Hin. apply extract_labels_In in Hin.
    destruct Hin as (raw & Hl & _). apply line_at_Some in Hl. lia.
  - intros op Hin. apply extract_state_operations_In in Hin.
    destruct Hin as (raw & Hl & _). apply line_at_Some in Hl. lia.
Qed.

(* ================================================================== *)
(** * More runs in the small world                                      *)
(* ================================================================== *)

Module Runs.
Import Demo.

Definition high_finding : Vulnerability :=
  teal_missing_access_control a_teal 3 "app_global_put".

Definition medium_finding : Vulnerability :=
  BuiltinRules.py_unsafe_state_access a_teal 1 "v = app_global_get(k)".

Definition a_report : ScanResult :=
  {| files_scanned := 1;
     vulnerabilities := [medium_finding; high_finding];
     errors := [];
     scan_duration := t0;
     tools_used := ["builtin"] |}.

Lemma exit_code_of_a_report :
  Cli._get_exit_code a_report LOW = 2 /\
  Cli._get_exit_code a_report CRITICAL = Cli._get_exit_code a_report LOW.
Proof.
  destruct (exit_code_names_the_worst_severity a_report LOW)
    as [_ [H2 [_ [_ H5]]]].
  split; [|apply H5]. apply H2. split.
  - intros [v [[<-|[<-|[]]] Hs]]; discriminate Hs.
  - exists high_finding. split; [right; now left|reflexivity].
Defined.

Lemma exit_code_with_a_high_threshold :
  exists t report,
    scan (init env (config_with ["builtin"] HIGH))
         [0%nat; 1%nat] t0 t1 = Some (t, Ret report) /\
    Cli._get_exit_code report HIGH <> 1.
Proof.
  assert (H : exists t report,
            scan (init env (config_with ["builtin"] HIGH))
                 [0%nat; 1%nat] t0 t1 = Some (t, Ret report))
    by (eexists; eexists; reflexivity).
  destruct H as [t [report H]]. exists t, report. split; [exact H|].
  destruct (exit_code_ignores_findings_below_the_threshold
              (init env (config_with ["builtin"] HIGH)) [0%nat; 1%nat]
              t0 t1 t report H) as [H1 _].
  apply H1. simpl. lia.
Defined.


Lemma failing_parser_fails_the_file :
  outcome (_scan_single_file scanner_with_failing_parser b_teal)
  = Raise boom.
Proof.
  apply (proj2 (single_file_scan_raises_only_from_the_parser
                  scanner_with_failing_parser b_teal boom)).
  exists TEAL, failing_parser. repeat split.
Defined.

Lemma unreadable_file_is_skipped :
  skipped scanner vendored_teal /\
  outcome (scan_file scanner vendored_teal) = Ret [] /\
  awaited (trace (scan_file scanner vendored_teal)) = [].
Proof.
  assert (H : skipped scanner vendored_teal) by (vm_compute; reflexivity).
  split; [exact H|].
  destruct (skipped_file_is_not_analyzed scanner vendored_teal H)
    as [_ [H2 [H3 _]]].
  split; [exact H2|exact H3].
Defined.

(** The document of [a.teal]. *)
Definition counter_document : Document :=
  TealDoc {| teal_file_path := "contracts/a.teal";
             teal_content := a_content;
             teal_lines := ["#pragma version 6"; "int 1"; "app_global_put"];
             version := Some 6;
             labels := [];
             opcodes :=
               [ {| opcode := "int"; o_line := 2;
                    full_instruction := "int 1"; o_args := ["1"] |};
                 {| opcode := "app_global_put"; o_line := 3;
                    full_instruction := "app_global_put"; o_args := [] |} ];
             subroutines := [];
             state_operations :=
               [ {| operation := "app_global_put"; so_line := 3;
                    instruction := "app_global_put" |} ];
             transaction_fields := [];
             line_count := 3 |}.

Definition teal_parser : Parser :=
  TealParser.parse fs int_of_str (fun _ => Ret []).

Lemma parsed_file_in_the_small_world :
  awaited (trace (_scan_single_file scanner a_teal)) = ["builtin"] /\
  outcome (_scan_single_file scanner a_teal) =
    Ret (flat_map (contribution TEAL a_teal counter_document)
                  (Core.analyzers scanner)).
Proof.
  destruct (parsed_file_goes_to_the_supporting_analyzers
              scanner a_teal TEAL teal_parser counter_document)
    as [H1 H2]; try reflexivity.
  split; [rewrite H2; reflexivity|exact H1].
Defined.


(** A tool that is installed and crashes. *)
Definition crashing_tool : Tool :=
  {| available := true;
     run := fun _ _ => log WARNING "starting" ;;; raise boom |}.

Lemma crashing_tool_in_the_log :
  logged ERROR (trace (analyze (PandaAnalyzer crashing_tool) a_teal
                               counter_document))
    = ["Error running Panda analysis on contracts/a.teal: boom"] /\
  logged ERROR (trace (analyze (TealerAnalyzer crashing_tool) a_teal
                               counter_document)) = [].
Proof.
  destruct (tool_failure_is_logged_except_by_tealer crashing_tool a_teal
              counter_document boom eq_refl eq_refl) as [H1 [_ H3]].
  split; [rewrite H1|rewrite H3]; reflexivity.
Defined.

(** A matcher that finds one call of [Math.random] on the second line. *)
Definition finditer (issue_type content : str) : result (list (nat * str)) :=
  if String.eqb issue_type "unsafe_random"
  then Ret [(10%nat, "Math.random()")]
  else Ret [].

Definition script : str := "const a =" +++ LF +++ "Math.random()".

Definition random_issue : SecurityIssue :=
  {| si_type := "unsafe_random"; si_line := 2; si_match := "Math.random()";
     si_severity := "HIGH" |}.

Lemma random_issue_converts :
  TypeScriptSecurity._extract_security_patterns finditer script
    = Ret [random_issue] /\
  exists findings,
    TypeScriptSecurity.convert_security_issues (fun s => s)
      ["app.ts"] [random_issue] [] = Ret findings /\
    In (si_type random_issue) TypeScriptSecurity.SECURITY_PATTERNS.
Proof.
  assert (H : TypeScriptSecurity._extract_security_patterns finditer script
              = Ret [random_issue]) by reflexivity.
  split; [exact H|].
  destruct (recorded_security_issues_always_convert finditer (fun s => s)
              ["app.ts"] script [random_issue] H)
    as [H1 [findings [H2 _]]].
  exists findings. split; [exact H2|].
  inversion H1 as [|? ? [H3 _] _]. exact H3.
Defined.

Lemma sarif_of_a_report :
  NoDup (map OutputFormatter.sr_id
             (OutputFormatter._get_sarif_rules a_report)) /\
  forall res, In res (OutputFormatter._get_sarif_results a_report) ->
              OutputFormatter.startColumn res <> 0.
Proof.
  destruct (sarif_rules_are_the_first_findings a_report)
    as [_ [H2 [_ [_ H5]]]].
  split; [exact H2|exact H5].
Defined.

Definition config_with_file_targets : ScanConfig :=
  {| target_paths := ["contracts/a.teal"; "contracts/node_modules/c.teal"];
     include_patterns := ["*.teal"];
     exclude_patterns := ["*node_modules*"];
     Models.analyzers := ["builtin"];
     severity_threshold := LOW;
     output_format := "json";
     output_file := None;
     max_workers := 4;
     timeout := 300 |}.

Lemma named_files_in_the_small_world :
  exists files,
    outcome (FileDiscovery.discover_files fnmatch fs config_with_file_targets)
      = Ret files /\
    In a_teal files /\
    FileDiscovery.is_file fs a_teal = Ret true /\
    ~ In vendored_teal files.
Proof.
  assert (Hret : exists files,
            outcome (FileDiscovery.discover_files fnmatch fs
                       config_with_file_targets) = Ret files)
    by (eexists; reflexivity).
  destruct Hret as [files Hret].
  destruct (discovery_returns_included_files_only fnmatch fs
              config_with_file_targets files Hret) as [H2 H3].
  exists files. split; [exact Hret|].
  assert (Ha : In a_teal files).
  { apply (H3 "contracts/a.teal"); [now left|reflexivity|reflexivity]. }
  split; [exact Ha|]. split; [exact (proj1 (H2 _ Ha))|].
  intros Hv. apply H2 in Hv. destruct Hv as [_ Hv]. discriminate Hv.
Defined.

Lemma checked_read_in_the_small_world :
  In (teal_unsafe_state_get a_teal
        {| operation := "app_global_get"; so_line := 1;
           instruction := "app_global_get_ex" |})
     (_check_unsafe_state_operations_teal a_teal
        (TealParser._extract_state_operations ["  app_global_get_ex"])).
Proof.
  destruct (existence_checked_read_is_reported_as_unsafe a_teal
              ["  app_global_get_ex"]) as [_ H].
  destruct (H 1 "  app_global_get_ex" eq_refl eq_refl) as [_ [H2 _]].
  exact H2.
Defined.

Lemma opcode_of_the_counter :
  1 <= 2 <= len ["#pragma version 6"; "int 1"; "app_global_put"] /\
  In "int" TealParser.TEAL_OPCODES.
Proof.
  destruct (opcode_entries_point_to_instruction_lines
              ["#pragma version 6"; "int 1"; "app_global_put"]
              {| opcode := "int"; o_line := 2;
                 full_instruction := "int 1"; o_args := ["1"] |})
    as [H1 [_ [H3 _]]]; [now left|].
  split; [exact H1|exact H3].
Defined.

Lemma severity_of_the_counter_finding :
  severity high_finding <> CRITICAL /\ tool high_finding = "builtin".
Proof.
  destruct (teal_findings_have_fixed_severities a_teal counter_document
              high_finding) as [H1 [_ [_ [_ [H5 _]]]]]; [now left|].
  split; [exact H5|exact H1].
Defined.

Definition qualified_decorator : expr :=
  Call (Attribute (Name "arc4") "abimethod").

Lemma qualified_decorator_is_not_recognised :
  is_abi_method (method_of "withdraw" 27 [qualified_decorator] ["self"])
  = false.
Proof.
  destruct (abi_method_needs_the_bare_decorator
              [FunctionDef "withdraw" 27 [qualified_decorator] ["self"] []]
              "withdraw" 27 [qualified_decorator] ["self"] [])
    as [_ [_ H]]; [now left|].
  apply H. intros d [<-|[]]. split; discriminate.
Defined.

Lemma sample_contract_is_extracted :
  exists body,
    In (contract_of "VulnerableContract" 10 [Name "ARC4Contract"] body)
       (PythonParser._extract_contracts Fixture.head_tree).
Proof.
  eexists.
  apply (proj2 (contracts_are_the_classes_with_a_contract_base
                  Fixture.head_tree _)).
  eexists _, _, _, _. split.
  - apply node_here. right. right. right. left. reflexivity.
  - split; [|reflexivity]. exists "ARC4Contract". split; now left.
Defined.

Definition short_document : Document :=
  PythonDoc {| py_file_path := "bank.py";
               py_content := "import algopy";
               py_ast := [];
               py_contracts :=
                 [ {| c_name := "Bank"; c_line := 3; c_bases := ["ARC4Contract"];
                      c_methods := [Fixture.withdraw] |} ];
               py_imports := [];
               py_functions := [];
               py_lines := ["import algopy"] |}.

Lemma method_beyond_the_end_is_reported :
  In (py_missing_access_control ["bank.py"] Fixture.withdraw)
     (_check_missing_access_control_python ["bank.py"] ["import algopy"]
        short_document).
Proof.
  destruct (python_access_control_rule_reads_eleven_lines ["bank.py"]
              ["import algopy"] short_document) as [_ H].
  - intros contract method [<-|[]] [<-|[]]. simpl. lia.
  - apply (H _ Fixture.withdraw (or_introl eq_refl) (or_introl eq_refl));
      reflexivity.
Defined.

Lemma upper_case_suffix_in_the_small_world :
  _get_file_type ["Contract.PY"] = Some PYTHON /\
  analyze (BuiltinAnalyzer (open_rules env)) ["Contract.PY"] short_document
  = ret [].
Proof.
  split; [reflexivity|].
  destruct (builtin_analyzer_ignores_suffixes_not_in_lower_case
              (open_rules env) ["Contract.PY"] short_document) as [H _].
  - discriminate.
  - exact H.
Defined.

Lemma timestamp_near_a_lottery :
  In (BuiltinRules.py_timestamp_dependency ["game.py"] 2
        "t = Global.latest_timestamp")
     (BuiltinRules._check_timestamp_dependencies_python ["game.py"]
        ["winner = Lottery.draw()"; "t = Global.latest_timestamp"]).
Proof.
  apply (proj2 (timestamp_rule_reads_two_lines_before_and_three_after
                  ["game.py"]
                  ["winner = Lottery.draw()"; "t = Global.latest_timestamp"]
                  _)).
  exists 2, "t = Global.latest_timestamp".
  split; [reflexivity|]. split; [reflexivity|]. split; [|reflexivity].
  exists 1, "winner = Lottery.draw()". split; [lia|]. split; reflexivity.
Defined.

Lemma line_reported_twice :
  filter (fun v => Models.line v =? 1)
         (BuiltinRules._check_weak_randomness_python ["game.py"]
            ["x = hash(random_timestamp)"]) =
  [BuiltinRules.py_weak_randomness ["game.py"] 1 "x = hash(random_timestamp)";
   BuiltinRules.py_weak_randomness ["game.py"] 1 "x = hash(random_timestamp)"].
Proof.
  rewrite (weak_randomness_rule_reports_once_per_pattern ["game.py"]
             ["x = hash(random_timestamp)"] 1 "x = hash(random_timestamp)"
             eq_refl).
  reflexivity.
Defined.

Lemma plain_read_is_reported :
  In (BuiltinRules.py_unsafe_state_access a_teal 1 "v = app_global_get(k)")
     (BuiltinRules._check_state_management_python a_teal
        ["v = app_global_get(k)"; "w = app_global_get_ex(k)"]).
Proof.
  apply (proj2 (python_state_rule_spares_existence_checked_reads a_teal
                  ["v = app_global_get(k)"; "w = app_global_get_ex(k)"] _)).
  exists 1, "v = app_global_get(k)".
  split; [reflexivity|]. split; [left; reflexivity|].
  repeat (split; [reflexivity|]). reflexivity.
Defined.

Lemma unvalidated_transaction_is_reported :
  In (BuiltinRules.ts_unvalidated_transaction ["app.ts"] 1
        "const t = makeApplicationCallTxnFromObject(p)")
     (BuiltinRules._check_unsafe_transactions_typescript ["app.ts"]
        ["const t = makeApplicationCallTxnFromObject(p)"]).
Proof.
  apply (proj2 (transaction_rule_reads_two_lines_before_and_three_after
                  ["app.ts"]
                  ["const t = makeApplicationCallTxnFromObject(p)"] _)).
  exists 1, "const t = makeApplicationCallTxnFromObject(p)".
  split; [reflexivity|]. split; [reflexivity|]. split; [|reflexivity].
  intros j l Hj Hl. pose proof (line_at_Some _ _ _ Hl) as [H1 [H2 _]].
  change (len ["const t = makeApplicationCallTxnFromObject(p)"]) with 1 in H2.
  assert (j = 1) by lia. subst j. injection Hl as <-. reflexivity.
Defined.

Lemma counter_document_is_consistent :
  exists d,
    counter_document = TealDoc d /\
    line_count d = len (teal_lines d) /\
    forall op, In op (opcodes d) -> 1 <= o_line op <= line_count d.
Proof.
  destruct (teal_document_is_consistent_with_the_file fs int_of_str
              (fun _ => Ret []) a_teal counter_document eq_refl)
    as (d & content & H1 & _ & _ & _ & _ & _ & H7 & _ & H9 & _).
  exists d. split; [exact H1|]. split; [exact H7|exact H9].
Defined.

End Runs.
